(** * TwitchChannelPointsMiner: the session orchestrator

  A shallow embedding of [TwitchChannelPointsMiner/TwitchChannelPointsMiner.py]
  (class [TwitchChannelPointsMiner]: [run], [__remove_missing],
  [__reload_streamers], [__save_original], [end], [__print_report]) and the
  properties of it that the repository's specification states.

  Python objects that are shared and mutated in place ([Streamer]s, the
  connection pool, the prediction store) live in an explicit store; the
  miner's own slots hold references into it.  Calls into modules that
  are not part of this file ([Twitch], [WebSocketsPool], [Settings],
  [utils]) are parameters collected in [Externals.t]; log records, prints
  and the calls made for their effect are recorded in the trace of the
  run. *)

From stdpp Require Import gmap strings list fin_maps.
From Stdlib Require Import Ascii QArith.
Local Close Scope Q_scope.

(** ** Python strings (ASCII range): [str.lower] and [str.strip] *)

Module Str.

Definition lower_ascii (c : ascii) : ascii :=
  let n := nat_of_ascii c in
  if (65 <=? n)%nat && (n <=? 90)%nat then ascii_of_nat (n + 32) else c.

Fixpoint lower (s : string) : string :=
  match s with
  | EmptyString => EmptyString
  | String c s' => String (lower_ascii c) (lower s')
  end.

(** Whitespace for [str.strip()] below code point 128:
    TAB, LF, VT, FF, CR, FS, GS, RS, US and SPACE. *)
Definition is_whitespace (c : ascii) : bool :=
  let n := nat_of_ascii c in
  ((9 <=? n)%nat && (n <=? 13)%nat) || ((28 <=? n)%nat && (n <=? 32)%nat).

Fixpoint lstrip (s : string) : string :=
  match s with
  | EmptyString => EmptyString
  | String c s' => if is_whitespace c then lstrip s' else s
  end.

Definition rstrip (s : string) : string := String.rev (lstrip (String.rev s)).

Definition strip (s : string) : string := rstrip (lstrip s).

End Str.

(** [x in l] / [x not in l] on Python lists of strings. *)
Definition py_in (x : string) (l : list string) : bool := bool_decide (x ∈ l).

(** [list.remove(x)]: drops the first occurrence (the callers test
    membership first, so the [ValueError] case does not arise). *)
Fixpoint list_remove (x : string) (l : list string) : list string :=
  match l with
  | [] => []
  | y :: l' => if decide (x = y) then l' else y :: list_remove x l'
  end.

(** ** Data model *)

(** References to [Streamer] objects in the store. *)
Definition loc := nat.

Module BetSettings.
(** Only what this file touches of [BetSettings]: its printed form and
    [filter_condition]. *)
Record t := mk { repr : string; filter_condition : option string }.
End BetSettings.

Module StreamerSettings.
(** Every attribute may still be [None] until [set_default_settings]
    has filled it in. *)
Record t := mk {
  make_predictions : option bool;
  follow_raid : option bool;
  claim_drops : option bool;
  watch_streak : option bool;
  join_chat : option bool;
  bet : option BetSettings.t;
}.

Definition set_make_predictions (v : option bool) (s : t) : t :=
  mk v (follow_raid s) (claim_drops s) (watch_streak s) (join_chat s) (bet s).

Definition set_bet (v : option BetSettings.t) (s : t) : t :=
  mk (make_predictions s) (follow_raid s) (claim_drops s) (watch_streak s)
     (join_chat s) v.
End StreamerSettings.

Module Thread.
(** A [threading.Thread] as the shutdown handler sees it: it has
    already finished, or it is alive and either ends by itself once it is
    asked to ([exits = true]) or never does. *)
Inductive status := Finished | Alive (exits : bool).
Record t := mk { name : string; state : status }.

Definition is_alive (th : t) : bool :=
  match state th with Finished => false | Alive _ => true end.
End Thread.

Module Lock.
(** A [threading.Lock] as the thread that runs the modelled code sees
    it: free, held by that thread itself ([Held]), or held by another
    thread that either releases it eventually ([releases = true]) or
    never does (a worker stalled or killed inside its critical
    section). *)
Inductive t := Unlocked | Held | Locked (releases : bool).

Definition locked (m : t) : bool :=
  match m with Unlocked => false | _ => true end.
End Lock.

Module Streamer.
Record t := mk {
  username : string;
  channel_id : string;
  settings : option StreamerSettings.t;
  channel_points : Z;
  is_online : bool;
  viewer_is_mod : bool;
  init_processed : bool;
  irc_chat : option Thread.t;
  history : gmap string (Z * Z);   (* reason -> (counter, amount) *)
  mutex : Lock.t;
}.

Definition set_channel_id (v : string) (s : t) : t :=
  mk (username s) v (settings s) (channel_points s) (is_online s)
     (viewer_is_mod s) (init_processed s) (irc_chat s) (history s) (mutex s).
Definition set_settings (v : option StreamerSettings.t) (s : t) : t :=
  mk (username s) (channel_id s) v (channel_points s) (is_online s)
     (viewer_is_mod s) (init_processed s) (irc_chat s) (history s) (mutex s).
Definition set_channel_points (v : Z) (s : t) : t :=
  mk (username s) (channel_id s) (settings s) v (is_online s)
     (viewer_is_mod s) (init_processed s) (irc_chat s) (history s) (mutex s).
Definition set_is_online (v : bool) (s : t) : t :=
  mk (username s) (channel_id s) (settings s) (channel_points s) v
     (viewer_is_mod s) (init_processed s) (irc_chat s) (history s) (mutex s).
Definition set_viewer_is_mod (v : bool) (s : t) : t :=
  mk (username s) (channel_id s) (settings s) (channel_points s) (is_online s)
     v (init_processed s) (irc_chat s) (history s) (mutex s).
Definition set_init_processed (v : bool) (s : t) : t :=
  mk (username s) (channel_id s) (settings s) (channel_points s) (is_online s)
     (viewer_is_mod s) v (irc_chat s) (history s) (mutex s).
Definition set_irc_chat (v : option Thread.t) (s : t) : t :=
  mk (username s) (channel_id s) (settings s) (channel_points s) (is_online s)
     (viewer_is_mod s) (init_processed s) v (history s) (mutex s).
Definition set_mutex (v : Lock.t) (s : t) : t :=
  mk (username s) (channel_id s) (settings s) (channel_points s) (is_online s)
     (viewer_is_mod s) (init_processed s) (irc_chat s) (history s) v.
End Streamer.


Module EventPrediction.
(** Modelled from the spec: the class [EventPrediction] is defined outside
    this file.  [status] is the lifecycle state the specification's data
    model gives a prediction event ([ACTIVE], [LOCKED], [RESOLVED],
    [CANCELED]); [__print_report] never reads it.  [streamer] and
    [bet_confirmed] are the two attributes [__print_report] does read. *)
Inductive status := ACTIVE | LOCKED | RESOLVED | CANCELED.
Record t := mk {
  streamer : loc;
  status_ : status;
  bet_confirmed : bool;
}.
End EventPrediction.

Module PubsubTopic.
Record t := mk {
  topic : string;
  user_id : option string;
  streamer : option loc;
}.
End PubsubTopic.

Module WebSocket.
Record t := mk {
  index : nat;
  is_reconneting : bool;
  last_ping : Q;
  topics : list PubsubTopic.t;
}.
End WebSocket.

Module WebSocketsPool.
Record t := mk { ws : list WebSocket.t }.
End WebSocketsPool.

(** [refresh_streamers]: a number of minutes, [float("inf")] by default. *)
Inductive minutes := Finite (q : Q) | Infinity.

(** ** Trace of a run: log records, prints and calls made for their effect *)

Inductive message :=
| MultipleSessions       (* "You can't start multiple sessions of this instance!" *)
| StartSession (session_id : string)
| LastPingReconnecting (index : nat)
    (* "#{index} - The last PING was sent more than 10 minutes ago. ..." *)
| RemoveStreamer (username reason : string)
| LoadStreamers (n : nat) (source : string)
| LoadingData (count : nat)
| StreamerDoesNotExist (username : string)
| CtrlCDetected
| EndingSession (session_id : string)
| LogsFile (path : string)
| Duration (d : Q)
| ShowBet (repr : string)
| ShowFilterCondition (repr : string)
| Recap (event_id : string)              (* event.print_recap() *)
| TotalPointsGained (username : string) (gained : Z)
| History (username : string).           (* streamer.print_history() *)

Inductive event :=
| LogError (m : message)
| LogInfo (m : message)
| Print (s : string)
| Sleep
| TwitchLogin
| ClaimAllDropsFromInventory
| ThreadStart (name : string)
| ThreadJoin (name : string)
| NewWebSocketsPool
| Submit (t : PubsubTopic.t)
| HandleReconnection (index : nat)
| PoolEnd
| SettingsClear
| SettingsRead (path : string)
| SettingsAppend (username : string)
| SettingsWrite (path : string)
| LeaveChat (username : string)
| LockAcquire (username : string)
| LockRelease (username : string).

(** ** The miner's slots and the world around it *)

Module Miner.
Record t := mk {
  username : string;
  claim_drops_startup : bool;
  refresh_streamers : option minutes;
  streamers : list loc;
  minute_watcher_thread : option Thread.t;
  sync_campaigns_thread : option Thread.t;
  ws_pool : option unit;   (* [None], or the reference to [World.pool] *)
  session_id : string;
  running : bool;
  start_datetime : option Q;
  base_points : gmap string Z;
  sources_usernames_JSON_FILE : list string;
  sources_usernames_FOLLOWERS : list string;
  logs_file : option string;
}.

Definition set_streamers (v : list loc) (m : t) : t :=
  mk (username m) (claim_drops_startup m) (refresh_streamers m) v
     (minute_watcher_thread m) (sync_campaigns_thread m) (ws_pool m) (session_id m)
     (running m) (start_datetime m) (base_points m)
     (sources_usernames_JSON_FILE m) (sources_usernames_FOLLOWERS m) (logs_file m).
Definition set_minute_watcher_thread (v : option Thread.t) (m : t) : t :=
  mk (username m) (claim_drops_startup m) (refresh_streamers m) (streamers m)
     v (sync_campaigns_thread m) (ws_pool m) (session_id m)
     (running m) (start_datetime m) (base_points m)
     (sources_usernames_JSON_FILE m) (sources_usernames_FOLLOWERS m) (logs_file m).
Definition set_sync_campaigns_thread (v : option Thread.t) (m : t) : t :=
  mk (username m) (claim_drops_startup m) (refresh_streamers m) (streamers m)
     (minute_watcher_thread m) v (ws_pool m) (session_id m)
     (running m) (start_datetime m) (base_points m)
     (sources_usernames_JSON_FILE m) (sources_usernames_FOLLOWERS m) (logs_file m).
Definition set_ws_pool (v : option unit) (m : t) : t :=
  mk (username m) (claim_drops_startup m) (refresh_streamers m) (streamers m)
     (minute_watcher_thread m) (sync_campaigns_thread m) v (session_id m)
     (running m) (start_datetime m) (base_points m)
     (sources_usernames_JSON_FILE m) (sources_usernames_FOLLOWERS m) (logs_file m).
Definition set_running (v : bool) (m : t) : t :=
  mk (username m) (claim_drops_startup m) (refresh_streamers m) (streamers m)
     (minute_watcher_thread m) (sync_campaigns_thread m) (ws_pool m) (session_id m)
     v (start_datetime m) (base_points m)
     (sources_usernames_JSON_FILE m) (sources_usernames_FOLLOWERS m) (logs_file m).
Definition set_start_datetime (v : option Q) (m : t) : t :=
  mk (username m) (claim_drops_startup m) (refresh_streamers m) (streamers m)
     (minute_watcher_thread m) (sync_campaigns_thread m) (ws_pool m) (session_id m)
     (running m) v (base_points m)
     (sources_usernames_JSON_FILE m) (sources_usernames_FOLLOWERS m) (logs_file m).
Definition set_base_points (v : gmap string Z) (m : t) : t :=
  mk (username m) (claim_drops_startup m) (refresh_streamers m) (streamers m)
     (minute_watcher_thread m) (sync_campaigns_thread m) (ws_pool m) (session_id m)
     (running m) (start_datetime m) v
     (sources_usernames_JSON_FILE m) (sources_usernames_FOLLOWERS m) (logs_file m).
Definition set_sources_usernames_JSON_FILE (v : list string) (m : t) : t :=
  mk (username m) (claim_drops_startup m) (refresh_streamers m) (streamers m)
     (minute_watcher_thread m) (sync_campaigns_thread m) (ws_pool m) (session_id m)
     (running m) (start_datetime m) (base_points m)
     v (sources_usernames_FOLLOWERS m) (logs_file m).
Definition set_sources_usernames_FOLLOWERS (v : list string) (m : t) : t :=
  mk (username m) (claim_drops_startup m) (refresh_streamers m) (streamers m)
     (minute_watcher_thread m) (sync_campaigns_thread m) (ws_pool m) (session_id m)
     (running m) (start_datetime m) (base_points m)
     (sources_usernames_JSON_FILE m) v (logs_file m).
End Miner.

Module World.
(** Everything outside the miner's own slots:
    - [heap]: the [Streamer] objects, addressed by [loc];
    - [pool]: the [WebSocketsPool] object that [self.ws_pool] refers to
      once it has been created;
    - [events_predictions]: the dict object the miner shares with the
      pool, in insertion order;
    - [now]: the clock read by [time.time()] and [datetime.now()];
    - [internet], [probes]: the answers of successive calls to
      [internet_connection_available()] and how many were made;
    - [json_files]: what [Settings.read] finds under a path;
    - [followed]: what [twitch.get_followers()] answers;
    - [streamer_settings]: the global [Settings.streamer_settings];
    - [twitch_running]: [self.twitch.running]. *)
Record t := mk {
  heap : list Streamer.t;
  pool : WebSocketsPool.t;
  events_predictions : list (string * EventPrediction.t);
  now : Q;
  internet : nat -> bool;
  probes : nat;
  json_files : string -> list (string * StreamerSettings.t);
  followed : list string;
  streamer_settings : StreamerSettings.t;
  twitch_running : bool;
}.

Definition set_heap (v : list Streamer.t) (w : t) : t :=
  mk v (pool w) (events_predictions w) (now w) (internet w) (probes w)
     (json_files w) (followed w) (streamer_settings w) (twitch_running w).
Definition set_pool (v : WebSocketsPool.t) (w : t) : t :=
  mk (heap w) v (events_predictions w) (now w) (internet w) (probes w)
     (json_files w) (followed w) (streamer_settings w) (twitch_running w).
Definition set_probes (v : nat) (w : t) : t :=
  mk (heap w) (pool w) (events_predictions w) (now w) (internet w) v
     (json_files w) (followed w) (streamer_settings w) (twitch_running w).
Definition set_twitch_running (v : bool) (w : t) : t :=
  mk (heap w) (pool w) (events_predictions w) (now w) (internet w) (probes w)
     (json_files w) (followed w) (streamer_settings w) v.
End World.


Record state := mkState { self : Miner.t; world : World.t }.

(** ** Outcomes and the monad of the embedding *)

(** Exceptions that the modelled code can raise. [Dangling] is not a
    Python exception: it marks a reference that points outside [heap],
    which no Python state contains. *)
Inductive exn :=
| StreamerDoesNotExistException
| UnboundLocalError (name : string)
| KeyError (key : string)
| IndexError
| AttributeError (attr : string)
| TypeError
| RuntimeError
| SystemExit (status : Z)
| Dangling (l : loc).

(** A call returns a value, raises, or never returns ([Block]: it waits for
    a thread or a lock that is never going to let it through). *)
Inductive outcome (A : Type) :=
| Return (a : A)
| Raise (e : exn)
| Block.
Arguments Return {A} a.
Arguments Raise {A} e.
Arguments Block {A}.

(** A computation runs from a state to an outcome, the state it leaves
    and the trace it has written.  Side effects made before an exception
    stay made, so the state and the trace come with every outcome. *)
Definition M (A : Type) : Type := state -> outcome A * state * list event.

Definition ret {A} (a : A) : M A := fun s => (Return a, s, []).

Definition bind {A B} (c : M A) (k : A -> M B) : M B :=
  fun s =>
    match c s with
    | (Return a, s1, t1) =>
        match k a s1 with
        | (o, s2, t2) => (o, s2, t1 ++ t2)
        end
    | (Raise e, s1, t1) => (Raise e, s1, t1)
    | (Block, s1, t1) => (Block, s1, t1)
    end.

Definition raise {A} (e : exn) : M A := fun s => (Raise e, s, []).
Definition block {A} : M A := fun s => (Block, s, []).

Declare Scope miner_scope.
Delimit Scope miner_scope with miner.
Notation "x <- c ;; k" := (bind c (fun x => k))
  (at level 20, c at level 99, k at level 200, right associativity) : miner_scope.
Notation "' p <- c ;; k" := (bind c (fun x => let 'p := x in k))
  (at level 20, p pattern, c at level 99, k at level 200, right associativity)
  : miner_scope.
Notation "c ;; k" := (bind c (fun _ => k))
  (at level 100, k at level 200, right associativity) : miner_scope.
Local Open Scope miner_scope.

Definition get_self : M Miner.t := fun s => (Return (self s), s, []).
Definition get_world : M World.t := fun s => (Return (world s), s, []).
Definition modify_self (f : Miner.t -> Miner.t) : M unit :=
  fun s => (Return tt, mkState (f (self s)) (world s), []).
Definition modify_world (f : World.t -> World.t) : M unit :=
  fun s => (Return tt, mkState (self s) (f (world s)), []).

Definition emit (e : event) : M unit := fun s => (Return tt, s, [e]).
Definition log_info (m : message) : M unit := emit (LogInfo m).
Definition log_error (m : message) : M unit := emit (LogError m).

(** [try: c  except StreamerDoesNotExistException: h] *)
Definition try_except_StreamerDoesNotExist {A} (c : M A) (h : M A) : M A :=
  fun s =>
    match c s with
    | (Raise StreamerDoesNotExistException, s1, t1) =>
        match h s1 with
        | (o, s2, t2) => (o, s2, t1 ++ t2)
        end
    | r => r
    end.

(** [for x in l: body x] *)
Fixpoint for_each {A} (l : list A) (body : A -> M unit) : M unit :=
  match l with
  | [] => ret tt
  | x :: l' => body x ;; for_each l' body
  end.

(** A [for] loop that updates local variables [B]. *)
Fixpoint for_fold {A B} (l : list A) (body : B -> A -> M B) (b : B) : M B :=
  match l with
  | [] => ret b
  | x :: l' => b' <- body b x ;; for_fold l' body b'
  end.

(** Reading, writing and allocating [Streamer] objects. *)
Definition deref (l : loc) : M Streamer.t :=
  fun s =>
    match World.heap (world s) !! l with
    | Some o => (Return o, s, [])
    | None => (Raise (Dangling l), s, [])
    end.

Definition update (l : loc) (f : Streamer.t -> Streamer.t) : M unit :=
  o <- deref l ;;
  modify_world (fun w => World.set_heap (<[l := f o]> (World.heap w)) w).

Definition alloc (o : Streamer.t) : M loc :=
  fun s =>
    let h := World.heap (world s) in
    (Return (length h), mkState (self s) (World.set_heap (h ++ [o]) (world s)), []).


(** ** Collaborators *)

Module Externals.
(** What this file calls but does not define.
    - [Streamer_new username settings]: the object [Streamer(username,
      settings=settings)] builds;
    - [ThreadChat_new miner_username token streamer_username]: the chat
      thread object [ThreadChat(...)] builds;
    - [Thread_new name]: the worker object [threading.Thread(...)] builds
      and starts under that name (how the worker is going to behave);
    - [get_channel_id username]: [None] when the call raises
      [StreamerDoesNotExistException];
    - [load_channel_points_context], [check_streamer_online],
      [viewer_is_mod]: what each of the three [Twitch] calls of the
      initialisation does to the streamer it is given (the last one is
      expected to set [streamer.viewer_is_mod]);
    - [set_default_settings], [set_default_bet_settings]: the two uses of
      [utils.set_default_settings];
    - [at_least_one_value_in_settings_is]: the [utils] function, given
      the streamers' current values;
    - [WebSocketsPool_new], [submit], [handle_reconnection],
      [elapsed_last_ping]: the pool's constructor and operations, the last
      one reading the clock;
    - [environment]: what the other threads and the clock do to the world
      while the main loop sleeps. *)
Record t := mk {
  Streamer_new : string -> option StreamerSettings.t -> Streamer.t;
  ThreadChat_new : string -> string -> string -> Thread.t;
  Thread_new : string -> Thread.t;
  get_auth_token : string;
  get_user_id : string;
  get_channel_id : string -> option string;
  load_channel_points_context : Streamer.t -> Streamer.t;
  check_streamer_online : Streamer.t -> Streamer.t;
  viewer_is_mod : Streamer.t -> Streamer.t;
  set_default_settings :
    option StreamerSettings.t -> StreamerSettings.t -> StreamerSettings.t;
  set_default_bet_settings :
    option BetSettings.t -> option BetSettings.t -> option BetSettings.t;
  at_least_one_value_in_settings_is : list Streamer.t -> string -> bool -> bool;
  WebSocketsPool_new : WebSocketsPool.t;
  submit : PubsubTopic.t -> WebSocketsPool.t -> WebSocketsPool.t;
  handle_reconnection : WebSocket.t -> WebSocketsPool.t -> WebSocketsPool.t;
  elapsed_last_ping : Q -> WebSocket.t -> Q;
  environment : World.t -> World.t;
}.
End Externals.

(** ** The methods of [TwitchChannelPointsMiner] *)

(** Local variables of [__reload_streamers] that outlive the loop that
    sets them.  [username] is [None] while the name is still unbound. *)
Record locals := mkLocals {
  streamers_name : list string;
  streamers_dict : gmap string loc;
  username : option string;
}.

Section Methods.
Context (ext : Externals.t).

(** [__save_original]
<<
    for streamer in self.streamers:
        if streamer.username not in self.base_points:
            self.base_points[streamer.username] = streamer.channel_points
>> *)
Definition save_original_body (l : loc) : M unit :=
  streamer <- deref l ;;
  self <- get_self ;;
  match Miner.base_points self !! Streamer.username streamer with
  | None =>
      modify_self (fun m =>
        Miner.set_base_points
          (<[Streamer.username streamer := Streamer.channel_points streamer]>
             (Miner.base_points m)) m)
  | Some _ => ret tt
  end.

Definition __save_original : M unit :=
  self <- get_self ;;
  for_each (Miner.streamers self) save_original_body.

(** [__remove_missing(streamers_name, streamers_dict, items, reason)]
<<
    for username in items:
        if username in streamers_name:
            logger.info(f"Remove the streamer: {username}. {reason}", ...)
            streamers_name.remove(username)
            del streamers_dict[username]
    return streamers_name, streamers_dict
>> *)
Definition remove_missing_body (reason : string)
    (acc : list string * gmap string loc) (username : string)
    : M (list string * gmap string loc) :=
  let '(names, dict) := acc in
  if py_in username names then
    log_info (RemoveStreamer username reason) ;;
    match dict !! username with
    | Some _ => ret (list_remove username names, delete username dict)
    | None => raise (KeyError username)
    end
  else ret acc.

Definition __remove_missing (names : list string) (dict : gmap string loc)
    (items : list string) (reason : string) : M (list string * gmap string loc) :=
  for_fold items (remove_missing_body reason) (names, dict).

(** *** [__reload_streamers] *)

(** An element of the [streamers] argument: a user name or a [Streamer]
    instance built by the caller. *)
Inductive streamer_arg := Name (s : string) | Instance (l : loc).

(**
<<
    for streamer in self.streamers:
        if streamer.username not in blacklist:
            streamers_name.append(streamer.username)
            streamers_dict[streamer.username] = streamer
>> *)
Definition reload_current_body (blacklist : list string)
    (lc : locals) (l : loc) : M locals :=
  streamer <- deref l ;;
  if negb (py_in (Streamer.username streamer) blacklist) then
    ret (mkLocals (streamers_name lc ++ [Streamer.username streamer])
                  (<[Streamer.username streamer := l]> (streamers_dict lc))
                  (username lc))
  else ret lc.

(**
<<
    for streamer in streamers:
        username = (streamer.username if isinstance(streamer, Streamer)
                    else streamer.lower().strip())
        if username not in streamers_dict and username not in blacklist:
            streamers_name.append(username)
            streamers_dict[username] = (streamer if isinstance(streamer, Streamer) is True
                                        else Streamer(streamer))
>> *)
Definition reload_static_body (blacklist : list string)
    (lc : locals) (streamer : streamer_arg) : M locals :=
  name <- match streamer with
          | Instance l => o <- deref l ;; ret (Streamer.username o)
          | Name s => ret (Str.strip (Str.lower s))
          end ;;
  match streamers_dict lc !! name with
  | None =>
      if negb (py_in name blacklist) then
        l <- match streamer with
             | Instance l => ret l
             | Name s => alloc (Externals.Streamer_new ext s None)
             end ;;
        ret (mkLocals (streamers_name lc ++ [name])
                      (<[name := l]> (streamers_dict lc))
                      (Some name))
      else ret (mkLocals (streamers_name lc) (streamers_dict lc) (Some name))
  | Some _ => ret (mkLocals (streamers_name lc) (streamers_dict lc) (Some name))
  end.

(**
<<
    for streamer_dict in json_streamers:
        if username not in blacklist:
            username = streamer_dict["username"]
            usernames.append(username)
            streamer = Streamer(username, settings=Settings.parse(
                streamer_dict["settings"], StreamerSettings))
            if username not in streamers_dict:
                streamers_name.append(username)
                streamers_dict[username] = streamer
            else:
                # Get settings form json
                streamers_dict[username].settings = streamer.settings
>>
    The test at the top of the body reads [username] before the body has
    assigned it: it sees the value the previous loop (or the previous
    iteration) left, and raises [UnboundLocalError] when there is none. *)
Definition reload_json_body (blacklist : list string)
    (acc : locals * list string) (streamer_dict : string * StreamerSettings.t)
    : M (locals * list string) :=
  let '(lc, usernames) := acc in
  match username lc with
  | None => raise (UnboundLocalError "username")
  | Some stale =>
      if negb (py_in stale blacklist) then
        let name := streamer_dict.1 in
        let streamer := Externals.Streamer_new ext name (Some streamer_dict.2) in
        l <- alloc streamer ;;
        match streamers_dict lc !! name with
        | None =>
            ret (mkLocals (streamers_name lc ++ [name])
                          (<[name := l]> (streamers_dict lc))
                          (Some name),
                 usernames ++ [name])
        | Some l0 =>
            update l0 (Streamer.set_settings (Streamer.settings streamer)) ;;
            ret (mkLocals (streamers_name lc) (streamers_dict lc) (Some name),
                 usernames ++ [name])
        end
      else ret acc
  end.

(** [if streamers_json is not None: ...] *)
Definition reload_json (blacklist : list string) (path : string)
    (lc : locals) : M locals :=
  emit (SettingsRead path) ;;
  w <- get_world ;;
  let json_streamers := World.json_files w path in
  '(lc, usernames) <- for_fold json_streamers (reload_json_body blacklist) (lc, []) ;;
  self <- get_self ;;
  '(names, dict) <-
    match Miner.sources_usernames_JSON_FILE self with
    | [] => ret (streamers_name lc, streamers_dict lc)
    | previous =>
        __remove_missing (streamers_name lc) (streamers_dict lc)
          (filter (fun x => x ∉ usernames) previous)
          "Not present in JSON file"
    end ;;
  modify_self (Miner.set_sources_usernames_JSON_FILE usernames) ;;
  log_info (LoadStreamers (length json_streamers) "JSON FILE") ;;
  ret (mkLocals names dict (username lc)).

(**
<<
        followers_array = self.twitch.get_followers()
        followers_array = list(filter(lambda x: x not in blacklist, followers_array))
        for username in followers_array:
            if username not in streamers_dict:
                streamers_dict[username] = Streamer(username.lower().strip())
                streamers_name.append(username)
>> *)
Definition reload_followers_body (lc : locals) (name : string) : M locals :=
  match streamers_dict lc !! name with
  | None =>
      l <- alloc (Externals.Streamer_new ext (Str.strip (Str.lower name)) None) ;;
      ret (mkLocals (streamers_name lc ++ [name])
                    (<[name := l]> (streamers_dict lc))
                    (Some name))
  | Some _ => ret (mkLocals (streamers_name lc) (streamers_dict lc) (Some name))
  end.

(** [if followers is True: ...] *)
Definition reload_followers (blacklist : list string) (lc : locals) : M locals :=
  w <- get_world ;;
  let followers_array := filter (fun x => x ∉ blacklist) (World.followed w) in
  lc <- for_fold followers_array reload_followers_body lc ;;
  self <- get_self ;;
  '(names, dict) <-
    match Miner.sources_usernames_FOLLOWERS self with
    | [] => ret (streamers_name lc, streamers_dict lc)
    | previous =>
        __remove_missing (streamers_name lc) (streamers_dict lc)
          (filter (fun x => x ∉ followers_array) previous)
          "User was unfollowed"
    end ;;
  modify_self (Miner.set_sources_usernames_FOLLOWERS followers_array) ;;
  log_info (LoadStreamers (length followers_array) "FOLLOWERS") ;;
  ret (mkLocals names dict (username lc)).
(** [len([u for u in streamers_dict if streamers_dict[u].init_processed is False])] *)
Definition count_new (dict : gmap string loc) (heap : list Streamer.t) : nat :=
  length
    (List.filter
       (fun kv : string * loc =>
          match heap !! kv.2 with
          | Some o => negb (Streamer.init_processed o)
          | None => false
          end)
       (map_to_list dict)).

(**
<<
    for username in streamers_name:
        try:
            streamer = streamers_dict[username]
            Settings.append(streamer)
            if streamer.init_processed is False:
                time.sleep(random.uniform(0.3, 0.7))
                streamer.channel_id = self.twitch.get_channel_id(username)
            streamer.settings = set_default_settings(
                streamer.settings, Settings.streamer_settings)
            streamer.settings.bet = set_default_settings(
                streamer.settings.bet, Settings.streamer_settings.bet)
            if streamer.settings.join_chat is True and streamer.irc_chat is None:
                streamer.irc_chat = ThreadChat(self.username,
                    self.twitch.twitch_login.get_auth_token(), streamer.username)
            streamers_array.append(streamer)
        except StreamerDoesNotExistException:
            logger.info(f"Streamer {username} does not exist", ...)
>> *)
Definition reload_resolve_try (dict : gmap string loc)
    (streamers_array : list loc) (name : string) : M (list loc) :=
  l <- match dict !! name with
       | Some l => ret l
       | None => raise (KeyError name)
       end ;;
  streamer <- deref l ;;
  emit (SettingsAppend (Streamer.username streamer)) ;;
  (if negb (Streamer.init_processed streamer) then
     emit Sleep ;;
     match Externals.get_channel_id ext name with
     | Some id => update l (Streamer.set_channel_id id)
     | None => raise StreamerDoesNotExistException
     end
   else ret tt) ;;
  w <- get_world ;;
  let defaults := World.streamer_settings w in
  let settings :=
    Externals.set_default_settings ext (Streamer.settings streamer) defaults in
  let settings :=
    StreamerSettings.set_bet
      (Externals.set_default_bet_settings ext
         (StreamerSettings.bet settings) (StreamerSettings.bet defaults))
      settings in
  update l (Streamer.set_settings (Some settings)) ;;
  self <- get_self ;;
  (if bool_decide (StreamerSettings.join_chat settings = Some true
                   /\ Streamer.irc_chat streamer = None) then
     update l (Streamer.set_irc_chat
                 (Some (Externals.ThreadChat_new ext (Miner.username self)
                          (Externals.get_auth_token ext)
                          (Streamer.username streamer))))
   else ret tt) ;;
  ret (streamers_array ++ [l]).

Definition reload_resolve_body (dict : gmap string loc)
    (streamers_array : list loc) (name : string) : M (list loc) :=
  try_except_StreamerDoesNotExist
    (reload_resolve_try dict streamers_array name)
    (log_info (StreamerDoesNotExist name) ;; ret streamers_array).

(**
<<
    for streamer in streamers_array:
        if streamer.init_processed is False:
            time.sleep(random.uniform(0.3, 0.7))
            self.twitch.load_channel_points_context(streamer)
            self.twitch.check_streamer_online(streamer)
            self.twitch.viewer_is_mod(streamer)
            if streamer.viewer_is_mod is True:
                streamer.settings.make_predictions = False
            streamer.init_processed = True
>> *)
Definition reload_init_body (l : loc) : M unit :=
  streamer <- deref l ;;
  if negb (Streamer.init_processed streamer) then
    emit Sleep ;;
    update l (Externals.load_channel_points_context ext) ;;
    update l (Externals.check_streamer_online ext) ;;
    update l (Externals.viewer_is_mod ext) ;;
    streamer <- deref l ;;
    (if Streamer.viewer_is_mod streamer then
       match Streamer.settings streamer with
       | Some st =>
           update l (Streamer.set_settings
                       (Some (StreamerSettings.set_make_predictions (Some false) st)))
       | None => raise (AttributeError "make_predictions")
       end
     else ret tt) ;;
    update l (Streamer.set_init_processed true)
  else ret tt.

(** [__reload_streamers] up to and including [Settings.write]: the names
    and objects are gathered from the sources, then each name is
    resolved. *)
Definition reload_gather (streamers : list streamer_arg)
    (blacklist : list string) (streamers_json : option string)
    (followers : bool) : M (list loc) :=
  emit SettingsClear ;;
  self <- get_self ;;
  lc <- for_fold (Miner.streamers self) (reload_current_body blacklist)
          (mkLocals [] ∅ None) ;;
  lc <- for_fold streamers (reload_static_body blacklist) lc ;;
  log_info (LoadStreamers (length streamers) "STREAMERS") ;;
  lc <- match streamers_json with
        | Some path => reload_json blacklist path lc
        | None => ret lc
        end ;;
  lc <- (if followers then reload_followers blacklist lc else ret lc) ;;
  w <- get_world ;;
  log_info (LoadingData (count_new (streamers_dict lc) (World.heap w))) ;;
  streamers_array <-
    for_fold (streamers_name lc) (reload_resolve_body (streamers_dict lc)) [] ;;
  match streamers_json with
  | Some path => emit (SettingsWrite path)
  | None => ret tt
  end ;;
  ret streamers_array.

Definition __reload_streamers (streamers : list streamer_arg)
    (blacklist : list string) (streamers_json : option string)
    (followers : bool) : M (list loc) :=
  streamers_array <- reload_gather streamers blacklist streamers_json followers ;;
  for_each streamers_array reload_init_body ;;
  ret streamers_array.

(** *** Threads and locks *)

(** [thread.join()], without a timeout: returns once the thread has
    ended. *)
Definition Thread_join (th : Thread.t) : M Thread.t :=
  emit (ThreadJoin (Thread.name th)) ;;
  match Thread.state th with
  | Thread.Finished => ret th
  | Thread.Alive true => ret (Thread.mk (Thread.name th) Thread.Finished)
  | Thread.Alive false => block
  end.

(** [streamer.mutex.acquire()], blocking and without a timeout: waits
    until the lock is free, then takes it.  A [threading.Lock] is not
    re-entrant. *)
Definition mutex_acquire (l : loc) : M unit :=
  streamer <- deref l ;;
  emit (LockAcquire (Streamer.username streamer)) ;;
  match Streamer.mutex streamer with
  | Lock.Unlocked | Lock.Locked true => update l (Streamer.set_mutex Lock.Held)
  | Lock.Held | Lock.Locked false => block
  end.

(** [streamer.mutex.release()] *)
Definition mutex_release (l : loc) : M unit :=
  streamer <- deref l ;;
  emit (LockRelease (Streamer.username streamer)) ;;
  match Streamer.mutex streamer with
  | Lock.Unlocked => raise RuntimeError
  | _ => update l (Streamer.set_mutex Lock.Unlocked)
  end.

(** *** [__print_report] *)

(**
<<
    for event_id in self.events_predictions:
        event = self.events_predictions[event_id]
        if (event.bet_confirmed is True
                and event.streamer.settings.make_predictions is True):
            logger.info(f"{event.streamer.settings.bet}", ...)
            if event.streamer.settings.bet.filter_condition is not None:
                logger.info(f"{event.streamer.settings.bet.filter_condition}", ...)
            logger.info(f"{event.print_recap()}", ...)
>> *)
Definition report_event_body (kv : string * EventPrediction.t) : M unit :=
  let '(event_id, event) := kv in
  if EventPrediction.bet_confirmed event then
    streamer <- deref (EventPrediction.streamer event) ;;
    match Streamer.settings streamer with
    | None => raise (AttributeError "make_predictions")
    | Some settings =>
        if bool_decide (StreamerSettings.make_predictions settings = Some true) then
          match StreamerSettings.bet settings with
          | None =>
              log_info (ShowBet "None") ;;
              raise (AttributeError "filter_condition")
          | Some bet =>
              log_info (ShowBet (BetSettings.repr bet)) ;;
              match BetSettings.filter_condition bet with
              | Some fc => log_info (ShowFilterCondition fc)
              | None => ret tt
              end ;;
              log_info (Recap event_id)
          end
        else ret tt
    end
  else ret tt.

(**
<<
    for streamer in self.streamers:
        if streamer.history != {}:
            gained = streamer.channel_points - self.base_points[streamer.username]
            logger.info(f"{repr(streamer)}, Total Points Gained (...): {_millify(gained)}", ...)
            logger.info(f"{streamer.print_history()}", ...)
>> *)
Definition report_streamer_body (l : loc) : M unit :=
  streamer <- deref l ;;
  if bool_decide (Streamer.history streamer ≠ ∅) then
    self <- get_self ;;
    match Miner.base_points self !! Streamer.username streamer with
    | None => raise (KeyError (Streamer.username streamer))
    | Some base =>
        log_info (TotalPointsGained (Streamer.username streamer)
                    (Streamer.channel_points streamer - base)) ;;
        log_info (History (Streamer.username streamer))
    end
  else ret tt.

Definition __print_report : M unit :=
  emit (Print "\n") ;;
  self <- get_self ;;
  log_info (EndingSession (Miner.session_id self)) ;;
  match Miner.logs_file self with
  | Some path => log_info (LogsFile path)
  | None => ret tt
  end ;;
  w <- get_world ;;
  match Miner.start_datetime self with
  | Some t0 => log_info (Duration (World.now w - t0))
  | None => raise TypeError
  end ;;
  match World.events_predictions w with
  | [] => ret tt
  | events => emit (Print "") ;; for_each events report_event_body
  end ;;
  emit (Print "") ;;
  for_each (Miner.streamers self) report_streamer_body.

(** *** [end], the signal handler ([end] is a keyword here) *)

(**
<<
    for streamer in self.streamers:
        if streamer.irc_chat is not None:
            streamer.leave_chat()
            if streamer.irc_chat.is_alive() is True:
                streamer.irc_chat.join()
>> *)
Definition end_chat_body (l : loc) : M unit :=
  streamer <- deref l ;;
  match Streamer.irc_chat streamer with
  | Some chat =>
      emit (LeaveChat (Streamer.username streamer)) ;;
      if Thread.is_alive chat then
        chat <- Thread_join chat ;;
        update l (Streamer.set_irc_chat (Some chat))
      else ret tt
  | None => ret tt
  end.

(** [if self.<slot> is not None: self.<slot>.join()] *)
Definition end_join_worker (slot : Miner.t -> option Thread.t)
    (set_slot : option Thread.t -> Miner.t -> Miner.t) : M unit :=
  self <- get_self ;;
  match slot self with
  | Some th =>
      th <- Thread_join th ;;
      modify_self (set_slot (Some th))
  | None => ret tt
  end.

(**
<<
    # Check if all the mutex are unlocked.
    # Prevent breaks of .json file
    for streamer in self.streamers:
        if streamer.mutex.locked():
            streamer.mutex.acquire()
            streamer.mutex.release()
>> *)
Definition end_mutex_body (l : loc) : M unit :=
  streamer <- deref l ;;
  if Lock.locked (Streamer.mutex streamer) then
    mutex_acquire l ;;
    mutex_release l
  else ret tt.

Definition end_drain_mutexes : M unit :=
  self <- get_self ;;
  for_each (Miner.streamers self) end_mutex_body.

Definition end_join_workers : M unit :=
  end_join_worker Miner.minute_watcher_thread Miner.set_minute_watcher_thread ;;
  end_join_worker Miner.sync_campaigns_thread Miner.set_sync_campaigns_thread.

(** [end] up to the report: the chats are left, the flags are cleared,
    the pool is closed, the workers are joined and the guards are
    checked. *)
Definition end_prologue : M unit :=
  log_info CtrlCDetected ;;
  self <- get_self ;;
  for_each (Miner.streamers self) end_chat_body ;;
  modify_world (World.set_twitch_running false) ;;
  modify_self (Miner.set_running false) ;;
  match Miner.ws_pool self with
  | Some _ => emit PoolEnd
  | None => raise (AttributeError "end")
  end ;;
  end_join_workers ;;
  end_drain_mutexes.

Definition end_ : M unit :=
  end_prologue ;;
  __print_report ;;
  raise (SystemExit 0).

(** *** The liveness sweep of [run] *)

Definition Qlt_bool (x y : Q) : bool := negb (Qle_bool y x).

(** [internet_connection_available()]: the next answer of the probe. *)
Definition internet_connection_available : M bool :=
  fun s =>
    let w := world s in
    (Return (World.internet w (World.probes w)),
     mkState (self s) (World.set_probes (S (World.probes w)) w),
     []).

(**
<<
    if (self.ws_pool.ws[index].is_reconneting is False
            and self.ws_pool.ws[index].elapsed_last_ping() > 10
            and internet_connection_available() is True):
        logger.info(f"#{index} - The last PING was sent more than 10 minutes ago. ...")
        WebSocketsPool.handle_reconnection(self.ws_pool.ws[index])
>>
    Nothing changes the pool between the reads of [ws[index]], so the
    model reads it once. *)
Definition sweep_body (index : nat) : M unit :=
  w <- get_world ;;
  match WebSocketsPool.ws (World.pool w) !! index with
  | None => raise IndexError
  | Some ws =>
      if negb (WebSocket.is_reconneting ws) then
        if Qlt_bool 10 (Externals.elapsed_last_ping ext (World.now w) ws) then
          reachable <- internet_connection_available ;;
          if reachable then
            log_info (LastPingReconnecting index) ;;
            emit (HandleReconnection index) ;;
            modify_world (fun w =>
              World.set_pool (Externals.handle_reconnection ext ws (World.pool w)) w)
          else ret tt
        else ret tt
      else ret tt
  end.

(** [for index in range(0, len(self.ws_pool.ws)): ...] *)
Definition liveness_sweep : M unit :=
  self <- get_self ;;
  match Miner.ws_pool self with
  | None => raise (AttributeError "ws")
  | Some _ =>
      w <- get_world ;;
      for_each (seq 0 (length (WebSocketsPool.ws (World.pool w)))) sweep_body
  end.

(** *** [run] and [mine] *)

(** The current values of a list of [Streamer] references. *)
Definition deref_all (ls : list loc) : M (list Streamer.t) :=
  for_fold ls (fun acc l => o <- deref l ;; ret (acc ++ [o])) [].

(** [self.ws_pool.submit(topic)] *)
Definition ws_pool_submit (topic : PubsubTopic.t) : M unit :=
  emit (Submit topic) ;;
  modify_world (fun w => World.set_pool (Externals.submit ext topic (World.pool w)) w).

(** The arguments of [run] and [mine]. *)
Record run_args := mkArgs {
  arg_streamers : list streamer_arg;
  arg_streamers_json : option string;
  arg_blacklist : list string;
  arg_followers : bool;
}.

(**
<<
    for streamer in self.streamers:
        self.ws_pool.submit(PubsubTopic("video-playback-by-id", streamer=streamer))
        if streamer.settings.follow_raid is True:
            self.ws_pool.submit(PubsubTopic("raid", streamer=streamer))
        if streamer.settings.make_predictions is True:
            self.ws_pool.submit(PubsubTopic("predictions-channel-v1", streamer=streamer))
>> *)
Definition run_submit_body (l : loc) : M unit :=
  ws_pool_submit (PubsubTopic.mk "video-playback-by-id" None (Some l)) ;;
  streamer <- deref l ;;
  match Streamer.settings streamer with
  | None => raise (AttributeError "follow_raid")
  | Some settings =>
      (if bool_decide (StreamerSettings.follow_raid settings = Some true) then
         ws_pool_submit (PubsubTopic.mk "raid" None (Some l))
       else ret tt) ;;
      (if bool_decide (StreamerSettings.make_predictions settings = Some true) then
         ws_pool_submit (PubsubTopic.mk "predictions-channel-v1" None (Some l))
       else ret tt)
  end.

(** [self.refresh_streamers is not None
     and (time.time() - refresh_streamers) / 60 > self.refresh_streamers] *)
Definition refresh_due (self : Miner.t) (now refresh_streamers : Q) : bool :=
  match Miner.refresh_streamers self with
  | None => false
  | Some Infinity => false
  | Some (Finite limit) => Qlt_bool limit ((now - refresh_streamers) / 60)
  end.

(** The first [passes] iterations of
<<
    while self.running:
        time.sleep(random.uniform(20, 60))
        for index in range(0, len(self.ws_pool.ws)): ...
        if (self.refresh_streamers is not None and ...):
            refresh_streamers = time.time()
            self.streamers = self.__reload_streamers(
                streamers=streamers, streamers_json=streamers_json, followers=followers)
            self.__save_original()
>>
    Nothing in the loop clears [self.running]: only a signal, which runs
    [end], stops it. *)
Fixpoint run_loop (args : run_args) (passes : nat) (refresh_streamers : Q) : M unit :=
  match passes with
  | O => ret tt
  | S passes' =>
      self <- get_self ;;
      if Miner.running self then
        emit Sleep ;;
        modify_world (Externals.environment ext) ;;
        liveness_sweep ;;
        w <- get_world ;;
        refresh_streamers <-
          (if refresh_due self (World.now w) refresh_streamers then
             streamers <- __reload_streamers (arg_streamers args) []
                            (arg_streamers_json args) (arg_followers args) ;;
             modify_self (Miner.set_streamers streamers) ;;
             __save_original ;;
             ret (World.now w)
           else ret refresh_streamers) ;;
        run_loop args passes' refresh_streamers
      else ret tt
  end.

(** [threading.Thread(target=..., args=...)], [.name = name], [.start()] *)
Definition start_thread (name : string)
    (set_slot : option Thread.t -> Miner.t -> Miner.t) : M unit :=
  modify_self (set_slot (Some (Externals.Thread_new ext name))) ;;
  emit (ThreadStart name).

(** The [else] branch of [run] up to the main loop. *)
Definition run_start (args : run_args) : M unit :=
  self <- get_self ;;
  log_info (StartSession (Miner.session_id self)) ;;
  modify_self (Miner.set_running true) ;;
  w <- get_world ;;
  modify_self (Miner.set_start_datetime (Some (World.now w))) ;;
  emit TwitchLogin ;;
  (if Miner.claim_drops_startup self then emit ClaimAllDropsFromInventory
   else ret tt) ;;
  streamers <- __reload_streamers (arg_streamers args) (arg_blacklist args)
                 (arg_streamers_json args) (arg_followers args) ;;
  modify_self (Miner.set_streamers streamers) ;;
  __save_original ;;
  objects <- deref_all streamers ;;
  let make_predictions :=
    Externals.at_least_one_value_in_settings_is ext objects "make_predictions" true in
  (if Externals.at_least_one_value_in_settings_is ext objects "claim_drops" true then
     start_thread "Sync campaigns/inventory" Miner.set_sync_campaigns_thread ;;
     emit Sleep
   else ret tt) ;;
  start_thread "Minute watcher" Miner.set_minute_watcher_thread ;;
  emit NewWebSocketsPool ;;
  modify_world (World.set_pool (Externals.WebSocketsPool_new ext)) ;;
  modify_self (Miner.set_ws_pool (Some tt)) ;;
  ws_pool_submit
    (PubsubTopic.mk "community-points-user-v1" (Some (Externals.get_user_id ext)) None) ;;
  (if make_predictions then
     ws_pool_submit
       (PubsubTopic.mk "predictions-user-v1" (Some (Externals.get_user_id ext)) None)
   else ret tt) ;;
  for_each streamers run_submit_body.

(** [run(streamers, streamers_json, blacklist, followers)], followed for
    [passes] iterations of its main loop. *)
Definition run (args : run_args) (passes : nat) : M unit :=
  self <- get_self ;;
  if Miner.running self then
    log_error MultipleSessions
  else
    run_start args ;;
    w <- get_world ;;
    run_loop args passes (World.now w).

(** [mine] passes its arguments on to [run]. *)
Definition mine (args : run_args) (passes : nat) : M unit := run args passes.

End Methods.

(** [__init__]: the slots of a new miner. *)
Definition __init__ (username : string) (claim_drops_startup : bool)
    (refresh_streamers : option minutes) (session_id : string)
    (logs_file : option string) : Miner.t :=
  {| Miner.username := username;
     Miner.claim_drops_startup := claim_drops_startup;
     Miner.refresh_streamers := refresh_streamers;
     Miner.streamers := [];
     Miner.minute_watcher_thread := None;
     Miner.sync_campaigns_thread := None;
     Miner.ws_pool := None;
     Miner.session_id := session_id;
     Miner.running := false;
     Miner.start_datetime := None;
     Miner.base_points := ∅;
     Miner.sources_usernames_JSON_FILE := [];
     Miner.sources_usernames_FOLLOWERS := [];
     Miner.logs_file := logs_file |}.

(** ** One set of collaborators, for running the model

    The constructors build objects in their initial state; a missing
    setting takes the default's value; a pool keeps one connection per
    submitted topic and a reconnection marks the connection as
    reconnecting; every looked-up channel exists unless its name starts
    with a question mark; spawned threads end when asked to. *)

Module Sample.

(** A new object; [stored] is what the constructor makes of the name it
    is given. *)
Definition Streamer_named (stored : string -> string) (username : string)
    (settings : option StreamerSettings.t) : Streamer.t :=
  {| Streamer.username := stored username;
     Streamer.channel_id := "";
     Streamer.settings := settings;
     Streamer.channel_points := 0;
     Streamer.is_online := false;
     Streamer.viewer_is_mod := false;
     Streamer.init_processed := false;
     Streamer.irc_chat := None;
     Streamer.history := ∅;
     Streamer.mutex := Lock.Unlocked |}.

(** The constructor that lowers and strips the name. *)
Definition Streamer_new : string -> option StreamerSettings.t -> Streamer.t :=
  Streamer_named (fun username => Str.strip (Str.lower username)).

Definition or_default {A} (x d : option A) : option A :=
  match x with Some _ => x | None => d end.

Definition set_default_settings (settings : option StreamerSettings.t)
    (defaults : StreamerSettings.t) : StreamerSettings.t :=
  match settings with
  | None => defaults
  | Some s =>
      {| StreamerSettings.make_predictions :=
           or_default (StreamerSettings.make_predictions s)
                      (StreamerSettings.make_predictions defaults);
         StreamerSettings.follow_raid :=
           or_default (StreamerSettings.follow_raid s)
                      (StreamerSettings.follow_raid defaults);
         StreamerSettings.claim_drops :=
           or_default (StreamerSettings.claim_drops s)
                      (StreamerSettings.claim_drops defaults);
         StreamerSettings.watch_streak :=
           or_default (StreamerSettings.watch_streak s)
                      (StreamerSettings.watch_streak defaults);
         StreamerSettings.join_chat :=
           or_default (StreamerSettings.join_chat s)
                      (StreamerSettings.join_chat defaults);
         StreamerSettings.bet := StreamerSettings.bet s |}
  end.

Definition setting (key : string) (st : StreamerSettings.t) : option bool :=
  if decide (key = "make_predictions") then StreamerSettings.make_predictions st
  else if decide (key = "follow_raid") then StreamerSettings.follow_raid st
  else if decide (key = "claim_drops") then StreamerSettings.claim_drops st
  else if decide (key = "watch_streak") then StreamerSettings.watch_streak st
  else if decide (key = "join_chat") then StreamerSettings.join_chat st
  else None.

Definition at_least_one_value_in_settings_is (items : list Streamer.t)
    (key : string) (value : bool) : bool :=
  existsb
    (fun o => match Streamer.settings o with
              | Some st => bool_decide (setting key st = Some value)
              | None => false
              end)
    items.

Definition submit (topic : PubsubTopic.t) (p : WebSocketsPool.t) : WebSocketsPool.t :=
  WebSocketsPool.mk
    (WebSocketsPool.ws p
       ++ [WebSocket.mk (length (WebSocketsPool.ws p)) false 0 [topic]]).

Definition handle_reconnection (ws : WebSocket.t) (p : WebSocketsPool.t)
    : WebSocketsPool.t :=
  WebSocketsPool.mk
    (<[WebSocket.index ws :=
         WebSocket.mk (WebSocket.index ws) true (WebSocket.last_ping ws)
                      (WebSocket.topics ws)]> (WebSocketsPool.ws p)).

Definition get_channel_id (username : string) : option string :=
  match username with
  | String "?" _ => None
  | _ => Some ("id:" +:+ username)
  end.

(** Ten more minutes on the clock at every pause of the main loop. *)
Definition environment (w : World.t) : World.t :=
  World.mk (World.heap w) (World.pool w) (World.events_predictions w)
           (World.now w + 600) (World.internet w) (World.probes w)
           (World.json_files w) (World.followed w) (World.streamer_settings w)
           (World.twitch_running w).

(** [new] is the [Streamer] constructor, [moderated] lists the user names
    the viewer moderates. *)
Definition ext_with (new : string -> option StreamerSettings.t -> Streamer.t)
    (moderated : list string) : Externals.t :=
  {| Externals.Streamer_new := new;
     Externals.ThreadChat_new := fun _ _ streamer =>
       Thread.mk ("chat:" +:+ streamer) (Thread.Alive true);
     Externals.Thread_new := fun name => Thread.mk name (Thread.Alive true);
     Externals.get_auth_token := "token";
     Externals.get_user_id := "42";
     Externals.get_channel_id := get_channel_id;
     Externals.load_channel_points_context := Streamer.set_channel_points 100;
     Externals.check_streamer_online := Streamer.set_is_online true;
     Externals.viewer_is_mod := fun o =>
       Streamer.set_viewer_is_mod (py_in (Streamer.username o) moderated) o;
     Externals.set_default_settings := set_default_settings;
     Externals.set_default_bet_settings := or_default;
     Externals.at_least_one_value_in_settings_is := at_least_one_value_in_settings_is;
     Externals.WebSocketsPool_new := WebSocketsPool.mk [];
     Externals.submit := submit;
     Externals.handle_reconnection := handle_reconnection;
     Externals.elapsed_last_ping := fun now ws => ((now - WebSocket.last_ping ws) / 60)%Q;
     Externals.environment := environment |}.

Definition ext : list string -> Externals.t := ext_with Streamer_new.

Definition defaults : StreamerSettings.t :=
  {| StreamerSettings.make_predictions := Some true;
     StreamerSettings.follow_raid := Some true;
     StreamerSettings.claim_drops := Some false;
     StreamerSettings.watch_streak := Some true;
     StreamerSettings.join_chat := Some false;
     StreamerSettings.bet := Some (BetSettings.mk "BetSettings()" None) |}.

(** A world with nothing in it yet, the network reachable, and the given
    tracking files and followed channels. *)
Definition world (json_files : string -> list (string * StreamerSettings.t))
    (followed : list string) : World.t :=
  {| World.heap := [];
     World.pool := WebSocketsPool.mk [];
     World.events_predictions := [];
     World.now := 0;
     World.internet := fun _ => true;
     World.probes := 0;
     World.json_files := json_files;
     World.followed := followed;
     World.streamer_settings := defaults;
     World.twitch_running := true |}.

Definition miner : Miner.t := __init__ "viewer" false (Some Infinity) "session" None.

End Sample.

(** ** Vocabulary of the statements *)

(** The three components of a run. *)
Definition outcome_of {A} (r : outcome A * state * list event) : outcome A := r.1.1.
Definition state_of {A} (r : outcome A * state * list event) : state := r.1.2.
Definition trace_of {A} (r : outcome A * state * list event) : list event := r.2.

(** A run [r] that comes after the trace [t]. *)
Definition after {A} (t : list event) (r : outcome A * state * list event)
    : outcome A * state * list event :=
  (r.1.1, r.1.2, t ++ r.2).

(** [preserves P c]: whatever its outcome, [c] keeps [P] true of the state. *)
Definition preserves {A} (P : state -> Prop) (c : M A) : Prop :=
  forall s, P s -> P (state_of (c s)).

(** [never_exits c]: [c] does not end the process. *)
Definition never_exits {A} (c : M A) : Prop :=
  forall s status, outcome_of (c s) <> Raise (SystemExit status).

(** The baseline recorded for [u] is [v]. *)
Definition baseline (u : string) (v : Z) (m : Miner.t) : Prop :=
  Miner.base_points m !! u = Some v.

(** The three conditions of the liveness sweep, for connection [ws] in
    world [w]: it is not reconnecting, its last ping is more than ten
    minutes old, and the next reachability probe succeeds. *)
Definition stale_and_reachable (ext : Externals.t) (w : World.t)
    (ws : WebSocket.t) : Prop :=
  WebSocket.is_reconneting ws = false
  /\ (10 < Externals.elapsed_last_ping ext (World.now w) ws)%Q
  /\ World.internet w (World.probes w) = true.

(** The object behind a reference, and the state with another object put
    there. *)
Definition object_at (s : state) (l : loc) : option Streamer.t :=
  World.heap (world s) !! l.

Definition set_object (l : loc) (o : Streamer.t) (s : state) : state :=
  mkState (self s) (World.set_heap (<[l := o]> (World.heap (world s))) (world s)).

(** Betting is switched off on [o] if the viewer moderates it. *)
Definition bets_off_if_mod (o : Streamer.t) : Prop :=
  Streamer.viewer_is_mod o = true ->
  exists st, Streamer.settings o = Some st
             /\ StreamerSettings.make_predictions st = Some false.

(** The object behind [l], if there is one, has not been through the
    initialisation yet. *)
Definition uninitialised (l : loc) (s : state) : Prop :=
  match object_at s l with
  | Some o => Streamer.init_processed o = false
  | None => True
  end.

(** A worker slot is empty, or its thread has ended or is going to. *)
Definition thread_exits (th : option Thread.t) : bool :=
  match th with
  | Some th =>
      match Thread.state th with
      | Thread.Alive false => false
      | _ => true
      end
  | None => true
  end.

(** Both spawned workers end. *)
Definition workers_exit (m : Miner.t) : bool :=
  thread_exits (Miner.minute_watcher_thread m)
  && thread_exits (Miner.sync_campaigns_thread m).

(** The guard of the streamer behind [l] is free, or its holder is going
    to release it. *)
Definition guard_released (s : state) (l : loc) : bool :=
  match object_at s l with
  | Some o =>
      match Streamer.mutex o with
      | Lock.Unlocked | Lock.Locked true => true
      | Lock.Held | Lock.Locked false => false
      end
  | None => false
  end.

Definition guards_released (s : state) : bool :=
  forallb (guard_released s) (Miner.streamers (self s)).

(** The guard of the streamer behind [l] is not held. *)
Definition guard_free (s : state) (l : loc) : Prop :=
  exists o, object_at s l = Some o /\ Streamer.mutex o = Lock.Unlocked.

(** The chat thread of the streamer behind [l], if it has one, ends. *)
Definition chat_ends (s : state) (l : loc) : bool :=
  match object_at s l with
  | Some o => thread_exits (Streamer.irc_chat o)
  | None => false
  end.

(** Nothing keeps the steps of [end] before the report from returning:
    the chat threads end, the pool exists, the workers end and every
    guard is free or about to be released. *)
Definition shutdown_ready (s : state) : bool :=
  forallb (chat_ends s) (Miner.streamers (self s))
  && match Miner.ws_pool (self s) with Some _ => true | None => false end
  && workers_exit (self s)
  && guards_released s.

(** What the report reads of a streamer, and of the state. *)
Definition report_view (o : Streamer.t)
    : string * option StreamerSettings.t * gmap string (Z * Z) * Z :=
  (Streamer.username o, Streamer.settings o, Streamer.history o,
   Streamer.channel_points o).

Definition report_state_view (s : state) :=
  (Miner.streamers (self s), Miner.base_points (self s),
   Miner.start_datetime (self s), Miner.logs_file (self s),
   Miner.session_id (self s), World.events_predictions (world s),
   World.now (world s), report_view <$> World.heap (world s)).

(** The report recaps event [ev]: the bet on it was confirmed and its
    streamer has [make_predictions] on. *)
Definition recapped (s : state) (ev : EventPrediction.t) : bool :=
  EventPrediction.bet_confirmed ev
  && match object_at s (EventPrediction.streamer ev) with
     | Some o =>
         match Streamer.settings o with
         | Some st => bool_decide (StreamerSettings.make_predictions st = Some true)
         | None => false
         end
     | None => false
     end.

(** The report can read what it needs about an event: if the bet on it
    was confirmed, its streamer has settings, with bet settings if
    [make_predictions] is on. *)
Definition event_ok (s : state) (kv : string * EventPrediction.t) : bool :=
  if EventPrediction.bet_confirmed kv.2 then
    match object_at s (EventPrediction.streamer kv.2) with
    | Some o =>
        match Streamer.settings o with
        | Some st =>
            if bool_decide (StreamerSettings.make_predictions st = Some true)
            then match StreamerSettings.bet st with Some _ => true | None => false end
            else true
        | None => false
        end
    | None => false
    end
  else true.

(** ... and about a streamer: if it has a history, it has a baseline. *)
Definition streamer_ok (s : state) (l : loc) : bool :=
  match object_at s l with
  | Some o =>
      if bool_decide (Streamer.history o ≠ ∅)
      then match Miner.base_points (self s) !! Streamer.username o with
           | Some _ => true
           | None => false
           end
      else true
  | None => false
  end.

(** The report has all it reads: the session has a start time, and the
    events and the streamers are as above. *)
Definition report_ready (s : state) : bool :=
  match Miner.start_datetime (self s) with Some _ => true | None => false end
  && forallb (event_ok s) (World.events_predictions (world s))
  && forallb (streamer_ok s) (Miner.streamers (self s)).

(** The lines of the report for one event and for one streamer. *)
Definition bet_lines (bet : BetSettings.t) : list event :=
  LogInfo (ShowBet (BetSettings.repr bet))
  :: match BetSettings.filter_condition bet with
     | Some fc => [LogInfo (ShowFilterCondition fc)]
     | None => []
     end.

Definition bet_of (s : state) (ev : EventPrediction.t) : option BetSettings.t :=
  match object_at s (EventPrediction.streamer ev) with
  | Some o =>
      match Streamer.settings o with
      | Some st => StreamerSettings.bet st
      | None => None
      end
  | None => None
  end.

Definition event_lines (s : state) (kv : string * EventPrediction.t) : list event :=
  if recapped s kv.2 then
    match bet_of s kv.2 with
    | Some bet => bet_lines bet ++ [LogInfo (Recap kv.1)]
    | None => []
    end
  else [].

Definition streamer_lines (s : state) (l : loc) : list event :=
  match object_at s l with
  | Some o =>
      if bool_decide (Streamer.history o ≠ ∅) then
        match Miner.base_points (self s) !! Streamer.username o with
        | Some base =>
            [LogInfo (TotalPointsGained (Streamer.username o)
                        (Streamer.channel_points o - base));
             LogInfo (History (Streamer.username o))]
        | None => []
        end
      else []
  | None => []
  end.

(** The whole report. *)
Definition report_trace (s : state) : list event :=
  [Print "\n"; LogInfo (EndingSession (Miner.session_id (self s)))]
  ++ match Miner.logs_file (self s) with
     | Some path => [LogInfo (LogsFile path)]
     | None => []
     end
  ++ match Miner.start_datetime (self s) with
     | Some t0 => [LogInfo (Duration (World.now (world s) - t0))]
     | None => []
     end
  ++ match World.events_predictions (world s) with
     | [] => []
     | events => Print "" :: concat (event_lines s <$> events)
     end
  ++ [Print ""]
  ++ concat (streamer_lines s <$> Miner.streamers (self s)).

(** The events recapped and the gains reported in a trace. *)
Definition recaps (t : list event) : list string :=
  omap (fun e => match e with LogInfo (Recap id) => Some id | _ => None end) t.

Definition gains (t : list event) : list (string * Z) :=
  omap (fun e => match e with
                 | LogInfo (TotalPointsGained u g) => Some (u, g)
                 | _ => None
                 end) t.

(** ** Concrete sessions *)

Module Scenario.

(** A streamer object with the given name, balance, history and guard. *)
Definition streamer (username : string) (channel_points : Z)
    (history : gmap string (Z * Z)) (mutex : Lock.t) : Streamer.t :=
  {| Streamer.username := username;
     Streamer.channel_id := "id:" +:+ username;
     Streamer.settings := Some Sample.defaults;
     Streamer.channel_points := channel_points;
     Streamer.is_online := true;
     Streamer.viewer_is_mod := false;
     Streamer.init_processed := true;
     Streamer.irc_chat := None;
     Streamer.history := history;
     Streamer.mutex := mutex |}.

(** A session under way: streamers [heap] are tracked, [base_points] are
    their baselines, the workers are [minute] and [sync], and the pool
    has connections [ws] at time [now]. *)
Definition session (heap : list Streamer.t) (base_points : gmap string Z)
    (minute sync : option Thread.t) (ws : list WebSocket.t)
    (events : list (string * EventPrediction.t)) (now : Q) : state :=
  {| self :=
       {| Miner.username := "viewer";
          Miner.claim_drops_startup := false;
          Miner.refresh_streamers := Some (Finite 5);
          Miner.streamers := seq 0 (length heap);
          Miner.minute_watcher_thread := minute;
          Miner.sync_campaigns_thread := sync;
          Miner.ws_pool := Some tt;
          Miner.session_id := "session";
          Miner.running := true;
          Miner.start_datetime := Some 0%Q;
          Miner.base_points := base_points;
          Miner.sources_usernames_JSON_FILE := [];
          Miner.sources_usernames_FOLLOWERS := [];
          Miner.logs_file := None |};
     world :=
       {| World.heap := heap;
          World.pool := WebSocketsPool.mk ws;
          World.events_predictions := events;
          World.now := now;
          World.internet := fun _ => true;
          World.probes := 0;
          World.json_files := fun _ => [];
          World.followed := [];
          World.streamer_settings := Sample.defaults;
          World.twitch_running := true |} |}.

Definition worker (name : string) (exits : bool) : option Thread.t :=
  Some (Thread.mk name (Thread.Alive exits)).

(** Entity A went from 100 to 150 points, entity B stayed at 50. *)
Definition gained_50 : gmap string (Z * Z) := {[ "WATCH" := (5, 50)%Z ]}.
Definition heap_AB : list Streamer.t :=
  [streamer "a" 150 gained_50 Lock.Unlocked; streamer "b" 50 ∅ Lock.Unlocked].
Definition base_AB : gmap string Z := {[ "a" := 100%Z; "b" := 50%Z ]}.

(** Twenty minutes after the last pings; the first connection is
    already reconnecting. *)
Definition two_connections : list WebSocket.t :=
  [WebSocket.mk 0 true 0 []; WebSocket.mk 1 false 0 []].

Definition quiet : state :=
  session heap_AB base_AB (worker "Minute watcher" true) None two_connections [] 1200.

(** Entity B went from 50 to 30 points and nothing was entered in its
    history. *)
Definition b_spent : state :=
  session [streamer "a" 150 gained_50 Lock.Unlocked; streamer "b" 30 ∅ Lock.Unlocked]
          base_AB (worker "Minute watcher" true) None two_connections [] 1200.

(** The minute watcher never ends. *)
Definition worker_never_exits : state :=
  session heap_AB base_AB (worker "Minute watcher" false) None two_connections [] 1200.

(** A stalled worker holds the guard of entity B and never releases it. *)
Definition guard_never_released : state :=
  session [streamer "a" 150 gained_50 Lock.Unlocked;
           streamer "b" 50 ∅ (Lock.Locked false)]
          base_AB (worker "Minute watcher" true) None two_connections [] 1200.

(** A worker holds the guard of entity B and is about to release it. *)
Definition guard_released_soon : state :=
  session [streamer "a" 150 gained_50 Lock.Unlocked;
           streamer "b" 50 ∅ (Lock.Locked true)]
          base_AB (worker "Minute watcher" true) None two_connections [] 1200.

(** A prediction on entity A was resolved; no bet had been confirmed. *)
Definition resolved_without_bet : state :=
  session heap_AB base_AB (worker "Minute watcher" true) None two_connections
          [("e1", EventPrediction.mk 0 EventPrediction.RESOLVED false)] 1200.

(** Two predictions on entity A with a confirmed bet: one resolved, one
    still active. *)
Definition two_bets : state :=
  session heap_AB base_AB (worker "Minute watcher" true) None two_connections
          [("e1", EventPrediction.mk 0 EventPrediction.RESOLVED true);
           ("e2", EventPrediction.mk 0 EventPrediction.ACTIVE true)] 1200.

(** A dictionary of three new channels; the second one does not exist
    upstream. *)
Definition three_new : state :=
  session [Sample.Streamer_new "foo" None; Sample.Streamer_new "?x" None;
           Sample.Streamer_new "bar" None]
          ∅ None None [] [] 0.
Definition three_names : gmap string loc := {[ "foo" := 0; "?x" := 1; "bar" := 2 ]}.

(** A miner that has not run yet, in a world with the given tracking
    files and followed channels. *)
Definition fresh (json_files : string -> list (string * StreamerSettings.t))
    (followed : list string) : state :=
  mkState Sample.miner (Sample.world json_files followed).

(** The tracking file [streamers.json] lists the channel [Foo]. *)
Definition tracking_file (path : string) : list (string * StreamerSettings.t) :=
  if decide (path = "streamers.json") then [("Foo", Sample.defaults)] else [].

(** The channel [foo] once initialised, for a viewer who moderates it. *)
Definition moderated_foo : Streamer.t :=
  {| Streamer.username := "foo";
     Streamer.channel_id := "id:foo";
     Streamer.settings :=
       Some (StreamerSettings.set_make_predictions (Some false) Sample.defaults);
     Streamer.channel_points := 100;
     Streamer.is_online := true;
     Streamer.viewer_is_mod := true;
     Streamer.init_processed := true;
     Streamer.irc_chat := None;
     Streamer.history := ∅;
     Streamer.mutex := Lock.Unlocked |}.

(** A session that tracks the moderated channel [foo], with a tracking
    file that lists [foo] with betting on. *)
Definition foo_in_file (path : string) : list (string * StreamerSettings.t) :=
  if decide (path = "streamers.json") then [("foo", Sample.defaults)] else [].

Definition moderated_session : state :=
  let s := session [moderated_foo] ∅ None None [] [] 0 in
  mkState (self s)
          (World.mk (World.heap (world s)) (World.pool (world s))
                    (World.events_predictions (world s)) (World.now (world s))
                    (World.internet (world s)) (World.probes (world s))
                    foo_in_file (World.followed (world s))
                    (World.streamer_settings (world s))
                    (World.twitch_running (world s))).

End Scenario.

(** ** Vocabulary of the further properties *)

(** Every reference in [self.streamers] points to an object. *)
Definition streamers_exist (s : state) : bool :=
  forallb (fun l => bool_decide (is_Some (object_at s l))) (Miner.streamers (self s)).

(** No connection of the pool is due for a reconnection: each one is
    reconnecting already, or its last ping is at most ten minutes old. *)
Definition no_connection_stale (ext : Externals.t) (s : state) : bool :=
  forallb
    (fun ws =>
       WebSocket.is_reconneting ws
       || negb (Qlt_bool 10 (Externals.elapsed_last_ping ext (World.now (world s)) ws)))
    (WebSocketsPool.ws (World.pool (world s))).

(** [emits_only P c]: every record that [c] writes to the trace is in [P]. *)
Definition emits_only {A} (P : event -> Prop) (c : M A) : Prop :=
  forall s, Forall P (trace_of (c s)).

(** What a pass of the main loop writes when it does not reload the
    streamers: the pause and the records of the liveness sweep. *)
Definition sweep_record (e : event) : Prop :=
  e = Sleep
  \/ exists index, e = LogInfo (LastPingReconnecting index) \/ e = HandleReconnection index.

(** The miner is configured never to reload its streamers:
    [refresh_streamers] is [None] or [float("inf")], the default. *)
Definition never_refreshes (m : Miner.t) : bool :=
  match Miner.refresh_streamers m with
  | Some (Finite _) => false
  | _ => true
  end.

(** The names gathered so far are distinct and each of them has its
    entry in the dictionary. *)
Definition names_in_dict (names : list string) (dict : gmap string loc) : Prop :=
  NoDup names /\ forall n, n ∈ names -> is_Some (dict !! n).

Definition in_sync (lc : locals) : Prop :=
  names_in_dict (streamers_name lc) (streamers_dict lc).

(** The user names of the streamers behind a list of references. *)
Definition usernames_of (s : state) (ls : list loc) : list string :=
  omap (fun l => Streamer.username <$> object_at s l) ls.

(** A run that does not raise [KeyError] and whose result, if it returns
    one, is in [Q]. *)
Definition without_KeyError {A} (Q : A -> Prop) (r : outcome A * state * list event)
    : Prop :=
  match outcome_of r with
  | Return a => Q a
  | Raise (KeyError _) => False
  | _ => True
  end.

(** [c] never raises [KeyError]. *)
Definition no_KeyError {A} (c : M A) : Prop :=
  forall s, without_KeyError (fun _ => True) (c s).

(** The topics submitted in a trace. *)
Definition submitted (t : list event) : list PubsubTopic.t :=
  omap (fun e => match e with Submit topic => Some topic | _ => None end) t.

(** The streamer behind [l] exists and has its settings. *)
Definition has_settings (s : state) (l : loc) : bool :=
  match object_at s l with
  | Some o => match Streamer.settings o with Some _ => true | None => false end
  | None => false
  end.

(** The topics of one streamer, in the order [run] submits them. *)
Definition streamer_topics (s : state) (l : loc) : list PubsubTopic.t :=
  match object_at s l with
  | Some o =>
      match Streamer.settings o with
      | Some st =>
          PubsubTopic.mk "video-playback-by-id" None (Some l)
          :: (if bool_decide (StreamerSettings.follow_raid st = Some true)
              then [PubsubTopic.mk "raid" None (Some l)] else [])
          ++ (if bool_decide (StreamerSettings.make_predictions st = Some true)
              then [PubsubTopic.mk "predictions-channel-v1" None (Some l)] else [])
      | None => []
      end
  | None => []
  end.

(** What [__reload_streamers] leaves alone: every slot of the miner but
    [sources_usernames], and everything around it but the store of
    [Streamer] objects. *)
Definition reload_frame (s : state) :=
  (Miner.username (self s), Miner.claim_drops_startup (self s),
   Miner.refresh_streamers (self s), Miner.streamers (self s),
   Miner.minute_watcher_thread (self s), Miner.sync_campaigns_thread (self s),
   Miner.ws_pool (self s), Miner.session_id (self s), Miner.running (self s),
   Miner.start_datetime (self s), Miner.base_points (self s),
   Miner.logs_file (self s),
   (World.pool (world s), World.events_predictions (world s), World.now (world s),
    World.internet (world s), World.probes (world s), World.json_files (world s),
    World.followed (world s), World.streamer_settings (world s),
    World.twitch_running (world s))).


Module Cases.

(** Two streamers under one user name, of which the channel was loaded
    from the followed channels and is not followed any more. *)
Definition twins : state :=
  mkState
    (Miner.set_sources_usernames_FOLLOWERS ["a"]
       (self (Scenario.session [Scenario.streamer "a" 1 ∅ Lock.Unlocked;
                                Scenario.streamer "a" 2 ∅ Lock.Unlocked]
                ∅ None None [] [] 0)))
    (world (Scenario.session [Scenario.streamer "a" 1 ∅ Lock.Unlocked;
                              Scenario.streamer "a" 2 ∅ Lock.Unlocked]
              ∅ None None [] [] 0)).

(** The same state after a session that had loaded [names] from the
    followed channels. *)
Definition followed_before (names : list string) (s : state) : state :=
  mkState (Miner.set_sources_usernames_FOLLOWERS names (self s)) (world s).

(** A session with the default [refresh_streamers]. *)
Definition default_refresh (s : state) : state :=
  mkState
    (Miner.mk (Miner.username (self s)) (Miner.claim_drops_startup (self s))
              (Some Infinity) (Miner.streamers (self s))
              (Miner.minute_watcher_thread (self s))
              (Miner.sync_campaigns_thread (self s)) (Miner.ws_pool (self s))
              (Miner.session_id (self s)) (Miner.running (self s))
              (Miner.start_datetime (self s)) (Miner.base_points (self s))
              (Miner.sources_usernames_JSON_FILE (self s))
              (Miner.sources_usernames_FOLLOWERS (self s)) (Miner.logs_file (self s)))
    (world s).

(** The same state with the network unreachable. *)
Definition offline (s : state) : state :=
  mkState (self s)
    (World.mk (World.heap (world s)) (World.pool (world s))
              (World.events_predictions (world s)) (World.now (world s))
              (fun _ => false) (World.probes (world s))
              (World.json_files (world s)) (World.followed (world s))
              (World.streamer_settings (world s)) (World.twitch_running (world s))).

End Cases.

(** * Properties *)

(** ** Reasoning about computations *)

Lemma bind_run {A B} (c : M A) (k : A -> M B) s :
  bind c k s =
    match outcome_of (c s) with
    | Return a =>
        (outcome_of (k a (state_of (c s))), state_of (k a (state_of (c s))),
         trace_of (c s) ++ trace_of (k a (state_of (c s))))
    | Raise e => (Raise e, state_of (c s), trace_of (c s))
    | Block => (Block, state_of (c s), trace_of (c s))
    end.
Proof.
  unfold bind, outcome_of, state_of, trace_of.
  destruct (c s) as [[[a|e|] s1] t1]; simpl; try reflexivity.
  destruct (k a s1) as [[o s2] t2]; reflexivity.
Qed.

Lemma bind_Return {A B} (c : M A) (k : A -> M B) s a s1 t1 :
  c s = (Return a, s1, t1) -> bind c k s = after t1 (k a s1).
Proof. intros H. rewrite bind_run, H. reflexivity. Qed.

Lemma after_nil {A} (r : outcome A * state * list event) : after [] r = r.
Proof. destruct r as [[o s] t]. reflexivity. Qed.

Lemma after_after {A} t1 t2 (r : outcome A * state * list event) :
  after t1 (after t2 r) = after (t1 ++ t2) r.
Proof. unfold after. simpl. rewrite app_assoc. reflexivity. Qed.

Lemma after_triple {A} t1 (o : outcome A) s t :
  after t1 (o, s, t) = (o, s, t1 ++ t).
Proof. reflexivity. Qed.

Lemma trace_of_after {A} t (r : outcome A * state * list event) :
  trace_of (after t r) = t ++ trace_of r.
Proof. reflexivity. Qed.

Lemma outcome_of_after {A} t (r : outcome A * state * list event) :
  outcome_of (after t r) = outcome_of r.
Proof. reflexivity. Qed.

Lemma state_of_after {A} t (r : outcome A * state * list event) :
  state_of (after t r) = state_of r.
Proof. reflexivity. Qed.

Lemma emit_run e s : emit e s = (Return tt, s, [e]).
Proof. reflexivity. Qed.

Lemma bind_Raise {A B} (c : M A) (k : A -> M B) s e s1 t1 :
  c s = (Raise e, s1, t1) -> bind c k s = (Raise e, s1, t1).
Proof. intros H. rewrite bind_run, H. reflexivity. Qed.

Lemma bind_Block {A B} (c : M A) (k : A -> M B) s s1 t1 :
  c s = (Block, s1, t1) -> bind c k s = (Block, s1, t1).
Proof. intros H. rewrite bind_run, H. reflexivity. Qed.

Lemma bind_Return_inv {A B} (c : M A) (k : A -> M B) s b s' t :
  bind c k s = (Return b, s', t) ->
  exists a s1 t1 t2,
    c s = (Return a, s1, t1) /\ k a s1 = (Return b, s', t2) /\ t = t1 ++ t2.
Proof.
  unfold bind. destruct (c s) as [[[a|e|] s1] t1]; try discriminate.
  destruct (k a s1) as [[o s2] t2] eqn:E. intros [= -> -> <-].
  exists a, s1, t1, t2. auto.
Qed.

Lemma for_each_app {A} (l1 l2 : list A) (body : A -> M unit) s :
  for_each (l1 ++ l2) body s = (for_each l1 body ;; for_each l2 body) s.
Proof.
  revert s. induction l1 as [|x l1 IH]; intros s; simpl.
  - unfold bind. simpl. destruct (for_each l2 body s) as [[o s2] t2]. reflexivity.
  - rewrite !bind_run. destruct (body x s) as [[[[]|e|] s1] t1]; simpl; try reflexivity.
    rewrite IH. rewrite !bind_run. unfold outcome_of, state_of, trace_of. simpl.
    destruct (for_each l1 body s1) as [[[[]|e|] s2] t2]; simpl; try reflexivity.
    rewrite app_assoc. reflexivity.
Qed.

Lemma for_fold_app {A B} (l1 l2 : list A) (body : B -> A -> M B) b s :
  for_fold (l1 ++ l2) body b s = (b' <- for_fold l1 body b ;; for_fold l2 body b') s.
Proof.
  revert b s. induction l1 as [|x l1 IH]; intros b s; simpl.
  - unfold bind. simpl. destruct (for_fold l2 body b s) as [[o s2] t2]. reflexivity.
  - rewrite !bind_run. destruct (body b x s) as [[[b1|e|] s1] t1]; simpl; try reflexivity.
    rewrite IH. rewrite !bind_run. unfold outcome_of, state_of, trace_of. simpl.
    destruct (for_fold l1 body b1 s1) as [[[b2|e|] s2] t2]; simpl; try reflexivity.
    rewrite app_assoc. reflexivity.
Qed.

Section Preserves.
Context (P : state -> Prop).

Lemma preserves_ret {A} (a : A) : preserves P (ret a).
Proof. intros s H. exact H. Qed.

Lemma preserves_raise {A} e : preserves P (@raise A e).
Proof. intros s H. exact H. Qed.

Lemma preserves_block {A} : preserves P (@block A).
Proof. intros s H. exact H. Qed.

Lemma preserves_emit e : preserves P (emit e).
Proof. intros s H. exact H. Qed.

Lemma preserves_get_self : preserves P get_self.
Proof. intros s H. exact H. Qed.

Lemma preserves_get_world : preserves P get_world.
Proof. intros s H. exact H. Qed.

Lemma preserves_deref l : preserves P (deref l).
Proof.
  intros s H. unfold deref, state_of.
  destruct (World.heap (world s) !! l); exact H.
Qed.

Lemma preserves_bind {A B} (c : M A) (k : A -> M B) :
  preserves P c -> (forall a, preserves P (k a)) -> preserves P (bind c k).
Proof.
  intros Hc Hk s H. specialize (Hc s H). rewrite bind_run.
  destruct (outcome_of (c s)) as [a| |]; try exact Hc.
  apply (Hk a _ Hc).
Qed.

Lemma preserves_try {A} (c h : M A) :
  preserves P c -> preserves P h -> preserves P (try_except_StreamerDoesNotExist c h).
Proof.
  intros Hc Hh s H. specialize (Hc s H). unfold try_except_StreamerDoesNotExist.
  unfold state_of in *. destruct (c s) as [[[a|e|] s1] t1]; simpl in *; try exact Hc.
  destruct e; try exact Hc. specialize (Hh s1 Hc).
  destruct (h s1) as [[o s2] t2]. exact Hh.
Qed.

Lemma preserves_for_each {A} (l : list A) (body : A -> M unit) :
  (forall x, preserves P (body x)) -> preserves P (for_each l body).
Proof.
  intros Hb. induction l as [|x l IH]; simpl.
  - apply preserves_ret.
  - apply preserves_bind; [apply Hb | intros _; exact IH].
Qed.

Lemma preserves_for_fold {A B} (l : list A) (body : B -> A -> M B) b :
  (forall b x, preserves P (body b x)) -> preserves P (for_fold l body b).
Proof.
  intros Hb. revert b. induction l as [|x l IH]; intros b; simpl.
  - apply preserves_ret.
  - apply preserves_bind; [apply Hb | intros b'; apply IH].
Qed.

End Preserves.

(** Properties of the miner's slots alone are kept by every step that
    only touches the world. *)
Section PreservesSelf.
Context (Q : Miner.t -> Prop).

Lemma preserves_modify_world f : preserves (fun s => Q (self s)) (modify_world f).
Proof. intros s H. exact H. Qed.

Lemma preserves_modify_self f :
  (forall m, Q m -> Q (f m)) -> preserves (fun s => Q (self s)) (modify_self f).
Proof. intros Hf s H. apply Hf, H. Qed.

Lemma preserves_alloc o : preserves (fun s => Q (self s)) (alloc o).
Proof. intros s H. exact H. Qed.

Lemma preserves_probe : preserves (fun s => Q (self s)) internet_connection_available.
Proof. intros s H. exact H. Qed.

End PreservesSelf.

(** Structural steps of a [preserves] goal; what is left are the writes
    to the state. *)
Ltac preserves_step :=
  lazymatch goal with
  | |- preserves _ (bind _ _) => apply preserves_bind; [|intros ?]
  | |- preserves _ (ret _) => apply preserves_ret
  | |- preserves _ (raise _) => apply preserves_raise
  | |- preserves _ block => apply preserves_block
  | |- preserves _ (emit _) => apply preserves_emit
  | |- preserves _ (log_info _) => apply preserves_emit
  | |- preserves _ (log_error _) => apply preserves_emit
  | |- preserves _ get_self => apply preserves_get_self
  | |- preserves _ get_world => apply preserves_get_world
  | |- preserves _ (deref _) => apply preserves_deref
  | |- preserves _ (for_each _ _) => apply preserves_for_each; intros ?
  | |- preserves _ (for_fold _ _ _) => apply preserves_for_fold; intros ? ?
  | |- preserves _ (try_except_StreamerDoesNotExist _ _) => apply preserves_try
  | |- preserves _ (modify_world _) => apply preserves_modify_world
  | |- preserves _ (alloc _) => apply preserves_alloc
  | |- preserves _ internet_connection_available => apply preserves_probe
  | |- preserves _ (match ?x with _ => _ end) => destruct x
  end.

Ltac preserves_steps := repeat preserves_step.

Ltac head_of c :=
  lazymatch c with
  | ?f _ => head_of f
  | _ => c
  end.

(** Open the definition of the computation of a [preserves] goal. *)
Ltac preserves_unfold :=
  lazymatch goal with
  | |- preserves _ ?c => let h := head_of c in unfold h
  end.

(** ** The session-start baseline *)

Section Baseline.
Context (ext : Externals.t) (u : string) (v : Z).

Local Abbreviation kept := (preserves (fun s => baseline u v (self s))).

Lemma baseline_update l f : kept (update l f).
Proof. unfold update. preserves_steps. Qed.

Lemma baseline_save_original_body l : kept (save_original_body l).
Proof.
  intros s H. unfold save_original_body, state_of, bind, deref, get_self.
  destruct (World.heap (world s) !! l) as [o|]; simpl; [|exact H].
  destruct (Miner.base_points (self s) !! Streamer.username o) eqn:E; simpl;
    [exact H|].
  unfold baseline in *. simpl.
  rewrite lookup_insert_ne; [exact H|].
  intros Heq. rewrite Heq in E. congruence.
Qed.

Lemma baseline_save_original : kept __save_original.
Proof.
  unfold __save_original. preserves_steps. apply baseline_save_original_body.
Qed.

Ltac kept_step :=
  first
    [ apply baseline_update
    | apply baseline_save_original
    | apply preserves_modify_self; intros ? Hm; exact Hm
    | preserves_step
    | preserves_unfold ].

Lemma baseline_reload streamers blacklist streamers_json followers :
  kept (__reload_streamers ext streamers blacklist streamers_json followers).
Proof. repeat kept_step. Qed.

Lemma baseline_liveness_sweep : kept (liveness_sweep ext).
Proof. repeat kept_step. Qed.

Lemma baseline_run_loop args passes t0 : kept (run_loop ext args passes t0).
Proof.
  revert t0. induction passes as [|n IH]; intros t0; simpl.
  - apply preserves_ret.
  - repeat first [ apply IH | apply baseline_reload | apply baseline_liveness_sweep
                 | kept_step ].
Qed.

Lemma baseline_end : kept end_.
Proof. repeat kept_step. Qed.

End Baseline.

(** A streamer that enters [__save_original] without a baseline gets its
    current balance as baseline, provided no streamer before it in
    [self.streamers] carries the same user name. *)
Lemma save_original_records (s : state) pre l post o :
  Miner.streamers (self s) = pre ++ l :: post ->
  Forall (fun l' => exists o', World.heap (world s) !! l' = Some o'
                     /\ Streamer.username o' <> Streamer.username o) pre ->
  World.heap (world s) !! l = Some o ->
  Miner.base_points (self s) !! Streamer.username o = None ->
  Miner.base_points (self (state_of (__save_original s)))
    !! Streamer.username o = Some (Streamer.channel_points o).
Proof.
  intros Hs Hpre Hl Hnone.
  unfold __save_original, bind, get_self, state_of; simpl. rewrite Hs.
  clear Hs.
  assert (Hgen : forall s0,
    World.heap (world s0) = World.heap (world s) ->
    Miner.base_points (self s0) !! Streamer.username o = None ->
    Miner.base_points (self (for_each (pre ++ l :: post) save_original_body s0).1.2)
      !! Streamer.username o = Some (Streamer.channel_points o)).
  { induction Hpre as [|l' pre [o' [Ho' Hne]] _ IH]; intros s0 Hheap H0; simpl.
    - unfold bind at 1. unfold save_original_body at 1.
      unfold bind, deref, get_self. rewrite Hheap, Hl. simpl. rewrite H0. simpl.
      pose proof (baseline_save_original_body (Streamer.username o)
                    (Streamer.channel_points o)) as Hk.
      pose proof (preserves_for_each _ post save_original_body
                    (fun x => Hk x)) as Hpost.
      match goal with
      | |- context [for_each post save_original_body ?s1] =>
          specialize (Hpost s1); destruct (for_each post save_original_body s1)
            as [[r s2] t2] eqn:E
      end.
      simpl. unfold state_of in Hpost. simpl in Hpost. apply Hpost.
      unfold baseline. simpl. apply lookup_insert_eq.
    - unfold bind at 1. unfold save_original_body at 1.
      unfold bind, deref, get_self. rewrite Hheap, Ho'. simpl.
      destruct (Miner.base_points (self s0) !! Streamer.username o') eqn:E; simpl.
      + specialize (IH s0 Hheap H0).
        destruct (for_each (pre ++ l :: post) save_original_body s0) as [[r s2] t2].
        exact IH.
      + match goal with
        | |- context [for_each (pre ++ l :: post) save_original_body ?s1] =>
            specialize (IH s1); destruct (for_each (pre ++ l :: post) save_original_body s1)
              as [[r s2] t2] eqn:E2
        end.
        simpl in *. apply IH; [exact Hheap|].
        rewrite lookup_insert_ne; [exact H0 | exact Hne]. }
  destruct s as [m w]. simpl in *. specialize (Hgen (mkState m w) eq_refl Hnone).
  simpl in Hgen.
  destruct (for_each (pre ++ l :: post) save_original_body (mkState m w))
    as [[r s2] t2].
  exact Hgen.
Qed.

(** *** C8
    [__save_original] never overwrites a baseline that is already recorded:
    an entry of [base_points] keeps its value through a call of
    [__save_original], through any number of passes of the main loop of
    [run] (each of which may refresh the streamers and call
    [__save_original] again), and through the shutdown handler that
    computes the final deltas from it. *)
Theorem C8_baseline_recorded_once (ext : Externals.t) (u : string) (v : Z)
    (args : run_args) (passes : nat) (t0 : Q) (s : state) :
  Miner.base_points (self s) !! u = Some v ->
  Miner.base_points (self (state_of (__save_original s))) !! u = Some v
  /\ Miner.base_points (self (state_of (run_loop ext args passes t0 s))) !! u = Some v
  /\ Miner.base_points (self (state_of (end_ s))) !! u = Some v.
Proof.
  intros H. repeat split.
  - exact (baseline_save_original u v s H).
  - exact (baseline_run_loop ext u v args passes t0 s H).
  - exact (baseline_end u v s H).
Qed.

(** ** The liveness sweep *)

Lemma Qlt_bool_iff (x y : Q) : Qlt_bool x y = true <-> (x < y)%Q.
Proof.
  unfold Qlt_bool. rewrite negb_true_iff. split.
  - intros H. apply Qnot_le_lt. intros Hle.
    apply Qle_bool_iff in Hle. congruence.
  - intros H. destruct (Qle_bool y x) eqn:E; [|reflexivity].
    apply Qle_bool_iff in E. exfalso. exact (Qlt_not_le _ _ H E).
Qed.

Section Sweep.
Context (ext : Externals.t).

Lemma stale_and_reachable_dec w ws :
  {stale_and_reachable ext w ws} + {~ stale_and_reachable ext w ws}.
Proof.
  unfold stale_and_reachable.
  destruct (WebSocket.is_reconneting ws); [right; intros [H _]; discriminate|].
  destruct (Qlt_le_dec 10 (Externals.elapsed_last_ping ext (World.now w) ws))
    as [Hlt|Hle].
  - destruct (World.internet w (World.probes w)).
    + left. repeat split. exact Hlt.
    + right. intros (_ & _ & H). discriminate.
  - right. intros (_ & H & _). exact (Qlt_not_le _ _ H Hle).
Qed.

(** One iteration, when the three conditions hold. *)
Lemma sweep_body_reconnects s index ws :
  WebSocketsPool.ws (World.pool (world s)) !! index = Some ws ->
  stale_and_reachable ext (world s) ws ->
  exists s',
    sweep_body ext index s
    = (Return tt, s', [LogInfo (LastPingReconnecting index); HandleReconnection index]).
Proof.
  intros Hws (Hflag & Hold & Hnet).
  unfold sweep_body, bind, get_world. simpl. rewrite Hws, Hflag. simpl.
  apply Qlt_bool_iff in Hold. rewrite Hold.
  unfold internet_connection_available. simpl. rewrite Hnet. simpl.
  eexists. reflexivity.
Qed.

(** One iteration, when one of them fails: nothing is logged or called
    and the pool is left as it is. *)
Lemma sweep_body_skips s index ws :
  WebSocketsPool.ws (World.pool (world s)) !! index = Some ws ->
  ~ stale_and_reachable ext (world s) ws ->
  exists s',
    sweep_body ext index s = (Return tt, s', [])
    /\ World.pool (world s') = World.pool (world s).
Proof.
  intros Hws Hnot.
  unfold sweep_body, bind, get_world. simpl. rewrite Hws.
  destruct (WebSocket.is_reconneting ws) eqn:Hflag; simpl.
  { eexists. split; reflexivity. }
  destruct (Qlt_bool 10 (Externals.elapsed_last_ping ext (World.now (world s)) ws))
    eqn:Hold.
  2:{ eexists. split; reflexivity. }
  unfold internet_connection_available. simpl.
  destruct (World.internet (world s) (World.probes (world s))) eqn:Hnet; simpl.
  { exfalso. apply Hnot.
    split; [exact Hflag | split; [apply Qlt_bool_iff, Hold | exact Hnet]]. }
  eexists. split; reflexivity.
Qed.

(** A run of iterations calls [handle_reconnection] only for indexes it
    visits. *)
Lemma sweep_trace_indexes (l : list nat) s j :
  HandleReconnection j ∈ trace_of (for_each l (sweep_body ext) s) -> j ∈ l.
Proof.
  revert s. induction l as [|i l IH]; intros s; simpl.
  - unfold trace_of; simpl. intros H. inversion H.
  - rewrite bind_run. intros H.
    assert (Hbody : HandleReconnection j ∈ trace_of (sweep_body ext i s) -> j = i).
    { unfold sweep_body, bind, get_world, trace_of. simpl.
      destruct (WebSocketsPool.ws (World.pool (world s)) !! i) as [ws|]; simpl;
        [|intros Hin; inversion Hin].
      destruct (WebSocket.is_reconneting ws); simpl; [intros Hin; inversion Hin|].
      destruct (Qlt_bool _ _); simpl; [|intros Hin; inversion Hin].
      destruct (World.internet _ _); simpl; [|intros Hin; inversion Hin].
      rewrite !elem_of_cons. intros [Hin|[Hin|Hin]]; try discriminate.
      - congruence.
      - inversion Hin. }
    destruct (outcome_of (sweep_body ext i s)) as [[]|e|]; unfold trace_of in *;
      simpl in H.
    + apply elem_of_app in H as [H|H].
      * apply elem_of_cons. left. apply Hbody, H.
      * apply elem_of_cons. right. apply (IH _ H).
    + apply elem_of_cons. left. apply Hbody, H.
    + apply elem_of_cons. left. apply Hbody, H.
Qed.

End Sweep.

(** *** C1
    In a pass of the liveness sweep, when the turn of the connection at
    [index] comes (the iterations before it have completed and left state
    [si], in which that connection is [ws]), [handle_reconnection] is
    called for it if and only if it is not already reconnecting, its last
    ping is more than ten minutes old and the reachability probe
    succeeds. *)
Theorem C1_reconnect_iff_three_conditions (ext : Externals.t) (s si : state)
    (ti : list event) (index : nat) (ws : WebSocket.t) :
  Miner.ws_pool (self s) = Some tt ->
  (index < length (WebSocketsPool.ws (World.pool (world s))))%nat ->
  for_each (seq 0 index) (sweep_body ext) s = (Return tt, si, ti) ->
  WebSocketsPool.ws (World.pool (world si)) !! index = Some ws ->
  HandleReconnection index ∈ trace_of (liveness_sweep ext s)
  <-> stale_and_reachable ext (world si) ws.
Proof.
  intros Hpool Hlt Hprefix Hws.
  set (n := length (WebSocketsPool.ws (World.pool (world s)))) in *.
  assert (Hrun : liveness_sweep ext s = for_each (seq 0 n) (sweep_body ext) s).
  { unfold liveness_sweep, bind, get_self, get_world. simpl. rewrite Hpool.
    fold n. destruct (for_each (seq 0 n) (sweep_body ext) s) as [[o s1] t1].
    reflexivity. }
  rewrite Hrun.
  replace n with (index + S (n - S index)) by lia.
  rewrite seq_app, for_each_app. simpl seq.
  rewrite (bind_Return _ _ _ _ _ _ Hprefix), trace_of_after. cbn [for_each].
  assert (Hpre : HandleReconnection index ∉ ti).
  { intros Hin.
    assert (Hin' : HandleReconnection index
                     ∈ trace_of (for_each (seq 0 index) (sweep_body ext) s))
      by (rewrite Hprefix; exact Hin).
    apply sweep_trace_indexes in Hin'. apply elem_of_seq in Hin'. lia. }
  set (rest := seq (S (0 + index)) (n - S index)).
  assert (Hrest : forall s1,
    HandleReconnection index ∉ trace_of (for_each rest (sweep_body ext) s1)).
  { intros s1 Hin. apply sweep_trace_indexes in Hin.
    apply elem_of_seq in Hin. lia. }
  split.
  - intros Hin. destruct (stale_and_reachable_dec ext (world si) ws) as [Hc|Hc]; [exact Hc|].
    exfalso. destruct (sweep_body_skips ext si index ws Hws Hc) as (s' & Hskip & _).
    apply elem_of_app in Hin as [Hin|Hin]; [exact (Hpre Hin)|].
    rewrite (bind_Return _ _ _ _ _ _ Hskip), after_nil in Hin.
    exact (Hrest s' Hin).
  - intros Hc. destruct (sweep_body_reconnects ext si index ws Hws Hc) as (s' & Hgo).
    apply elem_of_app. right.
    rewrite (bind_Return _ _ _ _ _ _ Hgo), trace_of_after.
    apply elem_of_app. left. right. left.
Qed.

Lemma C1_reconnect_iff_three_conditions_witness :
  HandleReconnection 1
    ∈ trace_of (liveness_sweep (Sample.ext []) Scenario.quiet)
  <-> stale_and_reachable (Sample.ext [])
        (world (state_of (for_each (seq 0 1) (sweep_body (Sample.ext [])) Scenario.quiet)))
        (WebSocket.mk 1 false 0 []).
Proof.
  apply (C1_reconnect_iff_three_conditions (Sample.ext []) Scenario.quiet
           (state_of (for_each (seq 0 1) (sweep_body (Sample.ext [])) Scenario.quiet))
           (trace_of (for_each (seq 0 1) (sweep_body (Sample.ext [])) Scenario.quiet))
           1).
  - reflexivity.
  - simpl. lia.
  - reflexivity.
  - reflexivity.
Defined.

(** ** Starting a second session *)

(** *** C9
    Called while [self.running] is true, [run] (and [mine], which only
    calls it) logs the error and returns: the trace holds that one record
    (no login, no thread started, no topic submitted) and the state is
    the one it was called in. *)
Theorem C9_run_while_running_is_noop (ext : Externals.t) (args : run_args)
    (passes : nat) (s : state) :
  Miner.running (self s) = true ->
  run ext args passes s = (Return tt, s, [LogError MultipleSessions])
  /\ mine ext args passes s = (Return tt, s, [LogError MultipleSessions]).
Proof.
  intros H. unfold mine, run, bind, get_self. simpl. rewrite H. simpl.
  split; reflexivity.
Qed.

(** Called on a miner that is not running, [run] does start a session:
    it logs in and sets the flag. *)
Lemma run_when_idle_starts_a_session :
  let r := run (Sample.ext []) (mkArgs [Name "c"] None [] false) 0
             (Scenario.fresh (fun _ => []) []) in
  trace_of r !! 1%nat = Some TwitchLogin
  /\ Miner.running (self (state_of r)) = true.
Proof. vm_compute. split; reflexivity. Qed.

Lemma C9_run_while_running_is_noop_witness :
  run (Sample.ext []) (mkArgs [Name "c"] None [] false) 3 Scenario.quiet
  = (Return tt, Scenario.quiet, [LogError MultipleSessions])
  /\ mine (Sample.ext []) (mkArgs [Name "c"] None [] false) 3 Scenario.quiet
    = (Return tt, Scenario.quiet, [LogError MultipleSessions]).
Proof.
  apply (C9_run_while_running_is_noop (Sample.ext [])
           (mkArgs [Name "c"] None [] false) 3 Scenario.quiet).
  reflexivity.
Defined.

Lemma C8_baseline_recorded_once_witness :
  Miner.base_points (self (state_of (__save_original Scenario.quiet))) !! "a" = Some 100%Z
  /\ Miner.base_points
       (self (state_of (run_loop (Sample.ext []) (mkArgs [Name "c"] None [] false) 2 0
                          Scenario.quiet))) !! "a" = Some 100%Z
  /\ Miner.base_points (self (state_of (end_ Scenario.quiet))) !! "a" = Some 100%Z.
Proof.
  apply (C8_baseline_recorded_once (Sample.ext []) "a" 100
           (mkArgs [Name "c"] None [] false) 2 0 Scenario.quiet).
  reflexivity.
Defined.

(** ** The store of [Streamer] objects *)

Lemma deref_run s l o :
  object_at s l = Some o -> deref l s = (Return o, s, []).
Proof. unfold object_at, deref. intros ->. reflexivity. Qed.

Lemma deref_dangling s l :
  object_at s l = None -> deref l s = (Raise (Dangling l), s, []).
Proof. unfold object_at, deref. intros ->. reflexivity. Qed.

Lemma update_run s l o f :
  object_at s l = Some o -> update l f s = (Return tt, set_object l (f o) s, []).
Proof. unfold object_at, update, bind, deref. intros ->. reflexivity. Qed.

Lemma update_dangling s l f :
  object_at s l = None -> update l f s = (Raise (Dangling l), s, []).
Proof. unfold object_at, update, bind, deref. intros ->. reflexivity. Qed.

Lemma object_at_set_eq s l o o' :
  object_at s l = Some o -> object_at (set_object l o' s) l = Some o'.
Proof.
  unfold object_at, set_object. simpl. intros H.
  apply list_lookup_insert_eq. eapply lookup_lt_Some, H.
Qed.

Lemma object_at_set_ne s l l' o' :
  l <> l' -> object_at (set_object l o' s) l' = object_at s l'.
Proof.
  unfold object_at, set_object. simpl. intros H.
  apply list_lookup_insert_ne, H.
Qed.

Lemma self_set_object s l o : self (set_object l o s) = self s.
Proof. reflexivity. Qed.

Lemma set_object_twice s l o o' :
  set_object l o' (set_object l o s) = set_object l o' s.
Proof.
  unfold set_object. simpl. f_equal. unfold World.set_heap. simpl. f_equal.
  apply list_insert_insert_eq.
Qed.

(** ** Initialisation of new streamers *)

Section Initialisation.
Context (ext : Externals.t).

(** An object that is already initialised is left alone. *)
Lemma init_body_done s l o :
  object_at s l = Some o -> Streamer.init_processed o = true ->
  reload_init_body ext l s = (Return tt, s, []).
Proof.
  intros Hl Hinit. unfold reload_init_body.
  rewrite (bind_Return _ _ _ _ _ _ (deref_run s l o Hl)). rewrite Hinit. reflexivity.
Qed.

(** An object that is not: whatever the outcome, only that object
    changes; if the step returns, the object is initialised and betting is
    off on it when the viewer moderates it. *)
Lemma init_body_new s l o :
  object_at s l = Some o -> Streamer.init_processed o = false ->
  exists r o',
    reload_init_body ext l s = (r, set_object l o' s, [Sleep])
    /\ (r = Return tt -> Streamer.init_processed o' = true /\ bets_off_if_mod o').
Proof.
  intros Hl Hinit. unfold reload_init_body.
  rewrite (bind_Return _ _ _ _ _ _ (deref_run s l o Hl)), after_nil.
  rewrite Hinit. change (negb false) with true. cbv iota.
  rewrite (bind_Return _ _ _ _ _ _ (emit_run Sleep s)).
  rewrite (bind_Return _ _ _ _ _ _ (update_run s l o _ Hl)), after_nil.
  set (o1 := Externals.load_channel_points_context ext o).
  pose proof (object_at_set_eq s l o o1 Hl) as H1.
  rewrite (bind_Return _ _ _ _ _ _ (update_run _ l o1 _ H1)), after_nil.
  rewrite set_object_twice.
  set (o2 := Externals.check_streamer_online ext o1).
  pose proof (object_at_set_eq s l o o2 Hl) as H2.
  rewrite (bind_Return _ _ _ _ _ _ (update_run _ l o2 _ H2)), after_nil.
  rewrite set_object_twice.
  set (o3 := Externals.viewer_is_mod ext o2).
  pose proof (object_at_set_eq s l o o3 Hl) as H3.
  rewrite (bind_Return _ _ _ _ _ _ (deref_run _ l o3 H3)), after_nil.
  destruct (Streamer.viewer_is_mod o3) eqn:Hmod.
  - destruct (Streamer.settings o3) as [st|] eqn:Hst.
    + rewrite (bind_Return _ _ _ _ _ _ (update_run _ l o3 _ H3)), after_nil.
      rewrite set_object_twice.
      set (o4 := Streamer.set_settings _ o3).
      pose proof (object_at_set_eq s l o o4 Hl) as H4.
      rewrite (update_run _ l o4 _ H4), set_object_twice.
      eexists _, _. split; [reflexivity|]. intros _.
      split; [reflexivity|]. intros _. eexists. split; reflexivity.
    + rewrite (bind_Raise _ _ _ _ _ _ (eq_refl :
        raise (AttributeError "make_predictions") (set_object l o3 s) = _)).
      eexists _, _. split; [reflexivity|]. discriminate.
  - rewrite (bind_Return _ _ _ _ _ _ (eq_refl :
      ret tt (set_object l o3 s) = (Return tt, set_object l o3 s, []))), after_nil.
    rewrite (update_run _ l o3 _ H3), set_object_twice.
    eexists _, _. split; [reflexivity|]. intros _.
    split; [reflexivity|].
    intros Hm. change (Streamer.viewer_is_mod o3 = true) in Hm. congruence.
Qed.

Lemma init_body_other s l l' :
  l <> l' ->
  object_at (state_of (reload_init_body ext l' s)) l = object_at s l.
Proof.
  intros Hne. destruct (object_at s l') as [o|] eqn:Hl'.
  - destruct (Streamer.init_processed o) eqn:Hinit.
    + rewrite (init_body_done s l' o Hl' Hinit). reflexivity.
    + destruct (init_body_new s l' o Hl' Hinit) as (r & o' & -> & _).
      unfold state_of. simpl. apply object_at_set_ne. congruence.
  - unfold reload_init_body. rewrite (bind_Raise _ _ _ _ _ _ (deref_dangling s l' Hl')).
    reflexivity.
Qed.

(** Initialised objects stay initialised. *)
Lemma init_body_keeps_initialised l l' :
  preserves (fun s => forall o, object_at s l = Some o ->
                                Streamer.init_processed o = true)
            (reload_init_body ext l').
Proof.
  intros s H o'. destruct (decide (l = l')) as [<-|Hne].
  - destruct (object_at s l) as [o|] eqn:Hl.
    + rewrite (init_body_done s l o Hl (H o eq_refl)). unfold state_of. simpl.
      rewrite Hl. intros [= <-]. apply (H o eq_refl).
    + unfold reload_init_body.
      rewrite (bind_Raise _ _ _ _ _ _ (deref_dangling s l Hl)).
      unfold state_of. simpl. rewrite Hl. discriminate.
  - rewrite (init_body_other s l l' Hne). apply H.
Qed.

(** Through a step that returns, objects that are initialised with
    betting off for moderators stay so, and new ones become so. *)
Lemma init_body_keeps_bets_off s l l' s1 t1 :
  reload_init_body ext l' s = (Return tt, s1, t1) ->
  (forall o, object_at s l = Some o ->
             Streamer.init_processed o = true -> bets_off_if_mod o) ->
  forall o, object_at s1 l = Some o ->
            Streamer.init_processed o = true -> bets_off_if_mod o.
Proof.
  intros Hrun H o'. destruct (decide (l = l')) as [<-|Hne].
  - destruct (object_at s l) as [o|] eqn:Hl.
    + destruct (Streamer.init_processed o) eqn:Hinit.
      * rewrite (init_body_done s l o Hl Hinit) in Hrun. injection Hrun as <- _.
        rewrite Hl. intros [= <-]. apply (H o eq_refl).
      * destruct (init_body_new s l o Hl Hinit) as (r & o1 & Heq & Hret).
        rewrite Heq in Hrun. injection Hrun as -> <- _.
        rewrite (object_at_set_eq s l o o1 Hl). intros [= <-] _.
        apply (Hret eq_refl).
    + unfold reload_init_body in Hrun.
      rewrite (bind_Raise _ _ _ _ _ _ (deref_dangling s l Hl)) in Hrun. discriminate.
  - pose proof (init_body_other s l l' Hne) as Hsame. rewrite Hrun in Hsame.
    unfold state_of in Hsame. simpl in Hsame. rewrite Hsame. apply H.
Qed.

(** A step that returns leaves its object initialised. *)
Lemma init_body_initialises s l s' t :
  reload_init_body ext l s = (Return tt, s', t) ->
  forall o, object_at s' l = Some o -> Streamer.init_processed o = true.
Proof.
  intros Hrun o' Ho'. destruct (object_at s l) as [o|] eqn:Hl.
  - destruct (Streamer.init_processed o) eqn:Hinit.
    + rewrite (init_body_done s l o Hl Hinit) in Hrun. injection Hrun as <- _.
      rewrite Hl in Ho'. congruence.
    + destruct (init_body_new s l o Hl Hinit) as (r & o1 & Heq & Hret).
      rewrite Heq in Hrun. injection Hrun as -> <- _.
      rewrite (object_at_set_eq s l o o1 Hl) in Ho'. injection Ho' as <-.
      apply (Hret eq_refl).
  - unfold reload_init_body in Hrun.
    rewrite (bind_Raise _ _ _ _ _ _ (deref_dangling s l Hl)) in Hrun. discriminate.
Qed.

(** The initialisation loop: every streamer it was given that had not
    been initialised before comes out initialised, with betting off if
    the viewer moderates it. *)
Lemma uninitialised_spec l s :
  uninitialised l s
  <-> forall o, object_at s l = Some o -> Streamer.init_processed o = false.
Proof.
  unfold uninitialised. destruct (object_at s l) as [o|].
  - split; [intros H o' [= <-]; exact H | intros H; apply H; reflexivity].
  - split; [intros _ o' [=] | auto].
Qed.

Lemma init_loop_bets_off (arr : list loc) s s' t l o' :
  for_each arr (reload_init_body ext) s = (Return tt, s', t) ->
  l ∈ arr ->
  uninitialised l s ->
  object_at s' l = Some o' ->
  Streamer.init_processed o' = true /\ bets_off_if_mod o'.
Proof.
  intros Hrun Hin Hnew Ho'.
  assert (Hoff : forall o, object_at s' l = Some o ->
                           Streamer.init_processed o = true -> bets_off_if_mod o).
  { assert (Hstart : forall o, object_at s l = Some o ->
                         Streamer.init_processed o = true -> bets_off_if_mod o).
    { intros o Ho Hi. rewrite (proj1 (uninitialised_spec l s) Hnew o Ho) in Hi.
      discriminate. }
    clear Hin Hnew Ho'. revert s t Hrun Hstart.
    induction arr as [|l' arr IH]; intros s t Hrun Hstart.
    - injection Hrun as <- _. exact Hstart.
    - simpl in Hrun.
      apply bind_Return_inv in Hrun as ([] & s1 & t1 & t2 & Hb & Hrest & _).
      apply (IH s1 t2 Hrest).
      exact (init_body_keeps_bets_off s l l' s1 t1 Hb Hstart). }
  assert (Hinit : Streamer.init_processed o' = true).
  { clear Hoff Hnew. revert s t Hrun.
    induction arr as [|l' arr IH]; intros s t Hrun; [inversion Hin|].
    simpl in Hrun. apply bind_Return_inv in Hrun as ([] & s1 & t1 & t2 & Hb & Hrest & _).
    apply elem_of_cons in Hin as [->|Hin].
    - pose proof (preserves_for_each _ arr (reload_init_body ext)
                    (init_body_keeps_initialised l')) as Hp.
      specialize (Hp s1). rewrite Hrest in Hp.
      apply (Hp (init_body_initialises s l' s1 t1 Hb) o' Ho').
    - apply (IH Hin s1 t2 Hrest). }
  split; [exact Hinit | exact (Hoff o' Ho' Hinit)].
Qed.

(** Gathering and resolving the streamers initialises nothing, as long
    as the constructor does not. *)
Section Gather.
Context (l : loc).
Context (Hnew : forall name st,
           Streamer.init_processed (Externals.Streamer_new ext name st) = false).

Lemma uninitialised_alloc o :
  Streamer.init_processed o = false -> preserves (uninitialised l) (alloc o).
Proof.
  intros Ho s H. apply uninitialised_spec. intros o'.
  unfold alloc, state_of, object_at. simpl. intros Hlook.
  apply lookup_app_Some in Hlook as [Hlook|[_ Hlook]].
  - apply (proj1 (uninitialised_spec l s) H o' Hlook).
  - apply list_lookup_singleton_Some in Hlook as [_ <-]. exact Ho.
Qed.

Lemma uninitialised_update l' f :
  (forall o, Streamer.init_processed (f o) = Streamer.init_processed o) ->
  preserves (uninitialised l) (update l' f).
Proof.
  intros Hf s H. destruct (object_at s l') as [o|] eqn:Hl'.
  - rewrite (update_run s l' o f Hl'). unfold state_of. simpl.
    apply uninitialised_spec. intros o1 Ho1.
    destruct (decide (l' = l)) as [->|Hne].
    + rewrite (object_at_set_eq s l o (f o) Hl') in Ho1. injection Ho1 as <-.
      rewrite Hf. apply (proj1 (uninitialised_spec l s) H o Hl').
    + rewrite (object_at_set_ne s l' l (f o) Hne) in Ho1.
      apply (proj1 (uninitialised_spec l s) H o1 Ho1).
  - rewrite (update_dangling s l' f Hl'). exact H.
Qed.

Lemma uninitialised_modify_self f : preserves (uninitialised l) (modify_self f).
Proof. intros s H. exact H. Qed.

Lemma uninitialised_gather streamers blacklist streamers_json followers :
  preserves (uninitialised l)
    (reload_gather ext streamers blacklist streamers_json followers).
Proof.
  repeat first
    [ apply uninitialised_alloc; apply Hnew
    | apply uninitialised_update; intros ?; reflexivity
    | apply uninitialised_modify_self
    | preserves_step
    | preserves_unfold ].
Qed.

End Gather.

End Initialisation.

(** *** C4
    A streamer that [__reload_streamers] returns and that had not been
    initialised when the call began (it did not exist yet, or
    [init_processed] was false) comes back initialised, and if
    [twitch.viewer_is_mod] has set [viewer_is_mod] on it, its
    [make_predictions] setting is false: betting is off before the caller
    stores the list in [self.streamers].  New [Streamer] objects are
    taken to start with [init_processed] false. *)
Theorem C4_moderator_disables_betting (ext : Externals.t)
    (streamers : list streamer_arg) (blacklist : list string)
    (streamers_json : option string) (followers : bool)
    (s s' : state) (t : list event) (arr : list loc) (l : loc) (o' : Streamer.t) :
  (forall name st,
     Streamer.init_processed (Externals.Streamer_new ext name st) = false) ->
  __reload_streamers ext streamers blacklist streamers_json followers s
    = (Return arr, s', t) ->
  l ∈ arr ->
  uninitialised l s ->
  object_at s' l = Some o' ->
  Streamer.init_processed o' = true
  /\ (Streamer.viewer_is_mod o' = true ->
      exists st, Streamer.settings o' = Some st
                 /\ StreamerSettings.make_predictions st = Some false).
Proof.
  intros Hnew Hrun Hin Hl Ho'. unfold __reload_streamers in Hrun.
  apply bind_Return_inv in Hrun as (arr1 & s1 & t1 & t2 & Hgather & Hrun & _).
  apply bind_Return_inv in Hrun as ([] & s2 & t3 & t4 & Hloop & Hret & _).
  injection Hret as <- <- _.
  pose proof (uninitialised_gather ext l Hnew streamers blacklist streamers_json
                followers s Hl) as Hl1.
  rewrite Hgather in Hl1.
  exact (init_loop_bets_off ext arr1 s1 s2 t3 l o' Hloop Hin Hl1 Ho').
Qed.

Lemma C4_moderator_disables_betting_witness :
  Streamer.init_processed Scenario.moderated_foo = true
  /\ (Streamer.viewer_is_mod Scenario.moderated_foo = true ->
      exists st, Streamer.settings Scenario.moderated_foo = Some st
                 /\ StreamerSettings.make_predictions st = Some false).
Proof.
  apply (C4_moderator_disables_betting (Sample.ext ["foo"]) [Name "Foo"] [] None false
           (Scenario.fresh (fun _ => []) [])
           (state_of (__reload_streamers (Sample.ext ["foo"]) [Name "Foo"] [] None false
                        (Scenario.fresh (fun _ => []) [])))
           (trace_of (__reload_streamers (Sample.ext ["foo"]) [Name "Foo"] [] None false
                        (Scenario.fresh (fun _ => []) [])))
           [0] 0).
  - reflexivity.
  - vm_compute. reflexivity.
  - left.
  - exact I.
  - vm_compute. reflexivity.
Defined.

(** The theorem above is about streamers that go through the
    initialisation.  A streamer that is already initialised skips it: on
    a refresh, the settings read from the tracking file replace its own
    and [make_predictions] is whatever the file and the defaults say. *)
Lemma refresh_takes_settings_from_file :
  let r := __reload_streamers (Sample.ext ["foo"]) [Name "foo"] []
             (Some "streamers.json") false Scenario.moderated_session in
  outcome_of r = Return [0]
  /\ Streamer.viewer_is_mod <$> object_at (state_of r) 0 = Some true
  /\ (Streamer.settings <$> object_at (state_of r) 0)
     = Some (Some Sample.defaults).
Proof. vm_compute. repeat split; reflexivity. Qed.

(** ** One entry per user name *)

(** *** C10
    With the channel written [Foo] both in the [streamers] argument and in
    the tracking file, [__reload_streamers] returns two entries with one
    and the same user name, whatever the [Streamer] constructor makes of
    a name: the first loop files the channel under the lowered and
    stripped name, the tracking-file loop looks it up under the name as
    written, does not find it and adds a second object. *)
Theorem C10_same_name_from_two_sources_twice (stored : string -> string) :
  let ext := Sample.ext_with (Sample.Streamer_named stored) [] in
  let r := __reload_streamers ext [Name "Foo"] [] (Some "streamers.json") false
             (Scenario.fresh Scenario.tracking_file []) in
  outcome_of r = Return [0; 1]
  /\ Streamer.username <$> object_at (state_of r) 0 = Some (stored "Foo")
  /\ Streamer.username <$> object_at (state_of r) 1 = Some (stored "Foo").
Proof. vm_compute. repeat split; reflexivity. Qed.

(** ** Streamers that do not exist *)

Section Resolve.
Context (ext : Externals.t) (dict : gmap string loc).

(** The iteration for a name whose streamer is new and whose channel
    cannot be found: the exception is caught, the reason is logged, the
    array and the state are as before. *)
Lemma resolve_body_not_found s arr name l o :
  dict !! name = Some l ->
  object_at s l = Some o ->
  Streamer.init_processed o = false ->
  Externals.get_channel_id ext name = None ->
  reload_resolve_body ext dict arr name s
  = (Return arr, s,
     [SettingsAppend (Streamer.username o); Sleep;
      LogInfo (StreamerDoesNotExist name)]).
Proof.
  intros Hdict Hl Hinit Hnone.
  unfold reload_resolve_body, try_except_StreamerDoesNotExist, reload_resolve_try.
  rewrite Hdict.
  rewrite (bind_Return _ _ _ _ _ _ (eq_refl : ret l s = (Return l, s, []))), after_nil.
  rewrite (bind_Return _ _ _ _ _ _ (deref_run s l o Hl)), after_nil.
  rewrite (bind_Return _ _ _ _ _ _ (emit_run _ s)).
  rewrite Hinit, Hnone. reflexivity.
Qed.

(** The loop never initialises an object and never drops one. *)
Lemma resolve_keeps_new l arr names :
  preserves (fun s => exists o, object_at s l = Some o
                                /\ Streamer.init_processed o = false)
            (for_fold names (reload_resolve_body ext dict) arr).
Proof.
  assert (Hupd : forall l' f,
    (forall o, Streamer.init_processed (f o) = Streamer.init_processed o) ->
    preserves (fun s => exists o, object_at s l = Some o
                                  /\ Streamer.init_processed o = false)
              (update l' f)).
  { intros l' f Hf s (o & Ho & Hi). destruct (object_at s l') as [o1|] eqn:Hl'.
    - rewrite (update_run s l' o1 f Hl'). unfold state_of. simpl.
      destruct (decide (l' = l)) as [->|Hne].
      + exists (f o1). rewrite (object_at_set_eq s l o1 (f o1) Hl'). split; [reflexivity|].
        rewrite Hf. congruence.
      + exists o. rewrite (object_at_set_ne s l' l (f o1) Hne). auto.
    - rewrite (update_dangling s l' f Hl'). exists o. auto. }
  repeat first
    [ apply Hupd; intros ?; reflexivity
    | preserves_step
    | preserves_unfold ].
Qed.

End Resolve.

(** *** C5
    In the loop of [__reload_streamers] that resolves the gathered names,
    a name whose streamer is new and whose lookup raises
    [StreamerDoesNotExistException] changes nothing but the trace: the
    loop over a list that contains the name ends with the same outcome,
    the same array and the same state as the loop over the list without
    it, and once the loop has reached the name the reason is in the
    log. *)
Theorem C5_not_found_is_skipped (ext : Externals.t) (dict : gmap string loc)
    (pre post : list string) (name : string) (s : state) (l : loc) (o : Streamer.t) :
  dict !! name = Some l ->
  object_at s l = Some o ->
  Streamer.init_processed o = false ->
  Externals.get_channel_id ext name = None ->
  let body := reload_resolve_body ext dict in
  outcome_of (for_fold (pre ++ name :: post) body [] s)
    = outcome_of (for_fold (pre ++ post) body [] s)
  /\ state_of (for_fold (pre ++ name :: post) body [] s)
     = state_of (for_fold (pre ++ post) body [] s)
  /\ (forall arr, outcome_of (for_fold pre body [] s) = Return arr ->
      LogInfo (StreamerDoesNotExist name)
        ∈ trace_of (for_fold (pre ++ name :: post) body [] s)).
Proof.
  intros Hdict Hl Hinit Hnone body.
  pose proof (resolve_keeps_new ext dict l [] pre s
                (ex_intro _ o (conj Hl Hinit))) as Hkeep.
  fold body in Hkeep.
  rewrite !for_fold_app, !bind_run.
  destruct (for_fold pre body [] s) as [[[arr1|e|] s1] t1] eqn:Hpre;
    unfold outcome_of, state_of, trace_of in *; simpl in *.
  2,3: repeat split; intros arr [=].
  destruct Hkeep as (o1 & Hl1 & Hinit1).
  rewrite (bind_Return _ _ _ _ _ _
             (resolve_body_not_found ext dict s1 arr1 name l o1 Hdict Hl1 Hinit1 Hnone)).
  unfold after. simpl. repeat split.
  intros arr _. apply elem_of_app. right.
  apply elem_of_cons. right. apply elem_of_cons. right. apply elem_of_cons. left.
  reflexivity.
Qed.

Lemma C5_not_found_is_skipped_witness :
  let body := reload_resolve_body (Sample.ext []) Scenario.three_names in
  outcome_of (for_fold (["foo"] ++ "?x" :: ["bar"]) body [] Scenario.three_new)
    = outcome_of (for_fold (["foo"] ++ ["bar"]) body [] Scenario.three_new)
  /\ state_of (for_fold (["foo"] ++ "?x" :: ["bar"]) body [] Scenario.three_new)
     = state_of (for_fold (["foo"] ++ ["bar"]) body [] Scenario.three_new)
  /\ (forall arr, outcome_of (for_fold ["foo"] body [] Scenario.three_new) = Return arr ->
      LogInfo (StreamerDoesNotExist "?x")
        ∈ trace_of (for_fold (["foo"] ++ "?x" :: ["bar"]) body [] Scenario.three_new)).
Proof.
  apply (C5_not_found_is_skipped (Sample.ext []) Scenario.three_names
           ["foo"] ["bar"] "?x" Scenario.three_new 1 (Sample.Streamer_new "?x" None)).
  - vm_compute. reflexivity.
  - reflexivity.
  - reflexivity.
  - reflexivity.
Defined.

(** ** Shutdown: joining the workers *)

(** The joins return exactly when both workers end; otherwise they
    block. *)
Lemma end_join_workers_outcome (s : state) :
  outcome_of (end_join_workers s)
  = if workers_exit (self s) then Return tt else Block.
Proof.
  unfold end_join_workers, end_join_worker, workers_exit, thread_exits.
  unfold outcome_of, bind, get_self, Thread_join, bind, emit, modify_self, ret, block.
  destruct s as [m w]. simpl.
  destruct (Miner.minute_watcher_thread m) as [[n1 [|[|]]]|]; simpl;
    destruct (Miner.sync_campaigns_thread m) as [[n2 [|[|]]]|]; reflexivity.
Qed.

(** The joins change nothing but the worker slots. *)
Lemma end_join_workers_world (s : state) :
  world (state_of (end_join_workers s)) = world s
  /\ Miner.streamers (self (state_of (end_join_workers s))) = Miner.streamers (self s).
Proof.
  unfold end_join_workers, end_join_worker.
  unfold state_of, bind, get_self, Thread_join, bind, emit, modify_self, ret, block.
  destruct s as [m w]. simpl.
  destruct (Miner.minute_watcher_thread m) as [[n1 [|[|]]]|]; simpl;
    destruct (Miner.sync_campaigns_thread m) as [[n2 [|[|]]]|]; split; reflexivity.
Qed.

(** ** Who can end the process *)

Lemma never_exits_ret {A} (a : A) : never_exits (ret a).
Proof. intros s st. discriminate. Qed.

Lemma never_exits_raise {A} e :
  (forall st, e <> SystemExit st) -> never_exits (@raise A e).
Proof. intros He s st. unfold outcome_of, raise. simpl. intros [= H]. exact (He st H). Qed.

Lemma never_exits_block {A} : never_exits (@block A).
Proof. intros s st. discriminate. Qed.

Lemma never_exits_emit e : never_exits (emit e).
Proof. intros s st. discriminate. Qed.

Lemma never_exits_get_self : never_exits get_self.
Proof. intros s st. discriminate. Qed.

Lemma never_exits_get_world : never_exits get_world.
Proof. intros s st. discriminate. Qed.

Lemma never_exits_modify_self f : never_exits (modify_self f).
Proof. intros s st. discriminate. Qed.

Lemma never_exits_modify_world f : never_exits (modify_world f).
Proof. intros s st. discriminate. Qed.

Lemma never_exits_deref l : never_exits (deref l).
Proof.
  intros s st. unfold outcome_of, deref.
  destruct (World.heap (world s) !! l); discriminate.
Qed.

Lemma never_exits_bind {A B} (c : M A) (k : A -> M B) :
  never_exits c -> (forall a, never_exits (k a)) -> never_exits (bind c k).
Proof.
  intros Hc Hk s st. rewrite bind_run. specialize (Hc s st).
  destruct (outcome_of (c s)) as [a|e|] eqn:E.
  - apply (Hk a).
  - unfold outcome_of. simpl. intros [= ->]. apply Hc. reflexivity.
  - discriminate.
Qed.

Lemma never_exits_update l f : never_exits (update l f).
Proof.
  apply never_exits_bind; [apply never_exits_deref|].
  intros o. apply never_exits_modify_world.
Qed.

Lemma never_exits_for_each {A} (l : list A) (body : A -> M unit) :
  (forall x, never_exits (body x)) -> never_exits (for_each l body).
Proof.
  intros Hb. induction l as [|x l IH]; simpl.
  - apply never_exits_ret.
  - apply never_exits_bind; [apply Hb | intros _; exact IH].
Qed.

Ltac never_exits_step :=
  lazymatch goal with
  | |- never_exits (bind _ _) => apply never_exits_bind; [|intros ?]
  | |- never_exits (ret _) => apply never_exits_ret
  | |- never_exits (raise _) => apply never_exits_raise; intros ?; discriminate
  | |- never_exits block => apply never_exits_block
  | |- never_exits (emit _) => apply never_exits_emit
  | |- never_exits (log_info _) => apply never_exits_emit
  | |- never_exits get_self => apply never_exits_get_self
  | |- never_exits get_world => apply never_exits_get_world
  | |- never_exits (modify_self _) => apply never_exits_modify_self
  | |- never_exits (modify_world _) => apply never_exits_modify_world
  | |- never_exits (deref _) => apply never_exits_deref
  | |- never_exits (update _ _) => apply never_exits_update
  | |- never_exits (for_each _ _) => apply never_exits_for_each; intros ?
  | |- never_exits (match ?x with _ => _ end) => destruct x
  | |- never_exits ?c => let h := head_of c in unfold h
  end.

Lemma never_exits_prologue : never_exits end_prologue.
Proof. repeat never_exits_step. Qed.

Lemma never_exits_report : never_exits __print_report.
Proof. repeat never_exits_step. Qed.

(** The process exits with status 0 only from the last line of [end]:
    the steps before the report have returned, and so has the report. *)
Lemma end_exit_inv s s' t :
  end_ s = (Raise (SystemExit 0), s', t) ->
  exists s1 t1 t2,
    end_prologue s = (Return tt, s1, t1)
    /\ __print_report s1 = (Return tt, s', t2)
    /\ t = t1 ++ t2.
Proof.
  unfold end_. intros H.
  pose proof (never_exits_prologue s 0%Z) as Hp. rewrite bind_run in H.
  unfold outcome_of, state_of, trace_of in *.
  destruct (end_prologue s) as [[[[]|e|] s1] t1] eqn:E1; simpl in *;
    [|injection H as -> _ _; congruence|discriminate].
  pose proof (never_exits_report s1 0%Z) as Hr. rewrite bind_run in H.
  unfold outcome_of, state_of, trace_of in *.
  destruct (__print_report s1) as [[[[]|e|] s2] t2] eqn:E2; simpl in *;
    [|injection H as -> _ _; congruence|discriminate].
  injection H as <- <-. exists s1, t1, t2. rewrite app_nil_r. auto.
Qed.

(** ** Shutdown: the steps before the report *)

(** Leaving the chats touches no slot of the miner. *)
Lemma end_chats_self (m : Miner.t) (ls : list loc) :
  preserves (fun s => self s = m) (for_each ls end_chat_body).
Proof.
  repeat first
    [ apply (preserves_modify_world (fun m' => m' = m))
    | preserves_step
    | preserves_unfold ].
Qed.

(** Nor does it touch a guard. *)
Lemma end_chats_guards (l : loc) (g : option Lock.t) (ls : list loc) :
  preserves (fun s => Streamer.mutex <$> object_at s l = g) (for_each ls end_chat_body).
Proof.
  assert (Hupd : forall l' f,
    (forall o, Streamer.mutex (f o) = Streamer.mutex o) ->
    preserves (fun s => Streamer.mutex <$> object_at s l = g) (update l' f)).
  { intros l' f Hf s H. destruct (object_at s l') as [o|] eqn:Hl'.
    - rewrite (update_run s l' o f Hl'). unfold state_of. simpl.
      destruct (decide (l' = l)) as [->|Hne].
      + rewrite (object_at_set_eq s l o (f o) Hl'). rewrite Hl' in H. simpl in *.
        rewrite Hf. exact H.
      + rewrite (object_at_set_ne s l' l (f o) Hne). exact H.
    - rewrite (update_dangling s l' f Hl'). exact H. }
  repeat first [ apply Hupd; intros ?; reflexivity | preserves_step | preserves_unfold ].
Qed.

(** What has happened when the steps before the report have returned:
    the chats were left (state [sa]), the flags were cleared, the pool
    was there, the joins returned and the guards were checked. *)
Lemma end_prologue_inv s s1 t1 :
  end_prologue s = (Return tt, s1, t1) ->
  exists sa ta td,
    for_each (Miner.streamers (self s)) end_chat_body s = (Return tt, sa, ta)
    /\ self sa = self s
    /\ let sb := mkState (Miner.set_running false (self sa))
                         (World.set_twitch_running false (world sa)) in
       outcome_of (end_join_workers sb) = Return tt
       /\ end_drain_mutexes (state_of (end_join_workers sb)) = (Return tt, s1, td).
Proof.
  unfold end_prologue. intros H.
  apply bind_Return_inv in H as ([] & s0 & t0 & t2 & H0 & H & _).
  injection H0 as <- _. clear t0.
  apply bind_Return_inv in H as (m & s0 & t0 & t3 & H0 & H & _).
  injection H0 as <- <- _.
  apply bind_Return_inv in H as ([] & sa & ta & t4 & Hchat & H & _).
  apply bind_Return_inv in H as ([] & s2 & t5 & t6 & H2 & H & _).
  injection H2 as <- _.
  apply bind_Return_inv in H as ([] & s3 & t7 & t8 & H3 & H & _).
  injection H3 as <- _.
  apply bind_Return_inv in H as ([] & s4 & t9 & t10 & H4 & H & _).
  assert (s4 = mkState (Miner.set_running false (self sa))
                       (World.set_twitch_running false (world sa))) as ->.
  { destruct (Miner.ws_pool (self s)); [injection H4 as <- _; reflexivity|discriminate]. }
  apply bind_Return_inv in H as ([] & s5 & t11 & t12 & H5 & H & _).
  pose proof (end_chats_self (self s) (Miner.streamers (self s)) s eq_refl) as Hself.
  rewrite Hchat in Hself.
  exists sa, ta, t12. split; [exact Hchat|]. split; [exact Hself|].
  simpl. split.
  - rewrite H5. reflexivity.
  - rewrite H5. exact H.
Qed.

(** *** C6
    [end] joins each spawned worker without a timeout: the two joins
    return when both workers end and block when one of them does not,
    and the process reaches its exit only if both workers end. *)
Theorem C6_joins_wait_for_the_workers (s : state) :
  outcome_of (end_join_workers s)
    = (if workers_exit (self s) then Return tt else Block)
  /\ (outcome_of (end_ s) = Raise (SystemExit 0) -> workers_exit (self s) = true).
Proof.
  split; [apply end_join_workers_outcome|].
  destruct (end_ s) as [[o s'] t] eqn:Hend. unfold outcome_of. simpl. intros ->.
  apply end_exit_inv in Hend as (s1 & t1 & t2 & Hpro & _ & _).
  apply end_prologue_inv in Hpro as (sa & ta & td & _ & Hself & Hjoin & _).
  rewrite end_join_workers_outcome in Hjoin. simpl in Hjoin.
  rewrite Hself in Hjoin.
  change (workers_exit (Miner.set_running false (self s)))
    with (workers_exit (self s)) in Hjoin.
  destruct (workers_exit (self s)); [reflexivity|discriminate].
Qed.

(** With a minute watcher that never ends, the shutdown blocks. *)
Lemma C6_counterexample_worker_never_exits :
  outcome_of (end_ Scenario.worker_never_exits) = Block.
Proof. vm_compute. reflexivity. Qed.

(** ** Shutdown: the guards *)

Lemma mutex_acquire_run s l o :
  object_at s l = Some o ->
  mutex_acquire l s
  = match Streamer.mutex o with
    | Lock.Unlocked | Lock.Locked true =>
        (Return tt, set_object l (Streamer.set_mutex Lock.Held o) s,
         [LockAcquire (Streamer.username o)])
    | Lock.Held | Lock.Locked false =>
        (Block, s, [LockAcquire (Streamer.username o)])
    end.
Proof.
  intros Hl. unfold mutex_acquire.
  rewrite (bind_Return _ _ _ _ _ _ (deref_run s l o Hl)), after_nil.
  rewrite (bind_Return _ _ _ _ _ _ (emit_run _ s)).
  destruct (Streamer.mutex o) as [| |[|]]; try reflexivity;
    rewrite (update_run s l o _ Hl); reflexivity.
Qed.

Lemma mutex_release_run s l o :
  object_at s l = Some o ->
  Streamer.mutex o <> Lock.Unlocked ->
  mutex_release l s
  = (Return tt, set_object l (Streamer.set_mutex Lock.Unlocked o) s,
     [LockRelease (Streamer.username o)]).
Proof.
  intros Hl Hm. unfold mutex_release.
  rewrite (bind_Return _ _ _ _ _ _ (deref_run s l o Hl)), after_nil.
  rewrite (bind_Return _ _ _ _ _ _ (emit_run _ s)).
  destruct (Streamer.mutex o) as [| |b]; [congruence| |];
    rewrite (update_run s l o _ Hl); reflexivity.
Qed.

(** The check of one guard that is free or about to be released: it
    returns, the guard is free afterwards, nothing else changes. *)
Lemma end_mutex_body_released s l :
  guard_released s l = true ->
  exists s1 t,
    end_mutex_body l s = (Return tt, s1, t)
    /\ self s1 = self s
    /\ guard_free s1 l
    /\ (forall l', l <> l' -> object_at s1 l' = object_at s l').
Proof.
  unfold guard_released. destruct (object_at s l) as [o|] eqn:Hl; [|discriminate].
  intros Hm. unfold end_mutex_body.
  rewrite (bind_Return _ _ _ _ _ _ (deref_run s l o Hl)), after_nil.
  destruct (Streamer.mutex o) as [| |[|]] eqn:Hmutex; try discriminate; simpl.
  - exists s, []. split; [reflexivity|]. split; [reflexivity|].
    split; [exists o; auto | auto].
  - pose proof (mutex_acquire_run s l o Hl) as Hacq. rewrite Hmutex in Hacq.
    rewrite (bind_Return _ _ _ _ _ _ Hacq).
    set (o1 := Streamer.set_mutex Lock.Held o) in *.
    pose proof (object_at_set_eq s l o o1 Hl) as H1.
    rewrite (mutex_release_run _ l o1 H1), set_object_twice by discriminate.
    eexists _, _. split; [reflexivity|]. split; [reflexivity|]. split.
    + eexists. split; [apply (object_at_set_eq s l o _ Hl) | reflexivity].
    + intros l' Hne. apply object_at_set_ne, Hne.
Qed.

(** A check that returns leaves its guard free. *)
Lemma end_mutex_body_returns s l s1 t :
  end_mutex_body l s = (Return tt, s1, t) -> guard_free s1 l.
Proof.
  intros Hrun. destruct (object_at s l) as [o|] eqn:Hl.
  - destruct (guard_released s l) eqn:Hg.
    + destruct (end_mutex_body_released s l Hg) as (s2 & t2 & Heq & _ & Hfree & _).
      rewrite Heq in Hrun. injection Hrun as <- _. exact Hfree.
    + exfalso. unfold guard_released in Hg. rewrite Hl in Hg.
      unfold end_mutex_body in Hrun.
      rewrite (bind_Return _ _ _ _ _ _ (deref_run s l o Hl)), after_nil in Hrun.
      pose proof (mutex_acquire_run s l o Hl) as Hacq.
      destruct (Streamer.mutex o) as [| |[|]]; try discriminate; simpl in Hrun;
        rewrite (bind_Block _ _ _ _ _ Hacq) in Hrun; discriminate.
  - unfold end_mutex_body in Hrun.
    rewrite (bind_Raise _ _ _ _ _ _ (deref_dangling s l Hl)) in Hrun. discriminate.
Qed.

(** No check takes a free guard. *)
Lemma end_mutex_body_keeps_free l l' :
  preserves (fun s => guard_free s l) (end_mutex_body l').
Proof.
  intros s (o & Hl & Hm). destruct (decide (l' = l)) as [->|Hne].
  - unfold end_mutex_body.
    rewrite (bind_Return _ _ _ _ _ _ (deref_run s l o Hl)), after_nil.
    rewrite Hm. simpl. exists o. auto.
  - destruct (object_at s l') as [o'|] eqn:Hl'.
    + unfold end_mutex_body.
      rewrite (bind_Return _ _ _ _ _ _ (deref_run s l' o' Hl')), after_nil.
      pose proof (mutex_acquire_run s l' o' Hl') as Hacq.
      assert (Hkeep : forall o2, guard_free (set_object l' o2 s) l).
      { intros o2. exists o. rewrite (object_at_set_ne s l' l o2 Hne). auto. }
      destruct (Streamer.mutex o') as [| |[|]] eqn:Hm'; simpl.
      * exists o. auto.
      * rewrite (bind_Block _ _ _ _ _ Hacq). exists o. auto.
      * rewrite (bind_Return _ _ _ _ _ _ Hacq).
        set (o1 := Streamer.set_mutex Lock.Held o') in *.
        pose proof (object_at_set_eq s l' o' o1 Hl') as H1.
        rewrite (mutex_release_run _ l' o1 H1), set_object_twice by discriminate.
        apply Hkeep.
      * rewrite (bind_Block _ _ _ _ _ Hacq). exists o. auto.
    + unfold end_mutex_body.
      rewrite (bind_Raise _ _ _ _ _ _ (deref_dangling s l' Hl')). exists o. auto.
Qed.

(** If the loop over the guards returns, every guard it visited is
    free. *)
Lemma end_drain_returns_free (ls : list loc) s s1 t l :
  for_each ls end_mutex_body s = (Return tt, s1, t) -> l ∈ ls -> guard_free s1 l.
Proof.
  revert s t. induction ls as [|l' ls IH]; intros s t Hrun Hin; [inversion Hin|].
  simpl in Hrun. apply bind_Return_inv in Hrun as ([] & s2 & t2 & t3 & Hb & Hrest & _).
  apply elem_of_cons in Hin as [->|Hin].
  - pose proof (preserves_for_each _ ls end_mutex_body
                  (end_mutex_body_keeps_free l') s2
                  (end_mutex_body_returns s l' s2 t2 Hb)) as Hp.
    rewrite Hrest in Hp. exact Hp.
  - apply (IH s2 t3 Hrest Hin).
Qed.

(** If every guard is free or about to be released, the loop returns. *)
Lemma end_drain_released (ls : list loc) s :
  forallb (guard_released s) ls = true ->
  exists s1 t, for_each ls end_mutex_body s = (Return tt, s1, t) /\ self s1 = self s.
Proof.
  revert s. induction ls as [|l ls IH]; intros s Hall; simpl.
  - exists s, []. auto.
  - simpl in Hall. apply andb_true_iff in Hall as [Hl Hall].
    destruct (end_mutex_body_released s l Hl) as (s1 & t1 & Hb & Hself & Hfree & Hother).
    rewrite (bind_Return _ _ _ _ _ _ Hb).
    destruct (IH s1) as (s2 & t2 & Hrest & Hself2).
    { apply forallb_forall. intros l' Hin.
      rewrite forallb_forall in Hall. specialize (Hall l' Hin).
      unfold guard_released in *. destruct (decide (l = l')) as [<-|Hne].
      - destruct Hfree as (o & -> & ->). reflexivity.
      - rewrite (Hother l' Hne). exact Hall. }
    rewrite Hrest. exists s2, (t1 ++ t2). split; [reflexivity|]. congruence.
Qed.

(** ** The final report *)

(** A loop whose iterations only read the state. *)
Lemma for_each_reads {A} (l : list A) (body : A -> M unit) s (out : A -> list event) :
  (forall x, x ∈ l -> body x s = (Return tt, s, out x)) ->
  for_each l body s = (Return tt, s, concat (out <$> l)).
Proof.
  induction l as [|x l IH]; intros H; simpl; [reflexivity|].
  rewrite (bind_Return _ _ _ _ _ _ (H x (list_elem_of_here x l))).
  rewrite IH; [reflexivity|]. intros y Hy. apply H. right. exact Hy.
Qed.

Lemma report_event_body_run s kv :
  event_ok s kv = true -> report_event_body kv s = (Return tt, s, event_lines s kv).
Proof.
  destruct kv as [id ev]. unfold event_ok, event_lines, recapped, bet_of.
  unfold report_event_body. simpl.
  destruct (EventPrediction.bet_confirmed ev); simpl; [|reflexivity].
  destruct (object_at s (EventPrediction.streamer ev)) as [o|] eqn:Ho; [|discriminate].
  rewrite (bind_Return _ _ _ _ _ _ (deref_run s _ o Ho)), after_nil.
  destruct (Streamer.settings o) as [st|]; [|discriminate].
  destruct (bool_decide (StreamerSettings.make_predictions st = Some true));
    [|reflexivity].
  destruct (StreamerSettings.bet st) as [bet|]; [|discriminate].
  intros _. unfold bet_lines, log_info.
  rewrite (bind_Return _ _ _ _ _ _ (emit_run _ s)).
  destruct (BetSettings.filter_condition bet) as [fc|]; reflexivity.
Qed.

Lemma report_streamer_body_run s l :
  streamer_ok s l = true ->
  report_streamer_body l s = (Return tt, s, streamer_lines s l).
Proof.
  unfold streamer_ok, streamer_lines, report_streamer_body.
  destruct (object_at s l) as [o|] eqn:Ho; [|discriminate].
  rewrite (bind_Return _ _ _ _ _ _ (deref_run s _ o Ho)), after_nil.
  destruct (bool_decide (Streamer.history o ≠ ∅)); [|reflexivity].
  unfold bind, get_self. simpl.
  destruct (Miner.base_points (self s) !! Streamer.username o); [|discriminate].
  reflexivity.
Qed.

(** A report that has all it reads returns, changes nothing and prints
    [report_trace]. *)
Lemma print_report_run s :
  report_ready s = true -> __print_report s = (Return tt, s, report_trace s).
Proof.
  unfold report_ready. rewrite !andb_true_iff. intros [[Hstart Hevents] Hstreamers].
  rewrite forallb_forall in Hevents. rewrite forallb_forall in Hstreamers.
  unfold __print_report, report_trace, log_info.
  rewrite (bind_Return _ _ _ _ _ _ (emit_run _ s)).
  rewrite (bind_Return _ _ _ _ _ _ (eq_refl : get_self s = (Return (self s), s, []))).
  rewrite after_nil.
  rewrite (bind_Return _ _ _ _ _ _ (emit_run _ s)).
  assert (Hlogs : (match Miner.logs_file (self s) with
                   | Some path => emit (LogInfo (LogsFile path))
                   | None => ret tt
                   end) s
                  = (Return tt, s,
                     match Miner.logs_file (self s) with
                     | Some path => [LogInfo (LogsFile path)]
                     | None => []
                     end))
    by (destruct (Miner.logs_file (self s)); reflexivity).
  rewrite (bind_Return _ _ _ _ _ _ Hlogs).
  rewrite (bind_Return _ _ _ _ _ _ (eq_refl : get_world s = (Return (world s), s, []))).
  rewrite after_nil.
  destruct (Miner.start_datetime (self s)) as [t0|]; [|discriminate].
  rewrite (bind_Return _ _ _ _ _ _ (emit_run _ s)).
  assert (Hstreamers' : for_each (Miner.streamers (self s)) report_streamer_body s
                        = (Return tt, s,
                           concat (streamer_lines s <$> Miner.streamers (self s)))).
  { apply for_each_reads. intros x Hx.
    apply report_streamer_body_run, Hstreamers, list_elem_of_In, Hx. }
  destruct (World.events_predictions (world s)) as [|kv events].
  - rewrite (bind_Return _ _ _ _ _ _ (eq_refl : ret tt s = (Return tt, s, []))).
    rewrite (bind_Return _ _ _ _ _ _ (emit_run _ s)).
    rewrite Hstreamers'. unfold after. simpl.
    repeat (rewrite <- ?app_assoc; simpl). reflexivity.
  - assert (Hev : (emit (Print "") ;; for_each (kv :: events) report_event_body) s
                  = (Return tt, s, Print "" :: concat (event_lines s <$> kv :: events))).
    { rewrite (bind_Return _ _ _ _ _ _ (emit_run _ s)).
      rewrite (for_each_reads _ _ s (event_lines s)); [reflexivity|].
      intros x Hx. apply report_event_body_run, Hevents, list_elem_of_In, Hx. }
    rewrite (bind_Return _ _ _ _ _ _ Hev).
    rewrite (bind_Return _ _ _ _ _ _ (emit_run _ s)).
    rewrite Hstreamers'. unfold after. simpl.
    repeat (rewrite <- ?app_assoc; simpl). reflexivity.
Qed.

Lemma elem_of_concat_fmap {A B} (f : A -> list B) (l : list A) (y : B) :
  y ∈ concat (f <$> l) <-> exists x, x ∈ l /\ y ∈ f x.
Proof.
  induction l as [|x l IH]; simpl.
  - split; [intros H; inversion H | intros (x & H & _); inversion H].
  - rewrite elem_of_app, IH. split.
    + intros [H|(x' & Hx' & H)].
      * exists x. split; [left|exact H].
      * exists x'. split; [right; exact Hx'|exact H].
    + intros (x' & Hx' & H). apply elem_of_cons in Hx' as [->|Hx'].
      * left. exact H.
      * right. exists x'. auto.
Qed.

Lemma recap_in_event_lines s kv id :
  LogInfo (Recap id) ∈ event_lines s kv
  <-> id = kv.1 /\ recapped s kv.2 = true /\ is_Some (bet_of s kv.2).
Proof.
  unfold event_lines. destruct (recapped s kv.2).
  - destruct (bet_of s kv.2) as [bet|].
    + unfold bet_lines. split.
      * intros H. apply elem_of_app in H as [H|H].
        -- apply elem_of_cons in H as [H|H]; [discriminate|].
           destruct (BetSettings.filter_condition bet); [|inversion H].
           apply list_elem_of_singleton in H. discriminate.
        -- apply list_elem_of_singleton in H. injection H as ->. eauto.
      * intros (-> & _ & _). apply elem_of_app. right. left.
    + split; [intros H; inversion H | intros (_ & _ & [? [=]])].
  - split; [intros H; inversion H | intros (_ & [=] & _)].
Qed.

Lemma recap_not_in_streamer_lines s l id : LogInfo (Recap id) ∉ streamer_lines s l.
Proof.
  unfold streamer_lines. destruct (object_at s l) as [o|]; [|intros H; inversion H].
  destruct (bool_decide _); [|intros H; inversion H].
  destruct (_ !! _); [|intros H; inversion H].
  intros H. apply elem_of_cons in H as [H|H]; [discriminate|].
  apply list_elem_of_singleton in H. discriminate.
Qed.

Lemma gain_in_streamer_lines s l u g :
  LogInfo (TotalPointsGained u g) ∈ streamer_lines s l
  <-> exists o base,
        object_at s l = Some o /\ Streamer.history o <> ∅
        /\ Streamer.username o = u
        /\ Miner.base_points (self s) !! u = Some base
        /\ g = (Streamer.channel_points o - base)%Z.
Proof.
  unfold streamer_lines. destruct (object_at s l) as [o|].
  2:{ split; [intros H; inversion H | intros (? & ? & [=] & _)]. }
  destruct (bool_decide (Streamer.history o ≠ ∅)) eqn:Hh.
  2:{ apply bool_decide_eq_false in Hh.
      split; [intros H; inversion H | intros (o' & ? & [= <-] & Hne & _); contradiction]. }
  apply bool_decide_eq_true in Hh.
  destruct (Miner.base_points (self s) !! Streamer.username o) as [base|] eqn:Hb.
  2:{ split; [intros H; inversion H|].
      intros (o' & ? & [= <-] & _ & <- & Hb' & _). congruence. }
  split.
  - intros H. apply elem_of_cons in H as [H|H].
    + injection H as -> ->. exists o, base. auto.
    + apply list_elem_of_singleton in H. discriminate.
  - intros (o' & base' & [= <-] & _ & <- & Hb' & ->).
    rewrite Hb in Hb'. injection Hb' as <-. left.
Qed.

Lemma gain_not_in_event_lines s kv u g :
  LogInfo (TotalPointsGained u g) ∉ event_lines s kv.
Proof.
  unfold event_lines. destruct (recapped s kv.2); [|intros H; inversion H].
  destruct (bet_of s kv.2) as [bet|]; [|intros H; inversion H].
  unfold bet_lines. intros H. apply elem_of_app in H as [H|H].
  - apply elem_of_cons in H as [H|H]; [discriminate|].
    destruct (BetSettings.filter_condition bet); [|inversion H].
    apply list_elem_of_singleton in H. discriminate.
  - apply list_elem_of_singleton in H. discriminate.
Qed.

(** Membership in a short explicit list of other records. *)
Ltac not_in_lines H :=
  repeat (apply elem_of_cons in H as [H|H]; [discriminate|]); inversion H.

Lemma recap_in_report s id :
  LogInfo (Recap id) ∈ report_trace s
  <-> exists ev, (id, ev) ∈ World.events_predictions (world s)
                 /\ recapped s ev = true /\ is_Some (bet_of s ev).
Proof.
  unfold report_trace. rewrite !elem_of_app. split.
  - intros [H|[H|[H|[H|[H|H]]]]].
    + not_in_lines H.
    + destruct (Miner.logs_file (self s)); not_in_lines H.
    + destruct (Miner.start_datetime (self s)); not_in_lines H.
    + destruct (World.events_predictions (world s)) as [|kv events] eqn:E;
        [inversion H|].
      apply elem_of_cons in H as [H|H]; [discriminate|].
      apply elem_of_concat_fmap in H as ([id' ev] & Hin & H).
      apply recap_in_event_lines in H as (-> & Hr & Hb). exists ev. auto.
    + not_in_lines H.
    + apply elem_of_concat_fmap in H as (l & _ & H).
      exfalso. exact (recap_not_in_streamer_lines s l id H).
  - intros (ev & Hin & Hr & Hb). right. right. right. left.
    destruct (World.events_predictions (world s)) as [|kv events] eqn:E;
      [inversion Hin|].
    right. apply elem_of_concat_fmap. exists (id, ev). split; [exact Hin|].
    apply recap_in_event_lines. auto.
Qed.

Lemma gain_in_report s u g :
  LogInfo (TotalPointsGained u g) ∈ report_trace s
  <-> exists l o base,
        l ∈ Miner.streamers (self s)
        /\ object_at s l = Some o /\ Streamer.history o <> ∅
        /\ Streamer.username o = u
        /\ Miner.base_points (self s) !! u = Some base
        /\ g = (Streamer.channel_points o - base)%Z.
Proof.
  unfold report_trace. rewrite !elem_of_app. split.
  - intros [H|[H|[H|[H|[H|H]]]]].
    + not_in_lines H.
    + destruct (Miner.logs_file (self s)); not_in_lines H.
    + destruct (Miner.start_datetime (self s)); not_in_lines H.
    + destruct (World.events_predictions (world s)) as [|kv events] eqn:E;
        [inversion H|].
      apply elem_of_cons in H as [H|H]; [discriminate|].
      apply elem_of_concat_fmap in H as (kv' & _ & H).
      exfalso. exact (gain_not_in_event_lines s kv' u g H).
    + not_in_lines H.
    + apply elem_of_concat_fmap in H as (l & Hin & H).
      apply gain_in_streamer_lines in H as (o & base & H). exists l, o, base. auto.
  - intros (l & o & base & Hin & H). do 5 right.
    apply elem_of_concat_fmap. exists l. split; [exact Hin|].
    apply gain_in_streamer_lines. exists o, base. exact H.
Qed.

(** An event that the report can read and recaps has bet settings. *)
Lemma event_ok_bet s id ev :
  event_ok s (id, ev) = true -> recapped s ev = true -> is_Some (bet_of s ev).
Proof.
  unfold event_ok, recapped, bet_of. simpl.
  destruct (EventPrediction.bet_confirmed ev); [|discriminate]. simpl.
  destruct (object_at s (EventPrediction.streamer ev)) as [o|]; [|discriminate].
  destruct (Streamer.settings o) as [st|]; [|discriminate].
  intros H Hr. rewrite Hr in H.
  destruct (StreamerSettings.bet st); [eauto|discriminate].
Qed.

(** *** C3
    A report that has all it reads returns without changing the state,
    and it holds a line with the gain [g] for user name [u] exactly when
    a streamer of [self.streamers] with that name has a history that is
    not empty, [g] being its current balance minus the baseline recorded
    under its name.  A streamer whose history is empty gets no line. *)
Theorem C3_gain_reported_for_streamers_with_history (s : state) :
  report_ready s = true ->
  __print_report s = (Return tt, s, report_trace s)
  /\ forall u g,
       LogInfo (TotalPointsGained u g) ∈ report_trace s
       <-> exists l o base,
             l ∈ Miner.streamers (self s)
             /\ object_at s l = Some o /\ Streamer.history o <> ∅
             /\ Streamer.username o = u
             /\ Miner.base_points (self s) !! u = Some base
             /\ g = (Streamer.channel_points o - base)%Z.
Proof.
  intros Hready. split; [apply print_report_run, Hready|].
  intros u g. apply gain_in_report.
Qed.

(** Once the steps before the report have returned, a report that has
    all it reads is printed and [end] leaves with [sys.exit(0)]. *)
Lemma end_after_prologue (s s1 : state) (t1 : list event) :
  end_prologue s = (Return tt, s1, t1) ->
  report_ready s1 = true ->
  end_ s = (Raise (SystemExit 0), s1, t1 ++ report_trace s1)
  /\ forall id,
       LogInfo (Recap id) ∈ report_trace s1
       <-> exists ev, (id, ev) ∈ World.events_predictions (world s1)
                      /\ recapped s1 ev = true.
Proof.
  intros Hpro Hready. split.
  - unfold end_. rewrite (bind_Return _ _ _ _ _ _ Hpro).
    rewrite (bind_Return _ _ _ _ _ _ (print_report_run s1 Hready)).
    unfold after, raise. simpl. rewrite app_nil_r. reflexivity.
  - intros id. rewrite recap_in_report. split.
    + intros (ev & Hin & Hr & _). eauto.
    + intros (ev & Hin & Hr). exists ev. split; [exact Hin|]. split; [exact Hr|].
      apply (event_ok_bet s1 id ev); [|exact Hr].
      unfold report_ready in Hready. rewrite !andb_true_iff in Hready.
      destruct Hready as [[_ Hevents] _]. rewrite forallb_forall in Hevents.
      apply Hevents, list_elem_of_In, Hin.
Qed.

(** The report changes nothing. *)
Lemma print_report_state s : state_of (__print_report s) = s.
Proof.
  assert (H : preserves (fun s' => s' = s) __print_report)
    by (repeat first [ preserves_step | preserves_unfold ]).
  apply (H s eq_refl).
Qed.

(** The loop over the guards of [self.streamers]. *)
Lemma end_drain_mutexes_returns s :
  guards_released s = true ->
  exists s1 t,
    end_drain_mutexes s = (Return tt, s1, t)
    /\ self s1 = self s
    /\ forall l, l ∈ Miner.streamers (self s) -> guard_free s1 l.
Proof.
  intros Hall. unfold guards_released in Hall.
  destruct (end_drain_released _ s Hall) as (s1 & t & Hrun & Hself).
  exists s1, t. unfold end_drain_mutexes.
  rewrite (bind_Return _ _ _ _ _ _ (eq_refl : get_self s = (Return (self s), s, []))).
  rewrite after_nil. split; [exact Hrun|]. split; [exact Hself|].
  intros l Hin. exact (end_drain_returns_free _ s s1 t l Hrun Hin).
Qed.

(** *** C2
    [end] checks the guards after the joins and before the report.  If
    every guard is free or held by a thread that is going to release it,
    the loop returns, having waited for each held guard and released it,
    and no streamer's guard is held afterwards; and whenever [end] gets
    as far as [sys.exit(0)], no streamer's guard is held. *)
Theorem C2_held_guards_are_waited_for (s : state) :
  (guards_released s = true ->
   exists s1 t,
     end_drain_mutexes s = (Return tt, s1, t)
     /\ self s1 = self s
     /\ forall l, l ∈ Miner.streamers (self s) -> guard_free s1 l)
  /\ (forall s' t,
        end_ s = (Raise (SystemExit 0), s', t) ->
        forall l, l ∈ Miner.streamers (self s) -> guard_free s' l).
Proof.
  split; [apply end_drain_mutexes_returns|].
  intros s' t Hend l Hin.
  apply end_exit_inv in Hend as (s1 & t1 & t2 & Hpro & Hrep & _).
  apply end_prologue_inv in Hpro as (sa & ta & td & _ & Hself & _ & Hdrain).
  pose proof (print_report_state s1) as Hsame. rewrite Hrep in Hsame.
  unfold state_of in Hsame. simpl in Hsame. subst s'.
  unfold end_drain_mutexes in Hdrain.
  apply bind_Return_inv in Hdrain as (m & s2 & t3 & t4 & Hget & Hloop & _).
  injection Hget as <- <- _.
  apply (end_drain_returns_free _ _ s1 t4 l Hloop).
  rewrite (proj2 (end_join_workers_world _)). simpl. rewrite Hself. exact Hin.
Qed.

Lemma C2_held_guards_are_waited_for_witness :
  exists s1 t,
    end_drain_mutexes Scenario.guard_released_soon = (Return tt, s1, t)
    /\ self s1 = self Scenario.guard_released_soon
    /\ forall l, l ∈ Miner.streamers (self Scenario.guard_released_soon) ->
                 guard_free s1 l.
Proof.
  apply (proj1 (C2_held_guards_are_waited_for Scenario.guard_released_soon)).
  reflexivity.
Defined.

(** With a guard that its holder never releases, the shutdown blocks in
    [acquire] and the report is never printed. *)
Lemma C2_counterexample_guard_never_released :
  outcome_of (end_ Scenario.guard_never_released) = Block
  /\ trace_of (end_ Scenario.guard_never_released)
     = [LogInfo CtrlCDetected; PoolEnd; ThreadJoin "Minute watcher"; LockAcquire "b"].
Proof. vm_compute. split; reflexivity. Qed.

Lemma C3_gain_reported_for_streamers_with_history_witness :
  __print_report Scenario.quiet
  = (Return tt, Scenario.quiet, report_trace Scenario.quiet)
  /\ forall u g,
       LogInfo (TotalPointsGained u g) ∈ report_trace Scenario.quiet
       <-> exists l o base,
             l ∈ Miner.streamers (self Scenario.quiet)
             /\ object_at Scenario.quiet l = Some o /\ Streamer.history o <> ∅
             /\ Streamer.username o = u
             /\ Miner.base_points (self Scenario.quiet) !! u = Some base
             /\ g = (Streamer.channel_points o - base)%Z.
Proof.
  apply (C3_gain_reported_for_streamers_with_history Scenario.quiet).
  vm_compute. reflexivity.
Defined.

(** Entity B is tracked, its balance is 20 below its baseline and its
    history is empty: the report has a line for entity A only. *)
Lemma C3_counterexample_no_line_without_history :
  Miner.streamers (self Scenario.b_spent) = [0; 1]
  /\ Streamer.username <$> object_at Scenario.b_spent 1 = Some "b"
  /\ Streamer.channel_points <$> object_at Scenario.b_spent 1 = Some 30%Z
  /\ Miner.base_points (self Scenario.b_spent) !! "b" = Some 50%Z
  /\ outcome_of (__print_report Scenario.b_spent) = Return tt
  /\ gains (trace_of (__print_report Scenario.b_spent)) = [("a", 50%Z)].
Proof. vm_compute. repeat split; reflexivity. Qed.

(** A resolved event without a confirmed bet is in the store; the
    shutdown is clean and the report recaps nothing. *)
Lemma C7_counterexample_resolved_without_bet :
  World.events_predictions (world Scenario.resolved_without_bet)
  = [("e1", EventPrediction.mk 0 EventPrediction.RESOLVED false)]
  /\ outcome_of (end_ Scenario.resolved_without_bet) = Raise (SystemExit 0)
  /\ recaps (trace_of (end_ Scenario.resolved_without_bet)) = [].
Proof. vm_compute. repeat split; reflexivity. Qed.

(** ** Shutdown: from the signal to the report *)

Lemma Thread_join_run th s :
  Thread_join th s
  = match Thread.state th with
    | Thread.Finished => (Return th, s, [ThreadJoin (Thread.name th)])
    | Thread.Alive true =>
        (Return (Thread.mk (Thread.name th) Thread.Finished), s,
         [ThreadJoin (Thread.name th)])
    | Thread.Alive false => (Block, s, [ThreadJoin (Thread.name th)])
    end.
Proof. unfold Thread_join. destruct (Thread.state th) as [|[|]]; reflexivity. Qed.

(** Leaving one chat whose thread ends: the step returns and every chat
    thread that was going to end still is. *)
Lemma end_chat_body_ends s l :
  chat_ends s l = true ->
  exists s1 t,
    end_chat_body l s = (Return tt, s1, t)
    /\ forall l', chat_ends s l' = true -> chat_ends s1 l' = true.
Proof.
  unfold chat_ends at 1. destruct (object_at s l) as [o|] eqn:Hl; [|discriminate].
  intros Hends. unfold end_chat_body.
  rewrite (bind_Return _ _ _ _ _ _ (deref_run s l o Hl)), after_nil.
  destruct (Streamer.irc_chat o) as [[name st]|] eqn:Hchat.
  2:{ exists s, []. auto. }
  rewrite (bind_Return _ _ _ _ _ _ (emit_run _ s)).
  unfold thread_exits in Hends. simpl in Hends.
  unfold Thread.is_alive. simpl.
  destruct st as [|[|]]; try discriminate.
  - exists s, [LeaveChat (Streamer.username o)]. auto.
  - rewrite (bind_Return _ _ _ _ _ _
               (Thread_join_run (Thread.mk name (Thread.Alive true)) s)).
    rewrite (update_run s l o _ Hl), !after_triple.
    eexists _, _. split; [reflexivity|].
    intros l' Hl'. unfold chat_ends in *. destruct (decide (l = l')) as [<-|Hne].
    + rewrite (object_at_set_eq s l o _ Hl). reflexivity.
    + rewrite (object_at_set_ne s l l' _ Hne). exact Hl'.
Qed.

Lemma end_chats_return (ls : list loc) s :
  forallb (chat_ends s) ls = true ->
  exists s1 t, for_each ls end_chat_body s = (Return tt, s1, t).
Proof.
  revert s. induction ls as [|l ls IH]; intros s Hall; simpl.
  - exists s, []. reflexivity.
  - simpl in Hall. apply andb_true_iff in Hall as [Hl Hall].
    destruct (end_chat_body_ends s l Hl) as (s1 & t1 & Hb & Hkeep).
    rewrite (bind_Return _ _ _ _ _ _ Hb).
    destruct (IH s1) as (s2 & t2 & Hrest).
    { apply forallb_forall. intros l' Hin. apply Hkeep.
      rewrite forallb_forall in Hall. apply Hall, Hin. }
    rewrite Hrest. exists s2, (t1 ++ t2). reflexivity.
Qed.

(** Whether a guard is free or about to be released is a matter of its
    [mutex] alone. *)
Lemma guard_released_mutex s s' l :
  Streamer.mutex <$> object_at s' l = Streamer.mutex <$> object_at s l ->
  guard_released s' l = guard_released s l.
Proof.
  unfold guard_released.
  destruct (object_at s' l) as [o'|], (object_at s l) as [o|]; simpl;
    intros H; try discriminate; [|reflexivity].
  injection H as ->. reflexivity.
Qed.

(** The steps before the report return when nothing keeps them. *)
Lemma end_prologue_returns s :
  shutdown_ready s = true -> exists s1 t1, end_prologue s = (Return tt, s1, t1).
Proof.
  unfold shutdown_ready. rewrite !andb_true_iff.
  intros [[[Hchats Hpool] Hworkers] Hguards].
  destruct (end_chats_return _ s Hchats) as (sa & ta & Hchat).
  pose proof (end_chats_self (self s) (Miner.streamers (self s)) s eq_refl) as Hself.
  rewrite Hchat in Hself. unfold state_of in Hself. simpl in Hself.
  set (sb := mkState (Miner.set_running false (self sa))
                     (World.set_twitch_running false (world sa))).
  pose proof (end_join_workers_outcome sb) as Hjoin.
  pose proof (end_join_workers_world sb) as [Hworld Hstreamers].
  assert (Hw : workers_exit (self sb) = true).
  { unfold sb. simpl. rewrite Hself. exact Hworkers. }
  rewrite Hw in Hjoin.
  destruct (end_join_workers sb) as [[oj sj] tj] eqn:Ej.
  unfold outcome_of, state_of in *. simpl in *. subst oj.
  assert (Hdrain : guards_released sj = true).
  { unfold guards_released in *. rewrite Hstreamers, Hself.
    apply forallb_forall. intros l Hin.
    rewrite forallb_forall in Hguards. specialize (Hguards l Hin).
    rewrite <- Hguards. apply guard_released_mutex.
    unfold object_at. rewrite Hworld. simpl.
    pose proof (end_chats_guards l (Streamer.mutex <$> object_at s l)
                  (Miner.streamers (self s)) s eq_refl) as Hm.
    rewrite Hchat in Hm. exact Hm. }
  destruct (end_drain_mutexes_returns sj Hdrain) as (s1 & td & Hd & _).
  unfold end_prologue, log_info.
  rewrite (bind_Return _ _ _ _ _ _ (emit_run _ s)).
  rewrite (bind_Return _ _ _ _ _ _ (eq_refl : get_self s = (Return (self s), s, []))).
  rewrite after_nil.
  rewrite (bind_Return _ _ _ _ _ _ Hchat).
  rewrite (bind_Return _ _ _ _ _ _
             (eq_refl : modify_world (World.set_twitch_running false) sa = (_, _, _))).
  rewrite after_nil.
  rewrite (bind_Return _ _ _ _ _ _
             (eq_refl : modify_self (Miner.set_running false) _ = (_, _, _))).
  rewrite after_nil.
  destruct (Miner.ws_pool (self s)); [|discriminate].
  rewrite (bind_Return _ _ _ _ _ _ (emit_run _ _)).
  fold sb. rewrite (bind_Return _ _ _ _ _ _ Ej). rewrite Hd.
  rewrite !after_triple. eexists _, _. reflexivity.
Qed.

(** ** What the report reads is left alone by the steps before it *)

Lemma forallb_pointwise {A} (f g : A -> bool) (l : list A) :
  (forall x, f x = g x) -> forallb f l = forallb g l.
Proof.
  intros H. induction l as [|x l IH]; simpl; [reflexivity|].
  rewrite H, IH. reflexivity.
Qed.

Lemma concat_fmap_pointwise {A B} (f g : A -> list B) (l : list A) :
  (forall x, f x = g x) -> concat (f <$> l) = concat (g <$> l).
Proof.
  intros H. induction l as [|x l IH]; [reflexivity|].
  rewrite !fmap_cons. cbn [concat]. rewrite H, IH. reflexivity.
Qed.

Section ReportView.
Context (s s' : state).
Context (Hview : report_state_view s' = report_state_view s).

Lemma view_object l : report_view <$> object_at s' l = report_view <$> object_at s l.
Proof.
  pose proof Hview as Hv. unfold report_state_view in Hv.
  injection Hv as _ _ _ _ _ _ _ Hheap.
  unfold object_at. rewrite <- !list_lookup_fmap, Hheap. reflexivity.
Qed.

(** Two objects with the same view, or none on either side. *)
Lemma view_object_cases l :
  (object_at s' l = None /\ object_at s l = None)
  \/ exists o' o, object_at s' l = Some o' /\ object_at s l = Some o
                  /\ Streamer.username o' = Streamer.username o
                  /\ Streamer.settings o' = Streamer.settings o
                  /\ Streamer.history o' = Streamer.history o
                  /\ Streamer.channel_points o' = Streamer.channel_points o.
Proof.
  pose proof (view_object l) as H.
  destruct (object_at s' l) as [o'|], (object_at s l) as [o|]; simpl in H;
    try discriminate; [right|left; auto].
  unfold report_view in H. injection H as H1 H2 H3 H4.
  exists o', o. auto 10.
Qed.

Lemma view_base_points : Miner.base_points (self s') = Miner.base_points (self s).
Proof.
  pose proof Hview as Hv. unfold report_state_view in Hv.
  injection Hv as _ H _ _ _ _ _ _. exact H.
Qed.

Lemma view_streamers : Miner.streamers (self s') = Miner.streamers (self s).
Proof.
  pose proof Hview as Hv. unfold report_state_view in Hv.
  injection Hv as H _ _ _ _ _ _ _. exact H.
Qed.

Lemma view_events :
  World.events_predictions (world s') = World.events_predictions (world s).
Proof.
  pose proof Hview as Hv. unfold report_state_view in Hv.
  injection Hv as _ _ _ _ _ H _ _. exact H.
Qed.

Lemma recapped_view ev : recapped s' ev = recapped s ev.
Proof.
  unfold recapped.
  destruct (view_object_cases (EventPrediction.streamer ev))
    as [[-> ->]|(o' & o & -> & -> & _ & -> & _)]; reflexivity.
Qed.

Lemma bet_of_view ev : bet_of s' ev = bet_of s ev.
Proof.
  unfold bet_of.
  destruct (view_object_cases (EventPrediction.streamer ev))
    as [[-> ->]|(o' & o & -> & -> & _ & -> & _)]; reflexivity.
Qed.

Lemma event_ok_view kv : event_ok s' kv = event_ok s kv.
Proof.
  unfold event_ok.
  destruct (view_object_cases (EventPrediction.streamer kv.2))
    as [[-> ->]|(o' & o & -> & -> & _ & -> & _)]; reflexivity.
Qed.

Lemma event_lines_view kv : event_lines s' kv = event_lines s kv.
Proof. unfold event_lines. rewrite recapped_view, bet_of_view. reflexivity. Qed.

Lemma streamer_ok_view l : streamer_ok s' l = streamer_ok s l.
Proof.
  unfold streamer_ok. rewrite view_base_points.
  destruct (view_object_cases l) as [[-> ->]|(o' & o & -> & -> & -> & _ & -> & _)];
    reflexivity.
Qed.

Lemma streamer_lines_view l : streamer_lines s' l = streamer_lines s l.
Proof.
  unfold streamer_lines. rewrite view_base_points.
  destruct (view_object_cases l) as [[-> ->]|(o' & o & -> & -> & -> & _ & -> & ->)];
    reflexivity.
Qed.

Lemma report_ready_view : report_ready s' = report_ready s.
Proof.
  unfold report_ready. rewrite view_events, view_streamers.
  rewrite (forallb_pointwise _ _ _ event_ok_view).
  rewrite (forallb_pointwise _ _ _ streamer_ok_view).
  pose proof Hview as Hv. unfold report_state_view in Hv.
  injection Hv as _ _ -> _ _ _ _ _.
  reflexivity.
Qed.

Lemma report_trace_view : report_trace s' = report_trace s.
Proof.
  unfold report_trace. rewrite view_events, view_streamers.
  rewrite (concat_fmap_pointwise _ _ _ streamer_lines_view).
  pose proof (concat_fmap_pointwise _ _ (World.events_predictions (world s))
                event_lines_view) as Hev.
  pose proof Hview as Hv. unfold report_state_view in Hv.
  injection Hv as _ _ -> -> -> _ -> _.
  destruct (World.events_predictions (world s)) as [|kv events]; [reflexivity|].
  rewrite Hev. reflexivity.
Qed.

End ReportView.

Lemma view_update X l f :
  (forall o, report_view (f o) = report_view o) ->
  preserves (fun s => report_state_view s = X) (update l f).
Proof.
  intros Hf s H. destruct (object_at s l) as [o|] eqn:Hl.
  - rewrite (update_run s l o f Hl). unfold state_of. simpl. rewrite <- H.
    unfold report_state_view, set_object. simpl. f_equal.
    rewrite list_fmap_insert. apply list_insert_id.
    rewrite list_lookup_fmap. unfold object_at in Hl.
    transitivity (report_view <$> Some o); [f_equal; exact Hl|].
    simpl. rewrite Hf. reflexivity.
  - rewrite (update_dangling s l f Hl). exact H.
Qed.

Lemma view_modify_self X f :
  (forall m w, report_state_view (mkState (f m) w) = report_state_view (mkState m w)) ->
  preserves (fun s => report_state_view s = X) (modify_self f).
Proof.
  intros Hf s H. unfold state_of, modify_self. simpl. rewrite Hf.
  destruct s. exact H.
Qed.

Lemma view_modify_world X f :
  (forall m w, report_state_view (mkState m (f w)) = report_state_view (mkState m w)) ->
  preserves (fun s => report_state_view s = X) (modify_world f).
Proof.
  intros Hf s H. unfold state_of, modify_world. simpl. rewrite Hf.
  destruct s. exact H.
Qed.

(** The steps before the report change nothing of what it reads. *)
Lemma end_prologue_view s :
  report_state_view (state_of (end_prologue s)) = report_state_view s.
Proof.
  assert (H : preserves (fun s' => report_state_view s' = report_state_view s)
                        end_prologue).
  { repeat first
      [ apply view_update; intros ?; reflexivity
      | apply view_modify_self; intros ? ?; reflexivity
      | apply view_modify_world; intros ? ?; reflexivity
      | preserves_step
      | preserves_unfold ]. }
  apply (H s eq_refl).
Qed.

(** *** C7
    At a shutdown that nothing holds up (the chat threads and the workers
    end, the pool exists, every guard is free or about to be released)
    and whose report has all it reads, [end] prints the report and leaves
    with [sys.exit(0)]; the report recaps exactly the events of the store
    on which a bet was confirmed and whose streamer has
    [make_predictions] on, whatever their status. *)
Theorem C7_recap_for_confirmed_bets_then_exit_0 (s : state) :
  shutdown_ready s = true ->
  report_ready s = true ->
  (exists s1 t1, end_ s = (Raise (SystemExit 0), s1, t1 ++ report_trace s))
  /\ forall id,
       LogInfo (Recap id) ∈ report_trace s
       <-> exists ev, (id, ev) ∈ World.events_predictions (world s)
                      /\ recapped s ev = true.
Proof.
  intros Hshutdown Hready.
  destruct (end_prologue_returns s Hshutdown) as (s1 & t1 & Hpro).
  pose proof (end_prologue_view s) as Hview. rewrite Hpro in Hview.
  unfold state_of in Hview. simpl in Hview.
  assert (Hready1 : report_ready s1 = true)
    by (rewrite (report_ready_view s s1 Hview); exact Hready).
  destruct (end_after_prologue s s1 t1 Hpro Hready1) as [Hend Hrecaps].
  rewrite (report_trace_view s s1 Hview) in Hend, Hrecaps.
  split; [exists s1, t1; exact Hend|].
  intros id. rewrite Hrecaps, (view_events s s1 Hview). split.
  - intros (ev & Hin & Hr). exists ev. rewrite <- (recapped_view s s1 Hview). auto.
  - intros (ev & Hin & Hr). exists ev. rewrite (recapped_view s s1 Hview). auto.
Qed.

Lemma C7_recap_for_confirmed_bets_then_exit_0_witness :
  (exists s1 t1,
     end_ Scenario.two_bets
     = (Raise (SystemExit 0), s1, t1 ++ report_trace Scenario.two_bets))
  /\ forall id,
       LogInfo (Recap id) ∈ report_trace Scenario.two_bets
       <-> exists ev,
             (id, ev) ∈ World.events_predictions (world Scenario.two_bets)
             /\ recapped Scenario.two_bets ev = true.
Proof.
  apply (C7_recap_for_confirmed_bets_then_exit_0 Scenario.two_bets).
  - vm_compute. reflexivity.
  - vm_compute. reflexivity.
Defined.

(** * Further properties of the methods *)

(** ** The liveness sweep: passes that do nothing *)

Lemma concat_fmap_nil {A B} (l : list A) : concat ((fun _ : A => @nil B) <$> l) = [].
Proof. induction l as [|x l IH]; simpl; [reflexivity | exact IH]. Qed.

Lemma liveness_sweep_run ext s :
  Miner.ws_pool (self s) = Some tt ->
  liveness_sweep ext s
  = for_each (seq 0 (length (WebSocketsPool.ws (World.pool (world s))))) (sweep_body ext) s.
Proof.
  intros Hpool. unfold liveness_sweep, bind, get_self, get_world. simpl. rewrite Hpool.
  destruct (for_each _ (sweep_body ext) s) as [[o s1] t1]. reflexivity.
Qed.

(** *** X1
    A pass of the liveness sweep over a pool in which no connection is
    due (each one is reconnecting already, or its last ping is at most
    ten minutes old) returns without a log record, without a call of
    the reachability probe or of [handle_reconnection], and leaves the
    state exactly as it found it. *)
Theorem sweep_changes_nothing_when_no_connection_is_stale (ext : Externals.t)
    (s : state) :
  Miner.ws_pool (self s) = Some tt ->
  no_connection_stale ext s = true ->
  liveness_sweep ext s = (Return tt, s, []).
Proof.
  intros Hpool Hall. rewrite (liveness_sweep_run ext s Hpool).
  rewrite (for_each_reads _ _ s (fun _ => [])); [rewrite concat_fmap_nil; reflexivity|].
  intros index Hin. apply elem_of_seq in Hin as [_ Hlt]. simpl in Hlt.
  destruct (lookup_lt_is_Some_2 _ _ Hlt) as [ws Hws].
  unfold no_connection_stale in Hall. rewrite forallb_forall in Hall.
  specialize (Hall ws). rewrite <- list_elem_of_In in Hall.
  specialize (Hall (list_elem_of_lookup_2 _ _ _ Hws)).
  unfold sweep_body, bind, get_world. simpl. rewrite Hws.
  destruct (WebSocket.is_reconneting ws); simpl in *; [reflexivity|].
  apply negb_true_iff in Hall. rewrite Hall. reflexivity.
Qed.

Lemma sweep_changes_nothing_when_no_connection_is_stale_witness :
  liveness_sweep (Sample.ext [])
    (Scenario.session Scenario.heap_AB Scenario.base_AB None None
       Scenario.two_connections [] 300)
  = (Return tt,
     Scenario.session Scenario.heap_AB Scenario.base_AB None None
       Scenario.two_connections [] 300, []).
Proof.
  apply (sweep_changes_nothing_when_no_connection_is_stale (Sample.ext [])).
  - reflexivity.
  - vm_compute. reflexivity.
Defined.

Lemma set_probes_same w : World.set_probes (World.probes w) w = w.
Proof. destruct w. reflexivity. Qed.

Lemma sweep_offline_indexes ext m w (l : list nat) :
  (forall n, World.internet w n = false) ->
  (forall i, i ∈ l -> is_Some (WebSocketsPool.ws (World.pool w) !! i)) ->
  forall p, exists k,
    (k <= length l)%nat
    /\ for_each l (sweep_body ext) (mkState m (World.set_probes p w))
       = (Return tt, mkState m (World.set_probes (p + k) w), []).
Proof.
  intros Hnet. induction l as [|i l IH]; intros Hl p.
  - exists 0%nat. split; [simpl; lia|]. rewrite Nat.add_0_r. reflexivity.
  - destruct (Hl i (list_elem_of_here i l)) as [ws Hws].
    assert (Hl' : forall j, j ∈ l -> is_Some (WebSocketsPool.ws (World.pool w) !! j))
      by (intros j Hj; apply Hl; right; exact Hj).
    assert (Hbody : exists k1, (k1 <= 1)%nat
              /\ sweep_body ext i (mkState m (World.set_probes p w))
                 = (Return tt, mkState m (World.set_probes (p + k1) w), [])).
    { unfold sweep_body, bind, get_world. simpl. rewrite Hws.
      destruct (WebSocket.is_reconneting ws); simpl.
      { exists 0%nat. split; [lia|]. rewrite Nat.add_0_r. reflexivity. }
      destruct (Qlt_bool 10 _); simpl.
      2:{ exists 0%nat. split; [lia|]. rewrite Nat.add_0_r. reflexivity. }
      unfold internet_connection_available. simpl. rewrite Hnet. simpl.
      exists 1%nat. split; [lia|]. rewrite Nat.add_1_r. reflexivity. }
    destruct Hbody as (k1 & Hk1 & Hbody).
    destruct (IH Hl' (p + k1)%nat) as (k & Hk & Hrest).
    exists (k1 + k)%nat. split; [simpl; lia|].
    simpl. rewrite (bind_Return _ _ _ _ _ _ Hbody), Hrest.
    rewrite Nat.add_assoc. reflexivity.
Qed.

(** *** X2
    With the network unreachable, a pass of the liveness sweep never
    calls [handle_reconnection] and logs nothing: it returns, and the
    only thing it changes is the number of reachability probes made, at
    most one per connection of the pool. *)
Theorem sweep_offline_only_probes (ext : Externals.t) (s : state) :
  Miner.ws_pool (self s) = Some tt ->
  (forall n, World.internet (world s) n = false) ->
  exists k,
    (k <= length (WebSocketsPool.ws (World.pool (world s))))%nat
    /\ liveness_sweep ext s
       = (Return tt,
          mkState (self s) (World.set_probes (World.probes (world s) + k) (world s)),
          []).
Proof.
  intros Hpool Hnet. rewrite (liveness_sweep_run ext s Hpool).
  destruct s as [m w]. simpl in *.
  destruct (sweep_offline_indexes ext m w
              (seq 0 (length (WebSocketsPool.ws (World.pool w)))) Hnet)
    with (p := World.probes w) as (k & Hk & Hrun).
  { intros i Hi. apply elem_of_seq in Hi. apply lookup_lt_is_Some_2. lia. }
  rewrite length_seq in Hk. rewrite set_probes_same in Hrun.
  exists k. split; [exact Hk | exact Hrun].
Qed.

Lemma sweep_offline_only_probes_witness :
  exists k,
    (k <= length (WebSocketsPool.ws (World.pool (world (Cases.offline Scenario.quiet)))))%nat
    /\ liveness_sweep (Sample.ext []) (Cases.offline Scenario.quiet)
       = (Return tt,
          mkState (self (Cases.offline Scenario.quiet))
            (World.set_probes (World.probes (world (Cases.offline Scenario.quiet)) + k)
               (world (Cases.offline Scenario.quiet))),
          []).
Proof.
  apply (sweep_offline_only_probes (Sample.ext []) (Cases.offline Scenario.quiet)).
  - reflexivity.
  - intros n. reflexivity.
Defined.

(** ** Shutdown: what [end] leaves behind *)

Lemma bind_raise_never_returns {A B} (c : M A) (e : exn) s (b : B) :
  outcome_of (bind c (fun _ => raise e) s) <> Return b.
Proof.
  rewrite bind_run. destruct (outcome_of (c s)); unfold outcome_of; simpl; discriminate.
Qed.

Lemma bind_never_returns {A B} (c : M A) (k : A -> M B) s :
  (forall a s1 b, outcome_of (k a s1) <> Return b) ->
  forall b, outcome_of (bind c k s) <> Return b.
Proof.
  intros Hk b. rewrite bind_run.
  destruct (outcome_of (c s)) as [a|e|]; unfold outcome_of; simpl;
    [apply Hk | discriminate | discriminate].
Qed.

Lemma bind_raise_status {A B} (c : M A) (status : Z) :
  never_exits c ->
  forall s st, outcome_of (bind c (fun _ => @raise B (SystemExit status)) s)
               = Raise (SystemExit st) -> st = status.
Proof.
  intros Hc s st. rewrite bind_run. specialize (Hc s st).
  destruct (outcome_of (c s)) as [a|e|]; unfold outcome_of; simpl.
  - intros [= <-]. reflexivity.
  - intros [= ->]. exfalso. apply Hc. reflexivity.
  - discriminate.
Qed.

(** *** X3
    [end] never returns to the code it interrupted: it leaves the
    process, raises or blocks; and 0 is the only status it leaves the
    process with. *)
Theorem end_never_returns (s : state) :
  outcome_of (end_ s) <> Return tt
  /\ forall status, outcome_of (end_ s) = Raise (SystemExit status) -> status = 0%Z.
Proof.
  split.
  - unfold end_. apply bind_never_returns. intros [] s1 b.
    apply bind_raise_never_returns.
  - intros status. unfold end_. rewrite bind_run.
    pose proof (never_exits_prologue s status) as Hp.
    destruct (outcome_of (end_prologue s)) as [[]|e|]; unfold outcome_of at 1; simpl.
    + apply bind_raise_status, never_exits_report.
    + intros [= ->]. exfalso. apply Hp. reflexivity.
    + discriminate.
Qed.

(** The guards are checked without touching a slot of the miner or the
    flag of the [Twitch] object. *)
Lemma update_keeps_flags (m : Miner.t) (b : bool) l f :
  preserves (fun s => self s = m /\ World.twitch_running (world s) = b) (update l f).
Proof.
  intros s H. destruct (object_at s l) as [o|] eqn:Hl.
  - rewrite (update_run s l o f Hl). exact H.
  - rewrite (update_dangling s l f Hl). exact H.
Qed.

Lemma end_drain_keeps_flags (m : Miner.t) (b : bool) :
  preserves (fun s => self s = m /\ World.twitch_running (world s) = b) end_drain_mutexes.
Proof.
  repeat first [ apply update_keeps_flags | preserves_step | preserves_unfold ].
Qed.

Lemma end_join_workers_finished (s : state) :
  outcome_of (end_join_workers s) = Return tt ->
  let m := self (state_of (end_join_workers s)) in
  Miner.running m = Miner.running (self s)
  /\ (forall th, Miner.minute_watcher_thread m = Some th ->
                 Thread.state th = Thread.Finished)
  /\ (forall th, Miner.sync_campaigns_thread m = Some th ->
                 Thread.state th = Thread.Finished).
Proof.
  unfold end_join_workers, end_join_worker.
  unfold outcome_of, state_of, bind, get_self, Thread_join, bind, emit, modify_self,
    ret, block.
  destruct s as [m w]. simpl.
  destruct (Miner.minute_watcher_thread m) as [[n1 [|[|]]]|] eqn:E1; simpl;
    destruct (Miner.sync_campaigns_thread m) as [[n2 [|[|]]]|] eqn:E2; simpl;
    try discriminate; intros _; rewrite ?E1, ?E2;
    (split; [reflexivity|]); split; intros th [= <-]; reflexivity.
Qed.

(** *** X4
    When [end] leaves with [sys.exit(0)], [self.running] and
    [twitch.running] are false, [ws_pool.end()] has been called, and each
    worker slot is empty or holds a thread that has finished. *)
Theorem end_exit_leaves_the_session_stopped (s s' : state) (t : list event) :
  end_ s = (Raise (SystemExit 0), s', t) ->
  Miner.running (self s') = false
  /\ World.twitch_running (world s') = false
  /\ (forall th, Miner.minute_watcher_thread (self s') = Some th ->
                 Thread.state th = Thread.Finished)
  /\ (forall th, Miner.sync_campaigns_thread (self s') = Some th ->
                 Thread.state th = Thread.Finished)
  /\ PoolEnd ∈ t.
Proof.
  intros Hend.
  assert (Hpool : PoolEnd ∈ t).
  { revert Hend. unfold end_, end_prologue, log_info. intros H.
    pose proof H as H0.
    apply end_exit_inv in H0 as (s1 & t1 & t2 & Hpro & _ & ->).
    apply elem_of_app. left. clear H.
    unfold end_prologue, log_info in Hpro.
    apply bind_Return_inv in Hpro as ([] & s0 & t0 & t3 & _ & H & ->).
    apply bind_Return_inv in H as (m & s2 & t4 & t5 & Hm & H & ->).
    injection Hm as <- <- _.
    apply bind_Return_inv in H as ([] & sa & ta & t6 & _ & H & ->).
    apply bind_Return_inv in H as ([] & s3 & t7 & t8 & _ & H & ->).
    apply bind_Return_inv in H as ([] & s4 & t9 & t10 & _ & H & ->).
    apply bind_Return_inv in H as ([] & s5 & t11 & t12 & H5 & H & ->).
    destruct (Miner.ws_pool (self s0)); [|discriminate].
    injection H5 as _ <-.
    rewrite !elem_of_app. right. right. right. right. right. left. left. }
  apply end_exit_inv in Hend as (s1 & t1 & t2 & Hpro & Hrep & _).
  pose proof (print_report_state s1) as Hst. rewrite Hrep in Hst.
  unfold state_of in Hst. simpl in Hst. subst s'.
  apply end_prologue_inv in Hpro as (sa & ta & td & _ & _ & Hjoin & Hdrain).
  set (sb := mkState (Miner.set_running false (self sa))
                     (World.set_twitch_running false (world sa))) in *.
  pose proof (end_join_workers_finished sb Hjoin) as (Hrun & Hminute & Hsync).
  pose proof (end_join_workers_world sb) as [Hworld _].
  pose proof (end_drain_keeps_flags (self (state_of (end_join_workers sb))) false
                (state_of (end_join_workers sb))) as Hkeep.
  rewrite Hdrain in Hkeep. unfold state_of at 1 2 in Hkeep. simpl in Hkeep.
  destruct Hkeep as [Hself Htw]; [split; [reflexivity | rewrite Hworld; reflexivity]|].
  change (self s1 = self (state_of (end_join_workers sb))) in Hself.
  change (World.twitch_running (world s1) = false) in Htw.
  rewrite Hself. repeat split; try assumption.
Qed.

Lemma end_exit_leaves_the_session_stopped_witness :
  Miner.running (self (state_of (end_ Scenario.quiet))) = false
  /\ World.twitch_running (world (state_of (end_ Scenario.quiet))) = false
  /\ (forall th, Miner.minute_watcher_thread (self (state_of (end_ Scenario.quiet)))
                 = Some th -> Thread.state th = Thread.Finished)
  /\ (forall th, Miner.sync_campaigns_thread (self (state_of (end_ Scenario.quiet)))
                 = Some th -> Thread.state th = Thread.Finished)
  /\ PoolEnd ∈ trace_of (end_ Scenario.quiet).
Proof.
  apply (end_exit_leaves_the_session_stopped Scenario.quiet).
  vm_compute. reflexivity.
Defined.

(** *** X5
    A signal that arrives while [self.ws_pool] is still [None] (before
    [run], or while [run] is still loading the streamers): once the
    chats are left, [end] clears both flags and raises [AttributeError]
    on [self.ws_pool.end()]; no worker is joined, no report is printed
    and the process does not exit. *)
Theorem end_before_the_pool_exists (s : state) :
  Miner.ws_pool (self s) = None ->
  forallb (chat_ends s) (Miner.streamers (self s)) = true ->
  exists sa ta,
    for_each (Miner.streamers (self s)) end_chat_body s = (Return tt, sa, ta)
    /\ end_ s
       = (Raise (AttributeError "end"),
          mkState (Miner.set_running false (self s))
                  (World.set_twitch_running false (world sa)),
          LogInfo CtrlCDetected :: ta).
Proof.
  intros Hpool Hchats.
  destruct (end_chats_return _ s Hchats) as (sa & ta & Hchat).
  pose proof (end_chats_self (self s) (Miner.streamers (self s)) s eq_refl) as Hself.
  rewrite Hchat in Hself. unfold state_of in Hself. simpl in Hself.
  exists sa, ta. split; [exact Hchat|].
  unfold end_, end_prologue, log_info.
  erewrite bind_Raise; [reflexivity|].
  rewrite (bind_Return _ _ _ _ _ _ (emit_run _ s)).
  rewrite (bind_Return _ _ _ _ _ _ (eq_refl : get_self s = (Return (self s), s, []))).
  rewrite after_nil.
  rewrite (bind_Return _ _ _ _ _ _ Hchat).
  rewrite (bind_Return _ _ _ _ _ _
             (eq_refl : modify_world (World.set_twitch_running false) sa = (_, _, _))).
  rewrite after_nil.
  rewrite (bind_Return _ _ _ _ _ _
             (eq_refl : modify_self (Miner.set_running false) _ = (_, _, _))).
  rewrite after_nil. rewrite Hpool.
  erewrite bind_Raise; [|reflexivity]. unfold after. simpl.
  rewrite Hself, app_nil_r. reflexivity.
Qed.

Lemma end_before_the_pool_exists_witness :
  exists sa ta,
    for_each (Miner.streamers (self (Scenario.fresh (fun _ => []) []))) end_chat_body
      (Scenario.fresh (fun _ => []) []) = (Return tt, sa, ta)
    /\ end_ (Scenario.fresh (fun _ => []) [])
       = (Raise (AttributeError "end"),
          mkState (Miner.set_running false (self (Scenario.fresh (fun _ => []) [])))
                  (World.set_twitch_running false (world sa)),
          LogInfo CtrlCDetected :: ta).
Proof.
  apply (end_before_the_pool_exists (Scenario.fresh (fun _ => []) [])).
  - reflexivity.
  - reflexivity.
Defined.

(** ** The running flag and the start time *)

Section Running.
Context (ext : Externals.t) (t0 : Q).

Local Abbreviation session_started :=
  (fun m => Miner.running m = true /\ Miner.start_datetime m = Some t0).

Local Abbreviation stays_started :=
  (preserves (fun s => session_started (self s))).







End Running.


(** ** Passes of the main loop without a reload *)

Lemma emits_only_bind {A B} (P : event -> Prop) (c : M A) (k : A -> M B) :
  emits_only P c -> (forall a, emits_only P (k a)) -> emits_only P (bind c k).
Proof.
  intros Hc Hk s. rewrite bind_run. specialize (Hc s).
  destruct (outcome_of (c s)) as [a|e|]; try exact Hc.
  unfold trace_of at 1. simpl. apply Forall_app. split; [exact Hc | apply Hk].
Qed.

Lemma emits_only_for_each {A} (P : event -> Prop) (l : list A) (body : A -> M unit) :
  (forall x, emits_only P (body x)) -> emits_only P (for_each l body).
Proof.
  intros Hb. induction l as [|x l IH]; simpl.
  - intros s. constructor.
  - apply emits_only_bind; [apply Hb | intros _; exact IH].
Qed.

Lemma sweep_body_records ext index : emits_only sweep_record (sweep_body ext index).
Proof.
  intros s. unfold sweep_body, bind, get_world, trace_of. simpl.
  destruct (WebSocketsPool.ws (World.pool (world s)) !! index) as [ws|]; simpl;
    [|constructor].
  destruct (WebSocket.is_reconneting ws); simpl; [constructor|].
  destruct (Qlt_bool _ _); simpl; [|constructor].
  destruct (World.internet _ _); simpl; [|constructor].
  constructor; [right; exists index; auto|].
  constructor; [right; exists index; auto|]. constructor.
Qed.

Lemma liveness_sweep_records ext : emits_only sweep_record (liveness_sweep ext).
Proof.
  intros s. unfold liveness_sweep.
  rewrite (bind_Return _ _ _ _ _ _ (eq_refl : get_self s = (Return (self s), s, []))).
  rewrite after_nil. destruct (Miner.ws_pool (self s)); [|constructor].
  rewrite (bind_Return _ _ _ _ _ _ (eq_refl : get_world s = (Return (world s), s, []))).
  rewrite after_nil. apply emits_only_for_each, sweep_body_records.
Qed.

Lemma liveness_sweep_self ext (m : Miner.t) :
  preserves (fun s => self s = m) (liveness_sweep ext).
Proof.
  repeat first
    [ apply (preserves_modify_world (fun m' => m' = m))
    | apply (preserves_probe (fun m' => m' = m))
    | preserves_step
    | preserves_unfold ].
Qed.

(** *** X15
    With [refresh_streamers] left at its default [float("inf")], or set
    to [None], the main loop never reloads the streamers: whatever the
    number of passes, no slot of the miner changes, and the trace holds
    nothing but the pauses and the records of the liveness sweep. *)
Theorem main_loop_without_refresh_never_reloads (ext : Externals.t) (args : run_args)
    (passes : nat) (t0 : Q) (s : state) :
  never_refreshes (self s) = true ->
  self (state_of (run_loop ext args passes t0 s)) = self s
  /\ Forall sweep_record (trace_of (run_loop ext args passes t0 s)).
Proof.
  intros Hnever.
  assert (Hdue : forall now t, refresh_due (self s) now t = false).
  { intros now t. unfold refresh_due, never_refreshes in *.
    destruct (Miner.refresh_streamers (self s)) as [[q|]|]; [discriminate| |]; reflexivity. }
  clear Hnever. revert t0 s Hdue.
  induction passes as [|n IH]; intros t0 s Hdue; simpl.
  - split; [reflexivity | constructor].
  - rewrite (bind_Return _ _ _ _ _ _ (eq_refl : get_self s = (Return (self s), s, []))).
    rewrite after_nil.
    destruct (Miner.running (self s)); [|split; [reflexivity | constructor]].
    rewrite (bind_Return _ _ _ _ _ _ (emit_run _ s)), state_of_after, trace_of_after.
    rewrite (bind_Return _ _ _ _ _ _
               (eq_refl : modify_world (Externals.environment ext) s = (_, _, _))).
    rewrite after_nil.
    set (s1 := mkState (self s) (Externals.environment ext (world s))).
    pose proof (liveness_sweep_self ext (self s) s1 eq_refl) as Hself.
    pose proof (liveness_sweep_records ext s1) as Hrec.
    rewrite bind_run.
    destruct (outcome_of (liveness_sweep ext s1)) as [[]|e|].
    + set (s2 := state_of (liveness_sweep ext s1)) in *.
      unfold state_of at 1, trace_of at 2. simpl.
      rewrite (bind_Return _ _ _ _ _ _ (eq_refl : get_world s2 = (Return (world s2), s2, []))).
      rewrite after_nil. rewrite Hdue.
      rewrite (bind_Return _ _ _ _ _ _ (eq_refl : ret t0 s2 = (Return t0, s2, []))).
      rewrite after_nil.
      destruct (IH t0 s2) as [IHself IHrec]; [rewrite Hself; exact Hdue|].
      split; [rewrite IHself; exact Hself|].
      constructor; [left; reflexivity|]. apply Forall_app. split; assumption.
    + split; [exact Hself|]. constructor; [left; reflexivity | exact Hrec].
    + split; [exact Hself|]. constructor; [left; reflexivity | exact Hrec].
Qed.

Lemma main_loop_without_refresh_never_reloads_witness :
  self (state_of (run_loop (Sample.ext []) (mkArgs [Name "c"] None [] false) 3 0
                    (Cases.default_refresh Scenario.quiet)))
  = self (Cases.default_refresh Scenario.quiet)
  /\ Forall sweep_record
       (trace_of (run_loop (Sample.ext []) (mkArgs [Name "c"] None [] false) 3 0
                    (Cases.default_refresh Scenario.quiet))).
Proof.
  apply (main_loop_without_refresh_never_reloads (Sample.ext [])
           (mkArgs [Name "c"] None [] false) 3 0 (Cases.default_refresh Scenario.quiet)).
  reflexivity.
Defined.

(** ** Baselines for every streamer *)

Lemma save_original_loop (w : World.t) (ls : list loc) :
  (forall l, l ∈ ls -> is_Some (World.heap w !! l)) ->
  forall m, exists m',
    for_each ls save_original_body (mkState m w) = (Return tt, mkState m' w, [])
    /\ Miner.streamers m' = Miner.streamers m
    /\ (forall u, is_Some (Miner.base_points m !! u) ->
                  is_Some (Miner.base_points m' !! u))
    /\ (forall l o, l ∈ ls -> World.heap w !! l = Some o ->
                    is_Some (Miner.base_points m' !! Streamer.username o)).
Proof.
  induction ls as [|l ls IH]; intros Hls m.
  - exists m. repeat split; auto. intros l o Hin. inversion Hin.
  - destruct (Hls l (list_elem_of_here l ls)) as [o Ho].
    assert (Hls' : forall l', l' ∈ ls -> is_Some (World.heap w !! l'))
      by (intros l' Hl'; apply Hls; right; exact Hl').
    assert (Hbody : exists m1,
      save_original_body l (mkState m w) = (Return tt, mkState m1 w, [])
      /\ Miner.streamers m1 = Miner.streamers m
      /\ (forall u, is_Some (Miner.base_points m !! u) ->
                    is_Some (Miner.base_points m1 !! u))
      /\ is_Some (Miner.base_points m1 !! Streamer.username o)).
    { unfold save_original_body, bind, deref, get_self. simpl. rewrite Ho. simpl.
      destruct (Miner.base_points m !! Streamer.username o) as [v|] eqn:E; simpl.
      - exists m. repeat split; auto.
      - eexists. split; [reflexivity|]. simpl. split; [reflexivity|]. split.
        + intros u [v Hu]. destruct (decide (Streamer.username o = u)) as [<-|Hne].
          * rewrite lookup_insert_eq. eauto.
          * rewrite lookup_insert_ne by exact Hne. eauto.
        + rewrite lookup_insert_eq. eauto. }
    destruct Hbody as (m1 & Hbody & Hstr1 & Hmono1 & Hcov1).
    destruct (IH Hls' m1) as (m' & Hrest & Hstr & Hmono & Hcov).
    exists m'. simpl. rewrite (bind_Return _ _ _ _ _ _ Hbody), Hrest.
    split; [reflexivity|]. split; [congruence|]. split; [auto|].
    intros l' o' Hin Ho'. apply elem_of_cons in Hin as [->|Hin].
    + rewrite Ho in Ho'. injection Ho' as <-. auto.
    + apply (Hcov l' o' Hin Ho').
Qed.

Lemma save_original_loop_covered (s : state) (ls : list loc) :
  (forall l, l ∈ ls ->
     exists o, object_at s l = Some o
               /\ is_Some (Miner.base_points (self s) !! Streamer.username o)) ->
  for_each ls save_original_body s = (Return tt, s, []).
Proof.
  intros H. rewrite (for_each_reads _ _ s (fun _ => [])).
  - rewrite concat_fmap_nil. reflexivity.
  - intros l Hl. destruct (H l Hl) as (o & Ho & [v Hv]).
    unfold save_original_body.
    rewrite (bind_Return _ _ _ _ _ _ (deref_run s l o Ho)), after_nil.
    unfold bind, get_self. simpl. rewrite Hv. reflexivity.
Qed.

Lemma streamers_exist_spec s :
  streamers_exist s = true
  <-> forall l, l ∈ Miner.streamers (self s) -> is_Some (object_at s l).
Proof.
  unfold streamers_exist. rewrite forallb_forall. split.
  - intros H l Hl. apply list_elem_of_In in Hl. specialize (H l Hl).
    apply bool_decide_eq_true in H. exact H.
  - intros H l Hl. apply bool_decide_eq_true, H, list_elem_of_In, Hl.
Qed.

(** *** X7
    [__save_original] returns without a log record and changes nothing
    but [self.base_points]; afterwards every streamer of
    [self.streamers] has a baseline under its user name, so that the
    report finds the baseline of every streamer it prints; and a second
    call changes nothing at all. *)
Theorem save_original_gives_every_streamer_a_baseline (s : state) :
  streamers_exist s = true ->
  exists s',
    __save_original s = (Return tt, s', [])
    /\ world s' = world s
    /\ Miner.streamers (self s') = Miner.streamers (self s)
    /\ (forall l o, l ∈ Miner.streamers (self s) -> object_at s l = Some o ->
          is_Some (Miner.base_points (self s') !! Streamer.username o))
    /\ forallb (streamer_ok s') (Miner.streamers (self s')) = true
    /\ __save_original s' = (Return tt, s', []).
Proof.
  intros Hex0. pose proof (proj1 (streamers_exist_spec s) Hex0) as Hex. clear Hex0.
  destruct s as [m w].
  destruct (save_original_loop w (Miner.streamers m) Hex m)
    as (m' & Hrun & Hstr & _ & Hcov).
  exists (mkState m' w).
  assert (Hcovered : forall l, l ∈ Miner.streamers m' ->
            exists o, object_at (mkState m' w) l = Some o
                      /\ is_Some (Miner.base_points m' !! Streamer.username o)).
  { intros l Hl. rewrite Hstr in Hl. destruct (Hex l Hl) as [o Ho].
    exists o. split; [exact Ho | exact (Hcov l o Hl Ho)]. }
  split; [|split; [reflexivity|split; [exact Hstr|split; [exact Hcov|split]]]].
  - unfold __save_original, bind, get_self. simpl. simpl in Hrun. rewrite Hrun.
    reflexivity.
  - apply forallb_forall. intros l Hl. apply list_elem_of_In in Hl.
    destruct (Hcovered l Hl) as (o & Ho & [v Hv]). unfold streamer_ok.
    rewrite Ho. simpl. rewrite Hv. destruct (bool_decide _); reflexivity.
  - unfold __save_original.
    rewrite (bind_Return _ _ _ _ _ _
               (eq_refl : get_self (mkState m' w) = (Return m', mkState m' w, []))).
    rewrite after_nil. apply save_original_loop_covered. exact Hcovered.
Qed.

Lemma save_original_gives_every_streamer_a_baseline_witness :
  exists s',
    __save_original (Scenario.session Scenario.heap_AB ∅ None None [] [] 0)
      = (Return tt, s', [])
    /\ world s' = world (Scenario.session Scenario.heap_AB ∅ None None [] [] 0)
    /\ Miner.streamers (self s')
       = Miner.streamers (self (Scenario.session Scenario.heap_AB ∅ None None [] [] 0))
    /\ (forall l o,
          l ∈ Miner.streamers (self (Scenario.session Scenario.heap_AB ∅ None None [] [] 0)) ->
          object_at (Scenario.session Scenario.heap_AB ∅ None None [] [] 0) l = Some o ->
          is_Some (Miner.base_points (self s') !! Streamer.username o))
    /\ forallb (streamer_ok s') (Miner.streamers (self s')) = true
    /\ __save_original s' = (Return tt, s', []).
Proof.
  apply (save_original_gives_every_streamer_a_baseline
           (Scenario.session Scenario.heap_AB ∅ None None [] [] 0)).
  vm_compute. reflexivity.
Defined.

(** ** The tracking file *)

(** The loop over [self.streamers] reads the store and leaves [username]
    unbound. *)
Lemma reload_current_run (blacklist : list string) (s : state) (ls : list loc) :
  (forall l, l ∈ ls -> is_Some (object_at s l)) ->
  forall lc, exists lc',
    for_fold ls (reload_current_body blacklist) lc s = (Return lc', s, [])
    /\ username lc' = username lc.
Proof.
  induction ls as [|l ls IH]; intros Hls lc.
  - exists lc. split; reflexivity.
  - destruct (Hls l (list_elem_of_here l ls)) as [o Ho].
    assert (Hls' : forall l', l' ∈ ls -> is_Some (object_at s l'))
      by (intros l' Hl'; apply Hls; right; exact Hl').
    assert (Hbody : exists lc1,
      reload_current_body blacklist lc l s = (Return lc1, s, [])
      /\ username lc1 = username lc).
    { unfold reload_current_body.
      rewrite (bind_Return _ _ _ _ _ _ (deref_run s l o Ho)), after_nil.
      destruct (negb (py_in (Streamer.username o) blacklist));
        eexists; split; reflexivity. }
    destruct Hbody as (lc1 & Hbody & Hu1).
    destruct (IH Hls' lc1) as (lc' & Hrun & Hu).
    exists lc'. cbn [for_fold]. rewrite (bind_Return _ _ _ _ _ _ Hbody), after_nil.
    split; [exact Hrun | congruence].
Qed.

(** *** X8
    Called with an empty [streamers] argument and a tracking file that
    lists at least one channel, [__reload_streamers] raises
    [UnboundLocalError]: the loop over the file tests [username] against
    the blacklist before any assignment to it.  Nothing has been
    changed by then; and [mine] (or [run]) called that way on a miner
    that is not running fails the same way during start-up. *)
Theorem tracking_file_without_streamers_raises (ext : Externals.t)
    (blacklist : list string) (path : string) (followers : bool) (passes : nat)
    (s : state) :
  streamers_exist s = true ->
  World.json_files (world s) path <> [] ->
  __reload_streamers ext [] blacklist (Some path) followers s
  = (Raise (UnboundLocalError "username"), s,
     [SettingsClear; LogInfo (LoadStreamers 0 "STREAMERS"); SettingsRead path])
  /\ (Miner.running (self s) = false ->
      outcome_of (mine ext (mkArgs [] (Some path) blacklist followers) passes s)
      = Raise (UnboundLocalError "username")).
Proof.
  assert (Hreload : forall s0,
    streamers_exist s0 = true ->
    World.json_files (world s0) path <> [] ->
    __reload_streamers ext [] blacklist (Some path) followers s0
    = (Raise (UnboundLocalError "username"), s0,
       [SettingsClear; LogInfo (LoadStreamers 0 "STREAMERS"); SettingsRead path])).
  { clear s. intros s Hex0 Hfile.
    pose proof (proj1 (streamers_exist_spec s) Hex0) as Hex.
    destruct (reload_current_run blacklist s (Miner.streamers (self s)) Hex
                (mkLocals [] ∅ None)) as (lc & Hcur & Hname).
    simpl in Hname.
    unfold __reload_streamers. erewrite bind_Raise; [reflexivity|].
    unfold reload_gather, log_info.
    rewrite (bind_Return _ _ _ _ _ _ (emit_run _ s)).
    rewrite (bind_Return _ _ _ _ _ _ (eq_refl : get_self s = (Return (self s), s, []))).
    rewrite after_nil.
    rewrite (bind_Return _ _ _ _ _ _ Hcur), after_nil.
    cbn [for_fold].
    rewrite (bind_Return _ _ _ _ _ _ (eq_refl : ret lc s = (Return lc, s, []))).
    rewrite after_nil.
    rewrite (bind_Return _ _ _ _ _ _ (emit_run _ s)).
    erewrite bind_Raise; [reflexivity|].
    unfold reload_json.
    rewrite (bind_Return _ _ _ _ _ _ (emit_run _ s)).
    rewrite (bind_Return _ _ _ _ _ _ (eq_refl : get_world s = (Return (world s), s, []))).
    rewrite after_nil.
    destruct (World.json_files (world s) path) as [|entry entries]; [congruence|].
    erewrite bind_Raise; [reflexivity|].
    cbn [for_fold]. erewrite bind_Raise; [reflexivity|].
    unfold reload_json_body. rewrite Hname. reflexivity. }
  intros Hex Hfile. split; [exact (Hreload s Hex Hfile)|].
  intros Hidle.
  assert (Hstart : exists s1 t,
    run_start ext (mkArgs [] (Some path) blacklist followers) s
    = (Raise (UnboundLocalError "username"), s1, t)).
  { unfold run_start, log_info.
    rewrite (bind_Return _ _ _ _ _ _ (eq_refl : get_self s = (Return (self s), s, []))).
    rewrite after_nil.
    rewrite (bind_Return _ _ _ _ _ _ (emit_run _ s)).
    rewrite (bind_Return _ _ _ _ _ _
               (eq_refl : modify_self (Miner.set_running true) s = (_, _, _))).
    rewrite after_nil.
    rewrite (bind_Return _ _ _ _ _ _ (eq_refl : get_world _ = (_, _, _))).
    rewrite after_nil.
    rewrite (bind_Return _ _ _ _ _ _
               (eq_refl : modify_self (Miner.set_start_datetime _) _ = (_, _, _))).
    rewrite after_nil.
    rewrite (bind_Return _ _ _ _ _ _ (emit_run _ _)).
    set (s1 := mkState _ _).
    assert (Hclaim : exists t1,
      (if Miner.claim_drops_startup (self s) then emit ClaimAllDropsFromInventory
       else ret tt) s1 = (Return tt, s1, t1))
      by (destruct (Miner.claim_drops_startup (self s)); eexists; reflexivity).
    destruct Hclaim as (t1 & Hclaim).
    rewrite (bind_Return _ _ _ _ _ _ Hclaim).
    cbn [arg_streamers arg_blacklist arg_streamers_json arg_followers].
    rewrite (bind_Raise _ _ _ _ _ _ (Hreload s1 Hex Hfile)).
    eexists _, _. reflexivity. }
  destruct Hstart as (s1 & t & Hstart).
  unfold mine, run.
  rewrite (bind_Return _ _ _ _ _ _ (eq_refl : get_self s = (Return (self s), s, []))).
  rewrite after_nil, Hidle.
  rewrite (bind_Raise _ _ _ _ _ _ Hstart). reflexivity.
Qed.

Lemma tracking_file_without_streamers_raises_witness :
  __reload_streamers (Sample.ext []) [] [] (Some "streamers.json") false
    (Scenario.fresh Scenario.tracking_file [])
  = (Raise (UnboundLocalError "username"), Scenario.fresh Scenario.tracking_file [],
     [SettingsClear; LogInfo (LoadStreamers 0 "STREAMERS");
      SettingsRead "streamers.json"])
  /\ (Miner.running (self (Scenario.fresh Scenario.tracking_file [])) = false ->
      outcome_of (mine (Sample.ext []) (mkArgs [] (Some "streamers.json") [] false) 1
                    (Scenario.fresh Scenario.tracking_file []))
      = Raise (UnboundLocalError "username")).
Proof.
  apply (tracking_file_without_streamers_raises (Sample.ext []) [] "streamers.json"
           false 1 (Scenario.fresh Scenario.tracking_file [])).
  - reflexivity.
  - vm_compute. discriminate.
Defined.

Section TrackingFile.
Context (ext : Externals.t) (blacklist : list string).

(** Once the name left in [username] is blacklisted, the loop over the
    file does nothing more. *)
Lemma json_loop_skips lc usernames stale entries s :
  username lc = Some stale ->
  py_in stale blacklist = true ->
  for_fold entries (reload_json_body ext blacklist) (lc, usernames) s
  = (Return (lc, usernames), s, []).
Proof.
  intros Hstale Hin. induction entries as [|entry entries IH]; [reflexivity|].
  cbn [for_fold]. unfold reload_json_body at 1. rewrite Hstale, Hin. simpl negb.
  cbv iota.
  rewrite (bind_Return _ _ _ _ _ _ (eq_refl : ret _ s = (Return _, s, []))).
  rewrite after_nil. exact IH.
Qed.

(** An iteration for a blacklisted name that returns leaves a blacklisted
    name in [username]. *)
Lemma json_body_blacklisted acc entry s acc' s' t :
  py_in entry.1 blacklist = true ->
  reload_json_body ext blacklist acc entry s = (Return acc', s', t) ->
  exists stale, username acc'.1 = Some stale /\ py_in stale blacklist = true.
Proof.
  intros Hin. destruct acc as [lc usernames]. unfold reload_json_body.
  destruct (username lc) as [stale|] eqn:Hstale; [|discriminate].
  destruct (py_in stale blacklist) eqn:Hb; simpl negb; cbv iota.
  - intros [= <- _ _]. exists stale. auto.
  - intros H. apply bind_Return_inv in H as (l & s1 & t1 & t2 & _ & H & _).
    destruct (streamers_dict lc !! entry.1).
    + apply bind_Return_inv in H as ([] & s2 & t3 & t4 & _ & H & _).
      injection H as <- _ _. exists entry.1. auto.
    + injection H as <- _ _. exists entry.1. auto.
Qed.

End TrackingFile.

(** *** X9
    In the loop over the tracking file, everything listed after a
    blacklisted name is ignored: the loop ends with the same result, in
    the same state and with the same trace as on the file cut after
    that name. *)
Theorem file_entries_after_a_blacklisted_name_are_ignored (ext : Externals.t)
    (blacklist : list string) (pre post : list (string * StreamerSettings.t))
    (name : string) (settings : StreamerSettings.t)
    (acc : locals * list string) (s : state) :
  py_in name blacklist = true ->
  for_fold (pre ++ (name, settings) :: post) (reload_json_body ext blacklist) acc s
  = for_fold (pre ++ [(name, settings)]) (reload_json_body ext blacklist) acc s.
Proof.
  intros Hin. rewrite !for_fold_app, !bind_run.
  destruct (outcome_of (for_fold pre (reload_json_body ext blacklist) acc s))
    as [acc1|e|]; try reflexivity.
  set (s1 := state_of (for_fold pre (reload_json_body ext blacklist) acc s)).
  assert (Heq : for_fold ((name, settings) :: post) (reload_json_body ext blacklist) acc1 s1
                = for_fold [(name, settings)] (reload_json_body ext blacklist) acc1 s1).
  { cbn [for_fold]. rewrite !bind_run.
    destruct (reload_json_body ext blacklist acc1 (name, settings) s1)
      as [[[acc2|e|] s2] t2] eqn:Hbody; unfold outcome_of, state_of, trace_of; simpl;
      try reflexivity.
    destruct (json_body_blacklisted ext blacklist acc1 (name, settings) s1 acc2 s2 t2
                Hin Hbody) as (stale & Hstale & Hb).
    destruct acc2 as [lc2 usernames2]. simpl in Hstale.
    rewrite (json_loop_skips ext blacklist lc2 usernames2 stale post s2 Hstale Hb).
    reflexivity. }
  rewrite Heq. reflexivity.
Qed.

Lemma file_entries_after_a_blacklisted_name_are_ignored_witness :
  for_fold ([("a", Sample.defaults)] ++ ("b", Sample.defaults) :: [("c", Sample.defaults)])
    (reload_json_body (Sample.ext []) ["b"]) (mkLocals [] ∅ (Some "x"), [])
    (Scenario.fresh (fun _ => []) [])
  = for_fold ([("a", Sample.defaults)] ++ [("b", Sample.defaults)])
      (reload_json_body (Sample.ext []) ["b"]) (mkLocals [] ∅ (Some "x"), [])
      (Scenario.fresh (fun _ => []) []).
Proof.
  apply (file_entries_after_a_blacklisted_name_are_ignored (Sample.ext []) ["b"]
           [("a", Sample.defaults)] [("c", Sample.defaults)] "b" Sample.defaults).
  reflexivity.
Defined.

(** ** What [__reload_streamers] returns *)

Lemma init_body_keeps_objects ext l l' :
  preserves (fun s => is_Some (object_at s l)) (reload_init_body ext l').
Proof.
  intros s [o Ho]. destruct (decide (l = l')) as [<-|Hne].
  - destruct (Streamer.init_processed o) eqn:Hinit.
    + rewrite (init_body_done ext s l o Ho Hinit). exists o. exact Ho.
    + destruct (init_body_new ext s l o Ho Hinit) as (r & o' & -> & _).
      exists o'. apply (object_at_set_eq s l o o' Ho).
  - rewrite (init_body_other ext s l l' Hne). exists o. exact Ho.
Qed.

Lemma init_body_returns_object ext s l s' t :
  reload_init_body ext l s = (Return tt, s', t) -> is_Some (object_at s' l).
Proof.
  intros Hrun. destruct (object_at s l) as [o|] eqn:Hl.
  - pose proof (init_body_keeps_objects ext l l s (ex_intro _ o Hl)) as H.
    rewrite Hrun in H. exact H.
  - unfold reload_init_body in Hrun.
    rewrite (bind_Raise _ _ _ _ _ _ (deref_dangling s l Hl)) in Hrun. discriminate.
Qed.

Lemma init_loop_initialises ext (arr : list loc) s s' t l :
  for_each arr (reload_init_body ext) s = (Return tt, s', t) ->
  l ∈ arr ->
  exists o, object_at s' l = Some o /\ Streamer.init_processed o = true.
Proof.
  revert s t. induction arr as [|l' arr IH]; intros s t Hrun Hin; [inversion Hin|].
  simpl in Hrun. apply bind_Return_inv in Hrun as ([] & s1 & t1 & t2 & Hb & Hrest & _).
  apply elem_of_cons in Hin as [->|Hin]; [|exact (IH s1 t2 Hrest Hin)].
  pose proof (preserves_for_each _ arr (reload_init_body ext)
                (init_body_keeps_objects ext l') s1
                (init_body_returns_object ext s l' s1 t1 Hb)) as [o Ho].
  rewrite Hrest in Ho. exists o. split; [exact Ho|].
  pose proof (preserves_for_each _ arr (reload_init_body ext)
                (init_body_keeps_initialised ext l') s1
                (init_body_initialises ext s l' s1 t1 Hb)) as Hp.
  rewrite Hrest in Hp. exact (Hp o Ho).
Qed.

(** *** X10
    Every streamer in the list that [__reload_streamers] returns exists
    and has [init_processed] set: [self.streamers] never receives a
    streamer that has not been through the initialisation. *)
Theorem reload_returns_initialised_streamers (ext : Externals.t)
    (streamers : list streamer_arg) (blacklist : list string)
    (streamers_json : option string) (followers : bool)
    (s s' : state) (t : list event) (arr : list loc) (l : loc) :
  __reload_streamers ext streamers blacklist streamers_json followers s
    = (Return arr, s', t) ->
  l ∈ arr ->
  exists o, object_at s' l = Some o /\ Streamer.init_processed o = true.
Proof.
  intros Hrun Hin. unfold __reload_streamers in Hrun.
  apply bind_Return_inv in Hrun as (arr1 & s1 & t1 & t2 & _ & Hrun & _).
  apply bind_Return_inv in Hrun as ([] & s2 & t3 & t4 & Hloop & Hret & _).
  injection Hret as <- <- _.
  exact (init_loop_initialises ext arr1 s1 s2 t3 l Hloop Hin).
Qed.

Lemma reload_returns_initialised_streamers_witness :
  exists o,
    object_at (state_of (__reload_streamers (Sample.ext []) [Name "Foo"] [] None false
                           (Scenario.fresh (fun _ => []) []))) 0 = Some o
    /\ Streamer.init_processed o = true.
Proof.
  apply (reload_returns_initialised_streamers (Sample.ext []) [Name "Foo"] [] None false
           (Scenario.fresh (fun _ => []) [])
           (state_of (__reload_streamers (Sample.ext []) [Name "Foo"] [] None false
                        (Scenario.fresh (fun _ => []) [])))
           (trace_of (__reload_streamers (Sample.ext []) [Name "Foo"] [] None false
                        (Scenario.fresh (fun _ => []) [])))
           [0] 0).
  - vm_compute. reflexivity.
  - left.
Defined.

(** ** Removing names that a source no longer lists *)

Lemma filter_ext_in {A} (P Q : A -> Prop) `{!forall x, Decision (P x)}
    `{!forall x, Decision (Q x)} (l : list A) :
  (forall x, x ∈ l -> (P x <-> Q x)) -> filter P l = filter Q l.
Proof.
  induction l as [|x l IH]; intros Hext; [reflexivity|].
  rewrite !filter_cons.
  assert (Hl : filter P l = filter Q l)
    by (apply IH; intros y Hy; apply Hext; right; exact Hy).
  pose proof (Hext x (list_elem_of_here x l)) as Hx.
  destruct (decide (P x)), (decide (Q x)); try tauto; rewrite Hl; reflexivity.
Qed.

Lemma filter_all {A} (P : A -> Prop) `{!forall x, Decision (P x)} (l : list A) :
  (forall x, x ∈ l -> P x) -> filter P l = l.
Proof.
  induction l as [|x l IH]; intros Hall; [reflexivity|].
  rewrite filter_cons_True by (apply Hall; left).
  rewrite IH; [reflexivity|]. intros y Hy. apply Hall. right. exact Hy.
Qed.

(** On a list without duplicates [list.remove] drops every occurrence. *)
Lemma list_remove_filter (x : string) (l : list string) :
  NoDup l -> list_remove x l = filter (fun y => y <> x) l.
Proof.
  induction 1 as [|y l Hy Hl IH]; [reflexivity|]. simpl.
  destruct (decide (x = y)) as [->|Hne].
  - rewrite filter_cons_False by (intros H; apply H; reflexivity).
    symmetry. apply filter_all. intros z Hz ->. exact (Hy Hz).
  - rewrite filter_cons_True by congruence. rewrite IH. reflexivity.
Qed.

Lemma names_in_dict_remove names dict u :
  names_in_dict names dict ->
  names_in_dict (filter (fun y => y <> u) names) (delete u dict).
Proof.
  intros [Hnd Hin]. split; [apply NoDup_filter, Hnd|].
  intros n Hn. apply list_elem_of_filter in Hn as [Hne Hn].
  rewrite lookup_delete_ne by congruence. apply Hin, Hn.
Qed.

Lemma remove_missing_run (reason : string) (s : state) (items : list string) :
  forall names dict,
    names_in_dict names dict ->
    exists dict' t,
      __remove_missing names dict items reason s
      = (Return (filter (fun n => n ∉ items) names, dict'), s, t)
      /\ (forall k, dict' !! k
                    = if bool_decide (k ∈ items /\ k ∈ names) then None else dict !! k)
      /\ (forall e, e ∈ t
                    <-> exists u, e = LogInfo (RemoveStreamer u reason)
                                  /\ u ∈ items /\ u ∈ names).
Proof.
  unfold __remove_missing.
  induction items as [|u items IH]; intros names dict Hsync.
  - exists dict, []. split; [|split].
    + simpl. unfold ret. rewrite filter_all; [reflexivity|].
      intros x _ Hx. inversion Hx.
    + intros k. rewrite bool_decide_eq_false_2; [reflexivity|].
      intros [Hk _]. inversion Hk.
    + intros e. split; [intros H; inversion H|].
      intros (u & _ & Hu & _). inversion Hu.
  - cbn [for_fold]. unfold remove_missing_body at 1. unfold py_in.
    destruct (bool_decide (u ∈ names)) eqn:Hu.
    + apply bool_decide_eq_true in Hu.
      destruct (proj2 Hsync u Hu) as [l Hl].
      destruct (IH (filter (fun y => y <> u) names) (delete u dict)
                  (names_in_dict_remove names dict u Hsync))
        as (dict' & t & Hrun & Hdict & Htrace).
      exists dict', (LogInfo (RemoveStreamer u reason) :: t).
      split; [|split].
      * assert (Hbody :
          (log_info (RemoveStreamer u reason) ;;
           match dict !! u with
           | Some _ => ret (list_remove u names, delete u dict)
           | None => raise (KeyError u)
           end) s
          = (Return (filter (fun y => y <> u) names, delete u dict), s,
             [LogInfo (RemoveStreamer u reason)])).
        { unfold log_info. rewrite (bind_Return _ _ _ _ _ _ (emit_run _ s)).
          rewrite Hl, (list_remove_filter u names (proj1 Hsync)). reflexivity. }
        rewrite (bind_Return _ _ _ _ _ _ Hbody), Hrun. unfold after. simpl.
        rewrite list_filter_filter.
        rewrite (filter_ext_in (fun a => (a ∉ items) /\ a <> u) (fun n => n ∉ u :: items));
          [reflexivity|].
        intros x _. rewrite not_elem_of_cons. tauto.
      * intros k. rewrite Hdict. destruct (decide (k = u)) as [->|Hne].
        -- rewrite lookup_delete_eq.
           rewrite (bool_decide_eq_true_2 (u ∈ u :: items /\ u ∈ names))
             by (split; [left | exact Hu]).
           destruct (bool_decide _); reflexivity.
        -- rewrite lookup_delete_ne by congruence.
           apply (f_equal (fun b : bool => if b then None else dict !! k)).
           apply bool_decide_ext. rewrite list_elem_of_filter, elem_of_cons. tauto.
      * intros e. rewrite elem_of_cons, Htrace. split.
        -- intros [->|(u' & -> & Hi & Hn)].
           ++ exists u. split; [reflexivity|]. split; [left | exact Hu].
           ++ apply list_elem_of_filter in Hn as [_ Hn].
              exists u'. split; [reflexivity|]. split; [right; exact Hi | exact Hn].
        -- intros (u' & -> & Hi & Hn). destruct (decide (u' = u)) as [->|Hne].
           ++ left. reflexivity.
           ++ right. exists u'. split; [reflexivity|].
              apply elem_of_cons in Hi as [Hi|Hi]; [congruence|].
              split; [exact Hi|]. apply list_elem_of_filter. auto.
    + apply bool_decide_eq_false in Hu.
      destruct (IH names dict Hsync) as (dict' & t & Hrun & Hdict & Htrace).
      exists dict', t. split; [|split].
      * rewrite (bind_Return _ _ _ _ _ _
                   (eq_refl : ret (names, dict) s = (Return (names, dict), s, []))).
        rewrite after_nil, Hrun.
        rewrite (filter_ext_in (fun n => n ∉ items) (fun n => n ∉ u :: items));
          [reflexivity|].
        intros x Hx. rewrite not_elem_of_cons.
        split; [intros H; split; [congruence | exact H] | tauto].
      * intros k. rewrite Hdict.
        apply (f_equal (fun b : bool => if b then None else dict !! k)).
        apply bool_decide_ext. rewrite elem_of_cons.
        split; [tauto|]. intros [[->|Hk] Hn]; [contradiction | auto].
      * intros e. rewrite Htrace. split.
        -- intros (u' & -> & Hi & Hn). exists u'. split; [reflexivity|].
           split; [right; exact Hi | exact Hn].
        -- intros (u' & -> & Hi & Hn). exists u'. split; [reflexivity|].
           apply elem_of_cons in Hi as [->|Hi]; [contradiction | auto].
Qed.

(** *** X11
    On a list of distinct names that all have an entry in the
    dictionary, [__remove_missing] returns, in an unchanged state, the
    names that are not among [items], in their order, and the dictionary
    without the entries of the removed names; it logs a record for
    exactly the names it removes. *)
Theorem remove_missing_drops_the_listed_names (names : list string)
    (dict : gmap string loc) (items : list string) (reason : string) (s : state) :
  NoDup names ->
  (forall n, n ∈ names -> is_Some (dict !! n)) ->
  exists dict' t,
    __remove_missing names dict items reason s
    = (Return (filter (fun n => n ∉ items) names, dict'), s, t)
    /\ (forall k, dict' !! k
                  = if bool_decide (k ∈ items /\ k ∈ names) then None else dict !! k)
    /\ (forall e, e ∈ t
                  <-> exists u, e = LogInfo (RemoveStreamer u reason)
                                /\ u ∈ items /\ u ∈ names).
Proof.
  intros Hnd Hin. apply remove_missing_run. split; assumption.
Qed.

Lemma remove_missing_drops_the_listed_names_witness :
  exists dict' t,
    __remove_missing ["foo"; "?x"; "bar"] Scenario.three_names ["?x"; "baz"]
      "User was unfollowed" Scenario.three_new
    = (Return (filter (fun n => n ∉ ["?x"; "baz"]) ["foo"; "?x"; "bar"], dict'),
       Scenario.three_new, t)
    /\ (forall k, dict' !! k
                  = if bool_decide (k ∈ ["?x"; "baz"] /\ k ∈ ["foo"; "?x"; "bar"])
                    then None else Scenario.three_names !! k)
    /\ (forall e, e ∈ t
                  <-> exists u, e = LogInfo (RemoveStreamer u "User was unfollowed")
                                /\ u ∈ ["?x"; "baz"] /\ u ∈ ["foo"; "?x"; "bar"]).
Proof.
  apply (remove_missing_drops_the_listed_names ["foo"; "?x"; "bar"] Scenario.three_names
           ["?x"; "baz"] "User was unfollowed" Scenario.three_new).
  - apply (bool_decide_eq_true_1 (NoDup _)). vm_compute. reflexivity.
  - intros n Hn. apply (bool_decide_eq_true_1 (is_Some _)).
    repeat (apply elem_of_cons in Hn as [->|Hn]); [vm_compute; reflexivity ..|].
    inversion Hn.
Defined.

(** ** The dictionary of streamers is never read at a missing key *)

Lemma without_KeyError_bind {A B} (Q : A -> Prop) (R : B -> Prop)
    (c : M A) (k : A -> M B) s :
  without_KeyError Q (c s) ->
  (forall a s1, Q a -> without_KeyError R (k a s1)) ->
  without_KeyError R (bind c k s).
Proof.
  unfold without_KeyError. intros Hc Hk. rewrite bind_run.
  destruct (outcome_of (c s)) as [a|e|].
  - exact (Hk a _ Hc).
  - exact Hc.
  - exact I.
Qed.

Lemma without_KeyError_for_fold {A B} (I : B -> Prop) (l : list A)
    (body : B -> A -> M B) :
  (forall b x s, x ∈ l -> I b -> without_KeyError I (body b x s)) ->
  forall b s, I b -> without_KeyError I (for_fold l body b s).
Proof.
  induction l as [|x l IH]; intros Hbody b s Hb; [exact Hb|].
  cbn [for_fold]. apply (without_KeyError_bind I).
  - apply Hbody; [left | exact Hb].
  - intros b' s1 Hb'. apply IH; [|exact Hb'].
    intros b0 y s0 Hy. apply Hbody. right. exact Hy.
Qed.

Lemma no_KeyError_ret {A} (a : A) : no_KeyError (ret a).
Proof. intros s. exact I. Qed.

Lemma no_KeyError_raise {A} e :
  (forall key, e <> KeyError key) -> no_KeyError (@raise A e).
Proof.
  intros He s. unfold without_KeyError, outcome_of, raise. simpl.
  destruct e; try exact I. exact (He key eq_refl).
Qed.

Lemma no_KeyError_emit e : no_KeyError (emit e).
Proof. intros s. exact I. Qed.

Lemma no_KeyError_get_self : no_KeyError get_self.
Proof. intros s. exact I. Qed.

Lemma no_KeyError_get_world : no_KeyError get_world.
Proof. intros s. exact I. Qed.

Lemma no_KeyError_modify_self f : no_KeyError (modify_self f).
Proof. intros s. exact I. Qed.

Lemma no_KeyError_modify_world f : no_KeyError (modify_world f).
Proof. intros s. exact I. Qed.

Lemma no_KeyError_alloc o : no_KeyError (alloc o).
Proof. intros s. exact I. Qed.

Lemma no_KeyError_deref l : no_KeyError (deref l).
Proof.
  intros s. unfold without_KeyError, outcome_of, deref.
  destruct (World.heap (world s) !! l); exact I.
Qed.

Lemma no_KeyError_bind {A B} (c : M A) (k : A -> M B) :
  no_KeyError c -> (forall a, no_KeyError (k a)) -> no_KeyError (bind c k).
Proof.
  intros Hc Hk s. apply (without_KeyError_bind (fun _ => True)); [apply Hc|].
  intros a s1 _. apply Hk.
Qed.

Lemma no_KeyError_update l f : no_KeyError (update l f).
Proof.
  apply no_KeyError_bind; [apply no_KeyError_deref|].
  intros o. apply no_KeyError_modify_world.
Qed.

Lemma no_KeyError_for_each {A} (l : list A) (body : A -> M unit) :
  (forall x, no_KeyError (body x)) -> no_KeyError (for_each l body).
Proof.
  intros Hb. induction l as [|x l IH]; simpl.
  - apply no_KeyError_ret.
  - apply no_KeyError_bind; [apply Hb | intros _; exact IH].
Qed.

Lemma no_KeyError_try {A} (c h : M A) :
  no_KeyError c -> no_KeyError h -> no_KeyError (try_except_StreamerDoesNotExist c h).
Proof.
  intros Hc Hh s. specialize (Hc s). unfold try_except_StreamerDoesNotExist.
  unfold without_KeyError, outcome_of in *.
  destruct (c s) as [[[a|e|] s1] t1]; simpl in *; try exact I.
  destruct e; try exact Hc. specialize (Hh s1).
  destruct (h s1) as [[o s2] t2]. exact Hh.
Qed.

Ltac no_KeyError_step :=
  lazymatch goal with
  | |- no_KeyError (bind _ _) => apply no_KeyError_bind; [|intros ?]
  | |- no_KeyError (ret _) => apply no_KeyError_ret
  | |- no_KeyError (raise _) => apply no_KeyError_raise; intros ?; discriminate
  | |- no_KeyError (emit _) => apply no_KeyError_emit
  | |- no_KeyError (log_info _) => apply no_KeyError_emit
  | |- no_KeyError get_self => apply no_KeyError_get_self
  | |- no_KeyError get_world => apply no_KeyError_get_world
  | |- no_KeyError (modify_self _) => apply no_KeyError_modify_self
  | |- no_KeyError (modify_world _) => apply no_KeyError_modify_world
  | |- no_KeyError (alloc _) => apply no_KeyError_alloc
  | |- no_KeyError (deref _) => apply no_KeyError_deref
  | |- no_KeyError (update _ _) => apply no_KeyError_update
  | |- no_KeyError (for_each _ _) => apply no_KeyError_for_each; intros ?
  | |- no_KeyError (try_except_StreamerDoesNotExist _ _) => apply no_KeyError_try
  | |- no_KeyError (match ?x with _ => _ end) => destruct x
  | |- no_KeyError ?c => let h := head_of c in unfold h
  end.

Lemma in_sync_add lc name l u :
  in_sync lc ->
  name ∉ streamers_name lc ->
  in_sync (mkLocals (streamers_name lc ++ [name]) (<[name := l]> (streamers_dict lc)) u).
Proof.
  intros [Hnd Hin] Hnew. split; simpl.
  - apply NoDup_app. split; [exact Hnd|]. split; [|apply NoDup_singleton].
    intros x Hx Hx'. apply list_elem_of_singleton in Hx' as ->. exact (Hnew Hx).
  - intros n Hn. apply elem_of_app in Hn as [Hn|Hn].
    + destruct (decide (name = n)) as [->|Hne].
      * rewrite lookup_insert_eq. eauto.
      * rewrite lookup_insert_ne by exact Hne. apply Hin, Hn.
    + apply list_elem_of_singleton in Hn as ->. rewrite lookup_insert_eq. eauto.
Qed.

Lemma in_sync_new_key lc name :
  in_sync lc -> streamers_dict lc !! name = None -> name ∉ streamers_name lc.
Proof.
  intros [_ Hin] Hnone Hn. destruct (Hin name Hn) as [l Hl]. congruence.
Qed.

Lemma remove_missing_in_sync names dict items reason s :
  names_in_dict names dict ->
  without_KeyError (fun nd : list string * gmap string loc => names_in_dict nd.1 nd.2)
    (__remove_missing names dict items reason s).
Proof.
  intros Hsync.
  destruct (remove_missing_run reason s items names dict Hsync)
    as (dict' & t & Hrun & Hdict & _).
  rewrite Hrun. unfold without_KeyError, outcome_of. simpl. split.
  - apply NoDup_filter, Hsync.
  - intros n Hn. apply list_elem_of_filter in Hn as [Hni Hn].
    rewrite Hdict, bool_decide_eq_false_2 by tauto. apply Hsync, Hn.
Qed.

Section Gathering.
Context (ext : Externals.t) (blacklist : list string).

Lemma static_body_in_sync lc streamer s :
  in_sync lc -> without_KeyError in_sync (reload_static_body ext blacklist lc streamer s).
Proof.
  intros Hsync. unfold reload_static_body.
  apply (without_KeyError_bind (fun _ => True)).
  - destruct streamer; [exact I|].
    apply (no_KeyError_bind (deref l) (fun o => ret (Streamer.username o)));
      [apply no_KeyError_deref | intros o; apply no_KeyError_ret].
  - intros name s1 _. destruct (streamers_dict lc !! name) eqn:E; [exact Hsync|].
    destruct (negb (py_in name blacklist)); [|exact Hsync].
    apply (without_KeyError_bind (fun _ => True)); [destruct streamer; exact I|].
    intros l s2 _.
    apply (in_sync_add lc name l (Some name) Hsync (in_sync_new_key lc name Hsync E)).
Qed.

Lemma json_body_in_sync acc entry s :
  in_sync acc.1 ->
  without_KeyError (fun acc' : locals * list string => in_sync acc'.1)
    (reload_json_body ext blacklist acc entry s).
Proof.
  destruct acc as [lc usernames]. simpl. intros Hsync. unfold reload_json_body.
  destruct (username lc) as [stale|]; [|exact I].
  destruct (negb (py_in stale blacklist)); [|exact Hsync].
  apply (without_KeyError_bind (fun _ => True)); [exact I|].
  intros l s1 _. destruct (streamers_dict lc !! entry.1) as [l0|] eqn:E.
  - apply (without_KeyError_bind (fun _ => True)); [apply no_KeyError_update|].
    intros [] s2 _. exact Hsync.
  - apply (in_sync_add lc entry.1 l (Some entry.1) Hsync
             (in_sync_new_key lc entry.1 Hsync E)).
Qed.

Lemma followers_body_in_sync lc name s :
  in_sync lc -> without_KeyError in_sync (reload_followers_body ext lc name s).
Proof.
  intros Hsync. unfold reload_followers_body.
  destruct (streamers_dict lc !! name) as [l0|] eqn:E; [exact Hsync|].
  apply (without_KeyError_bind (fun _ => True)); [exact I|].
  intros l s1 _.
  apply (in_sync_add lc name l (Some name) Hsync (in_sync_new_key lc name Hsync E)).
Qed.

Lemma reload_json_in_sync path lc s :
  in_sync lc -> without_KeyError in_sync (reload_json ext blacklist path lc s).
Proof.
  intros Hsync. unfold reload_json.
  apply (without_KeyError_bind (fun _ => True)); [exact I|]. intros [] s1 _.
  apply (without_KeyError_bind (fun _ => True)); [exact I|]. intros w s2 _.
  apply (without_KeyError_bind (fun acc : locals * list string => in_sync acc.1)).
  { apply (without_KeyError_for_fold (fun acc : locals * list string => in_sync acc.1));
      [|exact Hsync].
    intros acc entry s0 _ Hacc. apply json_body_in_sync, Hacc. }
  intros [lc1 usernames] s3 Hsync1. simpl in Hsync1.
  apply (without_KeyError_bind (fun _ => True)); [exact I|]. intros m s4 _.
  apply (without_KeyError_bind
           (fun nd : list string * gmap string loc => names_in_dict nd.1 nd.2)).
  { destruct (Miner.sources_usernames_JSON_FILE m); [exact Hsync1|].
    apply remove_missing_in_sync, Hsync1. }
  intros [names dict] s5 Hnd. simpl in Hnd.
  apply (without_KeyError_bind (fun _ => True)); [exact I|]. intros [] s6 _.
  apply (without_KeyError_bind (fun _ => True)); [exact I|]. intros [] s7 _.
  exact Hnd.
Qed.

Lemma reload_followers_in_sync lc s :
  in_sync lc -> without_KeyError in_sync (reload_followers ext blacklist lc s).
Proof.
  intros Hsync. unfold reload_followers.
  apply (without_KeyError_bind (fun _ => True)); [exact I|]. intros w s1 _.
  apply (without_KeyError_bind in_sync).
  { apply (without_KeyError_for_fold in_sync); [|exact Hsync].
    intros lc0 name s0 _ Hlc0. apply followers_body_in_sync, Hlc0. }
  intros lc1 s2 Hsync1.
  apply (without_KeyError_bind (fun _ => True)); [exact I|]. intros m s3 _.
  apply (without_KeyError_bind
           (fun nd : list string * gmap string loc => names_in_dict nd.1 nd.2)).
  { destruct (Miner.sources_usernames_FOLLOWERS m); [exact Hsync1|].
    apply remove_missing_in_sync, Hsync1. }
  intros [names dict] s4 Hnd. simpl in Hnd.
  apply (without_KeyError_bind (fun _ => True)); [exact I|]. intros [] s5 _.
  apply (without_KeyError_bind (fun _ => True)); [exact I|]. intros [] s6 _.
  exact Hnd.
Qed.

(** The loop over [self.streamers], whose user names are distinct. *)
Lemma current_loop_in_sync s (ls : list loc) :
  forall lc,
    in_sync lc ->
    NoDup (usernames_of s ls) ->
    (forall u, u ∈ usernames_of s ls -> u ∉ streamers_name lc) ->
    without_KeyError in_sync (for_fold ls (reload_current_body blacklist) lc s).
Proof.
  induction ls as [|l ls IH]; intros lc Hsync Hnd Hfresh; [exact Hsync|].
  cbn [for_fold]. destruct (object_at s l) as [o|] eqn:Hl.
  - assert (Hus : usernames_of s (l :: ls) = Streamer.username o :: usernames_of s ls)
      by (unfold usernames_of; simpl; rewrite Hl; reflexivity).
    rewrite Hus in Hnd, Hfresh. apply NoDup_cons in Hnd as [Hnew Hnd].
    assert (Hbody :
      reload_current_body blacklist lc l s
      = (Return (if negb (py_in (Streamer.username o) blacklist)
                 then mkLocals (streamers_name lc ++ [Streamer.username o])
                        (<[Streamer.username o := l]> (streamers_dict lc))
                        (username lc)
                 else lc), s, [])).
    { unfold reload_current_body.
      rewrite (bind_Return _ _ _ _ _ _ (deref_run s l o Hl)), after_nil.
      destruct (negb (py_in (Streamer.username o) blacklist)); reflexivity. }
    rewrite (bind_Return _ _ _ _ _ _ Hbody), after_nil.
    destruct (negb (py_in (Streamer.username o) blacklist)).
    + apply IH; [|exact Hnd|].
      * apply in_sync_add; [exact Hsync|]. apply Hfresh. left.
      * intros u Hu. simpl. rewrite not_elem_of_app. split.
        -- apply Hfresh. right. exact Hu.
        -- intros Heq. apply list_elem_of_singleton in Heq as ->. exact (Hnew Hu).
    + apply IH; [exact Hsync | exact Hnd|].
      intros u Hu. apply Hfresh. right. exact Hu.
  - assert (Hbody : reload_current_body blacklist lc l s = (Raise (Dangling l), s, [])).
    { unfold reload_current_body.
      rewrite (bind_Raise _ _ _ _ _ _ (deref_dangling s l Hl)). reflexivity. }
    rewrite (bind_Raise _ _ _ _ _ _ Hbody). exact I.
Qed.

Lemma resolve_body_no_KeyError (dict : gmap string loc) arr name :
  is_Some (dict !! name) -> no_KeyError (reload_resolve_body ext dict arr name).
Proof.
  intros [l Hl]. unfold reload_resolve_body. apply no_KeyError_try.
  - unfold reload_resolve_try. rewrite Hl. repeat no_KeyError_step.
  - repeat no_KeyError_step.
Qed.

Lemma init_body_no_KeyError l : no_KeyError (reload_init_body ext l).
Proof. repeat no_KeyError_step. Qed.

Lemma gather_no_KeyError streamers streamers_json followers s :
  NoDup (usernames_of s (Miner.streamers (self s))) ->
  without_KeyError (fun _ => True)
    (reload_gather ext streamers blacklist streamers_json followers s).
Proof.
  intros Hnd. unfold reload_gather, log_info.
  rewrite (bind_Return _ _ _ _ _ _ (emit_run _ s)).
  rewrite (bind_Return _ _ _ _ _ _ (eq_refl : get_self s = (Return (self s), s, []))).
  rewrite after_nil.
  change (without_KeyError (fun _ : list loc => True)
            ((lc <- for_fold (Miner.streamers (self s)) (reload_current_body blacklist)
                      (mkLocals [] ∅ None) ;;
              lc <- for_fold streamers (reload_static_body ext blacklist) lc ;;
              emit (LogInfo (LoadStreamers (length streamers) "STREAMERS")) ;;
              lc <- match streamers_json with
                    | Some path => reload_json ext blacklist path lc
                    | None => ret lc
                    end ;;
              lc <- (if followers then reload_followers ext blacklist lc else ret lc) ;;
              w <- get_world ;;
              emit (LogInfo (LoadingData (count_new (streamers_dict lc) (World.heap w)))) ;;
              streamers_array <-
                for_fold (streamers_name lc)
                  (reload_resolve_body ext (streamers_dict lc)) [] ;;
              match streamers_json with
              | Some path => emit (SettingsWrite path)
              | None => ret tt
              end ;;
              ret streamers_array) s)).
  apply (without_KeyError_bind in_sync).
  { apply current_loop_in_sync; [|exact Hnd|].
    - split; [apply NoDup_nil_2 | intros n Hn; inversion Hn].
    - intros u _ Hu. inversion Hu. }
  intros lc0 s0 Hsync0.
  apply (without_KeyError_bind in_sync).
  { apply (without_KeyError_for_fold in_sync); [|exact Hsync0].
    intros lc x s' _ Hlc. apply static_body_in_sync, Hlc. }
  intros lc1 s1 Hsync1.
  apply (without_KeyError_bind (fun _ => True)); [exact I|]. intros [] s2 _.
  apply (without_KeyError_bind in_sync).
  { destruct streamers_json as [path|]; [|exact Hsync1].
    apply reload_json_in_sync, Hsync1. }
  intros lc2 s3 Hsync2.
  apply (without_KeyError_bind in_sync).
  { destruct followers; [|exact Hsync2]. apply reload_followers_in_sync, Hsync2. }
  intros lc3 s4 Hsync3.
  apply (without_KeyError_bind (fun _ => True)); [exact I|]. intros w s5 _.
  apply (without_KeyError_bind (fun _ => True)); [exact I|]. intros [] s6 _.
  apply (without_KeyError_bind (fun _ => True)).
  { apply (without_KeyError_for_fold (fun _ => True)); [|exact I].
    intros arr name s' Hname _.
    apply resolve_body_no_KeyError, (proj2 Hsync3), Hname. }
  intros arr s7 _.
  apply (without_KeyError_bind (fun _ => True)); [|intros [] s8 _; exact I].
  destruct streamers_json; exact I.
Qed.

End Gathering.

(** *** X12
    If the streamers in [self.streamers] have pairwise distinct user
    names, [__reload_streamers] never raises [KeyError] on its
    dictionary of streamers: neither [del streamers_dict[username]] nor
    [streamers_dict[username]] is reached with a name that has no entry.
    (The entries of the tracking file are taken to be well formed.) *)
Theorem reload_never_misses_a_key (ext : Externals.t)
    (streamers : list streamer_arg) (blacklist : list string)
    (streamers_json : option string) (followers : bool) (s : state) (key : string) :
  NoDup (usernames_of s (Miner.streamers (self s))) ->
  outcome_of (__reload_streamers ext streamers blacklist streamers_json followers s)
  <> Raise (KeyError key).
Proof.
  intros Hnd.
  assert (H : without_KeyError (fun _ => True)
                (__reload_streamers ext streamers blacklist streamers_json followers s)).
  { unfold __reload_streamers. apply (without_KeyError_bind (fun _ => True)).
    - apply gather_no_KeyError, Hnd.
    - intros arr s1 _.
      apply (no_KeyError_bind (for_each arr (reload_init_body ext)) (fun _ => ret arr)).
      + apply no_KeyError_for_each, init_body_no_KeyError.
      + intros _. apply no_KeyError_ret. }
  unfold without_KeyError in H. intros Heq. rewrite Heq in H. exact H.
Qed.

Lemma reload_never_misses_a_key_witness :
  outcome_of (__reload_streamers (Sample.ext []) [Name "c"] [] None true Scenario.quiet)
  <> Raise (KeyError "a").
Proof.
  apply (reload_never_misses_a_key (Sample.ext []) [Name "c"] [] None true Scenario.quiet
           "a").
  apply (bool_decide_eq_true_1 (NoDup _)). vm_compute. reflexivity.
Defined.

(** ** Channels that are no longer followed *)

Lemma followers_loop_run (ext : Externals.t) (followers_array : list string) :
  forall lc s,
    in_sync lc ->
    exists lc1 s1,
      for_fold followers_array (reload_followers_body ext) lc s = (Return lc1, s1, [])
      /\ in_sync lc1
      /\ self s1 = self s
      /\ (forall n, n ∈ streamers_name lc -> n ∈ streamers_name lc1).
Proof.
  induction followers_array as [|name names IH]; intros lc s Hsync.
  - exists lc, s. repeat split; auto; apply Hsync.
  - assert (Hbody : exists lc0 s0,
      reload_followers_body ext lc name s = (Return lc0, s0, [])
      /\ in_sync lc0 /\ self s0 = self s
      /\ (forall n, n ∈ streamers_name lc -> n ∈ streamers_name lc0)).
    { unfold reload_followers_body.
      destruct (streamers_dict lc !! name) as [l0|] eqn:E.
      - eexists _, _. split; [reflexivity|]. split; [exact Hsync|]. split; auto.
      - eexists _, _. split; [reflexivity|]. split; [|split; [reflexivity|]].
        + apply (in_sync_add lc name _ (Some name) Hsync
                   (in_sync_new_key lc name Hsync E)).
        + intros n Hn. simpl. apply elem_of_app. left. exact Hn. }
    destruct Hbody as (lc0 & s0 & Hbody & Hsync0 & Hself0 & Hkeep0).
    destruct (IH lc0 s0 Hsync0) as (lc1 & s1 & Hrest & Hsync1 & Hself1 & Hkeep1).
    exists lc1, s1. cbn [for_fold].
    rewrite (bind_Return _ _ _ _ _ _ Hbody), after_nil.
    split; [exact Hrest|]. split; [exact Hsync1|]. split; [congruence|]. auto.
Qed.

(** *** X13
    A name that an earlier reload took from the followed channels, that
    is still among the gathered names and that [get_followers] (less
    the blacklist) no longer answers, is removed by the followers step:
    the name and its dictionary entry are gone, the removal is logged
    with the reason "User was unfollowed", and
    [sources_usernames["FOLLOWERS"]] holds the new answer. *)
Theorem unfollowed_streamer_is_removed (ext : Externals.t) (blacklist : list string)
    (lc : locals) (s : state) (u : string) :
  in_sync lc ->
  u ∈ streamers_name lc ->
  u ∈ Miner.sources_usernames_FOLLOWERS (self s) ->
  u ∉ filter (fun x => x ∉ blacklist) (World.followed (world s)) ->
  exists lc' s' t,
    reload_followers ext blacklist lc s = (Return lc', s', t)
    /\ (u ∉ streamers_name lc')
    /\ streamers_dict lc' !! u = None
    /\ LogInfo (RemoveStreamer u "User was unfollowed") ∈ t
    /\ Miner.sources_usernames_FOLLOWERS (self s')
       = filter (fun x => x ∉ blacklist) (World.followed (world s)).
Proof.
  intros Hsync Hname Hprev Hgone.
  set (followers_array := filter (fun x => x ∉ blacklist) (World.followed (world s))) in *.
  destruct (followers_loop_run ext followers_array lc s Hsync)
    as (lc1 & s1 & Hloop & Hsync1 & Hself1 & Hkeep1).
  destruct (Miner.sources_usernames_FOLLOWERS (self s)) as [|p previous] eqn:Hsrc;
    [inversion Hprev|].
  set (items := filter (fun x => x ∉ followers_array) (p :: previous)).
  assert (Hitem : u ∈ items) by (apply list_elem_of_filter; auto).
  destruct (remove_missing_run "User was unfollowed" s1 items
              (streamers_name lc1) (streamers_dict lc1) Hsync1)
    as (dict' & t & Hrm & Hdict & Htrace).
  exists (mkLocals (filter (fun n => n ∉ items) (streamers_name lc1)) dict' (username lc1)),
    (mkState (Miner.set_sources_usernames_FOLLOWERS followers_array (self s1)) (world s1)),
    (t ++ [LogInfo (LoadStreamers (length followers_array) "FOLLOWERS")]).
  split; [|split; [|split; [|split]]].
  - unfold reload_followers, log_info.
    rewrite (bind_Return _ _ _ _ _ _ (eq_refl : get_world s = (Return (world s), s, []))).
    rewrite after_nil. fold followers_array.
    rewrite (bind_Return _ _ _ _ _ _ Hloop), after_nil.
    rewrite (bind_Return _ _ _ _ _ _
               (eq_refl : get_self s1 = (Return (self s1), s1, []))).
    rewrite after_nil.
    assert (Hsrc1 : Miner.sources_usernames_FOLLOWERS (self s1) = p :: previous)
      by (rewrite Hself1; exact Hsrc).
    rewrite Hsrc1. fold items.
    rewrite (bind_Return _ _ _ _ _ _ Hrm). cbv beta iota.
    rewrite (bind_Return _ _ _ _ _ _
               (eq_refl : modify_self (Miner.set_sources_usernames_FOLLOWERS
                                         followers_array) s1 = (_, _, _))).
    rewrite after_nil.
    rewrite (bind_Return _ _ _ _ _ _ (emit_run _ _)). reflexivity.
  - simpl. intros Hin. apply list_elem_of_filter in Hin as [Hni _]. exact (Hni Hitem).
  - simpl. rewrite Hdict. rewrite bool_decide_eq_true_2; [reflexivity|].
    split; [exact Hitem | apply Hkeep1, Hname].
  - apply elem_of_app. left. apply Htrace. exists u. split; [reflexivity|].
    split; [exact Hitem | apply Hkeep1, Hname].
  - reflexivity.
Qed.

Lemma unfollowed_streamer_is_removed_witness :
  exists lc' s' t,
    reload_followers (Sample.ext []) []
      (mkLocals ["foo"; "?x"; "bar"] Scenario.three_names None)
      (Cases.followed_before ["bar"] Scenario.three_new)
    = (Return lc', s', t)
    /\ ("bar" ∉ streamers_name lc')
    /\ streamers_dict lc' !! "bar" = None
    /\ LogInfo (RemoveStreamer "bar" "User was unfollowed") ∈ t
    /\ Miner.sources_usernames_FOLLOWERS (self s')
       = filter (fun x => x ∉ [])
           (World.followed (world (Cases.followed_before ["bar"] Scenario.three_new))).
Proof.
  apply (unfollowed_streamer_is_removed (Sample.ext []) []
           (mkLocals ["foo"; "?x"; "bar"] Scenario.three_names None)
           (Cases.followed_before ["bar"] Scenario.three_new) "bar").
  - split.
    + apply (bool_decide_eq_true_1 (NoDup _)). vm_compute. reflexivity.
    + intros n Hn. apply (bool_decide_eq_true_1 (is_Some _)).
      repeat (apply elem_of_cons in Hn as [->|Hn]); [vm_compute; reflexivity ..|].
      inversion Hn.
  - apply (bool_decide_eq_true_1 (_ ∈ _)). vm_compute. reflexivity.
  - apply (bool_decide_eq_true_1 (_ ∈ _)). vm_compute. reflexivity.
  - apply (bool_decide_eq_true_1 (_ ∉ _)). vm_compute. reflexivity.
Defined.

(** ** The topics submitted for the streamers *)

Lemma submitted_app t1 t2 : submitted (t1 ++ t2) = submitted t1 ++ submitted t2.
Proof. unfold submitted. apply omap_app. Qed.

Lemma submitted_Submit (topics : list PubsubTopic.t) :
  submitted (Submit <$> topics) = topics.
Proof.
  unfold submitted. induction topics as [|topic topics IH]; [reflexivity|].
  simpl. f_equal. exact IH.
Qed.

Lemma streamer_topics_heap s s' l :
  World.heap (world s') = World.heap (world s) ->
  streamer_topics s' l = streamer_topics s l.
Proof. unfold streamer_topics, object_at. intros ->. reflexivity. Qed.

Lemma run_submit_body_run ext s l :
  has_settings s l = true ->
  exists pool,
    run_submit_body ext l s
    = (Return tt, mkState (self s) (World.set_pool pool (world s)),
       Submit <$> streamer_topics s l).
Proof.
  unfold has_settings, streamer_topics.
  destruct (object_at s l) as [o|] eqn:Hl; [|discriminate].
  destruct (Streamer.settings o) as [st|] eqn:Hst; [|discriminate]. intros _.
  unfold run_submit_body, ws_pool_submit, bind, emit, modify_world, deref, ret.
  simpl. unfold object_at in Hl. rewrite Hl. simpl. rewrite Hst.
  destruct (bool_decide (StreamerSettings.follow_raid st = Some true));
    destruct (bool_decide (StreamerSettings.make_predictions st = Some true));
    simpl; eexists; reflexivity.
Qed.

Lemma run_submit_loop ext (ls : list loc) :
  forall s,
    forallb (has_settings s) ls = true ->
    exists pool,
      for_each ls (run_submit_body ext) s
      = (Return tt, mkState (self s) (World.set_pool pool (world s)),
         Submit <$> concat (streamer_topics s <$> ls)).
Proof.
  induction ls as [|l ls IH]; intros s Hall.
  - exists (World.pool (world s)). simpl. unfold ret. destruct s as [m []]. reflexivity.
  - simpl in Hall. apply andb_true_iff in Hall as [Hl Hall].
    destruct (run_submit_body_run ext s l Hl) as (pool1 & Hbody).
    set (s1 := mkState (self s) (World.set_pool pool1 (world s))) in *.
    assert (Hheap : World.heap (world s1) = World.heap (world s)) by reflexivity.
    destruct (IH s1) as (pool2 & Hrest).
    { rewrite <- Hall. apply forallb_pointwise. intros l'.
      unfold has_settings, object_at. rewrite Hheap. reflexivity. }
    exists pool2. cbn [for_each]. rewrite (bind_Return _ _ _ _ _ _ Hbody), Hrest.
    unfold after. simpl. rewrite fmap_app.
    rewrite (concat_fmap_pointwise (streamer_topics s1) (streamer_topics s) ls)
      by (intros l'; apply streamer_topics_heap, Hheap).
    reflexivity.
Qed.

(** *** X14
    The loop of [run] that subscribes the streamers returns when every
    streamer has its settings; it changes neither a slot of the miner nor
    a [Streamer]; and the topics it submits are exactly:
    [video-playback-by-id] for every streamer, [raid] for those with
    [follow_raid] on and [predictions-channel-v1] for those with
    [make_predictions] on. *)
Theorem topics_submitted_for_the_streamers (ext : Externals.t) (ls : list loc)
    (s : state) :
  forallb (has_settings s) ls = true ->
  exists s' t,
    for_each ls (run_submit_body ext) s = (Return tt, s', t)
    /\ self s' = self s
    /\ World.heap (world s') = World.heap (world s)
    /\ forall topic,
         topic ∈ submitted t
         <-> exists l o st,
               l ∈ ls /\ object_at s l = Some o /\ Streamer.settings o = Some st
               /\ (topic = PubsubTopic.mk "video-playback-by-id" None (Some l)
                   \/ (topic = PubsubTopic.mk "raid" None (Some l)
                       /\ StreamerSettings.follow_raid st = Some true)
                   \/ (topic = PubsubTopic.mk "predictions-channel-v1" None (Some l)
                       /\ StreamerSettings.make_predictions st = Some true)).
Proof.
  intros Hall. destruct (run_submit_loop ext ls s Hall) as (pool & Hrun).
  eexists _, _. split; [exact Hrun|]. split; [reflexivity|]. split; [reflexivity|].
  intros topic. rewrite submitted_Submit, elem_of_concat_fmap. split.
  - intros (l & Hl & Hin). unfold streamer_topics in Hin.
    destruct (object_at s l) as [o|] eqn:Ho; [|inversion Hin].
    destruct (Streamer.settings o) as [st|] eqn:Hst; [|inversion Hin].
    exists l, o, st. split; [exact Hl|]. split; [exact Ho|]. split; [exact Hst|].
    apply elem_of_cons in Hin as [->|Hin]; [left; reflexivity|]. right.
    apply elem_of_app in Hin as [Hin|Hin].
    + left. destruct (bool_decide _) eqn:E; [|inversion Hin].
      apply list_elem_of_singleton in Hin as ->.
      split; [reflexivity | apply bool_decide_eq_true in E; exact E].
    + right. destruct (bool_decide (StreamerSettings.make_predictions st = Some true))
        eqn:E; [|inversion Hin].
      apply list_elem_of_singleton in Hin as ->.
      split; [reflexivity | apply bool_decide_eq_true in E; exact E].
  - intros (l & o & st & Hl & Ho & Hst & Hcases). exists l. split; [exact Hl|].
    unfold streamer_topics. rewrite Ho, Hst.
    destruct Hcases as [->|[[-> Hraid]|[-> Hpred]]].
    + left.
    + right. apply elem_of_app. left.
      rewrite bool_decide_eq_true_2 by exact Hraid. left.
    + right. apply elem_of_app. right.
      rewrite bool_decide_eq_true_2 by exact Hpred. left.
Qed.

Lemma topics_submitted_for_the_streamers_witness :
  exists s' t,
    for_each [0; 1] (run_submit_body (Sample.ext [])) Scenario.quiet = (Return tt, s', t)
    /\ self s' = self Scenario.quiet
    /\ World.heap (world s') = World.heap (world Scenario.quiet)
    /\ forall topic,
         topic ∈ submitted t
         <-> exists l o st,
               l ∈ [0; 1] /\ object_at Scenario.quiet l = Some o
               /\ Streamer.settings o = Some st
               /\ (topic = PubsubTopic.mk "video-playback-by-id" None (Some l)
                   \/ (topic = PubsubTopic.mk "raid" None (Some l)
                       /\ StreamerSettings.follow_raid st = Some true)
                   \/ (topic = PubsubTopic.mk "predictions-channel-v1" None (Some l)
                       /\ StreamerSettings.make_predictions st = Some true)).
Proof.
  apply (topics_submitted_for_the_streamers (Sample.ext []) [0; 1] Scenario.quiet).
  reflexivity.
Defined.

(** With two streamers under one user name the hypothesis above fails,
    and so can the lookup: the name is removed once from the list and the
    entry is deleted, the second occurrence of the name finds no entry. *)
Lemma reload_with_twins_misses_a_key :
  outcome_of (__reload_streamers (Sample.ext []) [] [] None true Cases.twins)
  = Raise (KeyError "a").
Proof. vm_compute. reflexivity. Qed.

(** ** When the report returns *)

Lemma report_event_body_returns s kv s' t :
  report_event_body kv s = (Return tt, s', t) -> event_ok s kv = true.
Proof.
  destruct kv as [id ev]. unfold event_ok, report_event_body. simpl.
  destruct (EventPrediction.bet_confirmed ev); [|reflexivity].
  destruct (object_at s (EventPrediction.streamer ev)) as [o|] eqn:Ho.
  - rewrite (bind_Return _ _ _ _ _ _ (deref_run s _ o Ho)), after_nil.
    destruct (Streamer.settings o) as [st|]; [|discriminate].
    destruct (bool_decide (StreamerSettings.make_predictions st = Some true));
      [|reflexivity].
    destruct (StreamerSettings.bet st) as [bet|]; [reflexivity|].
    unfold log_info. rewrite (bind_Return _ _ _ _ _ _ (emit_run _ s)). discriminate.
  - rewrite (bind_Raise _ _ _ _ _ _ (deref_dangling s _ Ho)). discriminate.
Qed.

Lemma report_streamer_body_returns s l s' t :
  report_streamer_body l s = (Return tt, s', t) -> streamer_ok s l = true.
Proof.
  unfold streamer_ok, report_streamer_body.
  destruct (object_at s l) as [o|] eqn:Ho.
  - rewrite (bind_Return _ _ _ _ _ _ (deref_run s _ o Ho)), after_nil.
    destruct (bool_decide (Streamer.history o ≠ ∅)); [|reflexivity].
    unfold bind, get_self. simpl.
    destruct (Miner.base_points (self s) !! Streamer.username o); [reflexivity|].
    discriminate.
  - rewrite (bind_Raise _ _ _ _ _ _ (deref_dangling s _ Ho)). discriminate.
Qed.

(** A loop of reads that returns: every iteration found what it reads. *)
Lemma for_each_reads_inv {A} (l : list A) (body : A -> M unit) (ok : A -> bool) s s' t :
  (forall x, preserves (fun s0 => s0 = s) (body x)) ->
  (forall x s1 t1, body x s = (Return tt, s1, t1) -> ok x = true) ->
  for_each l body s = (Return tt, s', t) ->
  forallb ok l = true.
Proof.
  intros Hkeep Hok. revert t. induction l as [|x l IH]; intros t Hrun; [reflexivity|].
  simpl in Hrun. apply bind_Return_inv in Hrun as ([] & s1 & t1 & t2 & Hb & Hrest & _).
  pose proof (Hkeep x s eq_refl) as Hs1. rewrite Hb in Hs1.
  unfold state_of in Hs1. simpl in Hs1. subst s1.
  simpl. rewrite (Hok x s t1 Hb). exact (IH t2 Hrest).
Qed.

Lemma print_report_returns_ready (s : state) :
  outcome_of (__print_report s) = Return tt -> report_ready s = true.
Proof.
  destruct (__print_report s) as [[o s'] t] eqn:Hrun. unfold outcome_of. simpl.
  intros ->. unfold __print_report, log_info in Hrun.
  rewrite (bind_Return _ _ _ _ _ _ (emit_run _ s)) in Hrun.
  rewrite (bind_Return _ _ _ _ _ _ (eq_refl : get_self s = (Return (self s), s, [])))
    in Hrun.
  rewrite after_nil in Hrun.
  rewrite (bind_Return _ _ _ _ _ _ (emit_run _ s)) in Hrun.
  assert (Hlogs : exists t1,
    (match Miner.logs_file (self s) with
     | Some path => emit (LogInfo (LogsFile path))
     | None => ret tt
     end) s = (Return tt, s, t1))
    by (destruct (Miner.logs_file (self s)); eexists; reflexivity).
  destruct Hlogs as (tl & Hlogs).
  rewrite (bind_Return _ _ _ _ _ _ Hlogs) in Hrun.
  rewrite (bind_Return _ _ _ _ _ _ (eq_refl : get_world s = (Return (world s), s, [])))
    in Hrun.
  rewrite after_nil, !after_after in Hrun.
  unfold report_ready.
  destruct (Miner.start_datetime (self s)) as [t0|]; [|discriminate].
  rewrite (bind_Return _ _ _ _ _ _ (emit_run _ s)), after_after in Hrun.
  assert (Hkeep_e : forall kv, preserves (fun s0 => s0 = s) (report_event_body kv))
    by (intros kv; repeat first [ preserves_step | preserves_unfold ]).
  assert (Hkeep_s : forall l, preserves (fun s0 => s0 = s) (report_streamer_body l))
    by (intros l; repeat first [ preserves_step | preserves_unfold ]).
  assert (Hevents : exists te,
    forallb (event_ok s) (World.events_predictions (world s)) = true
    /\ (for_each (Miner.streamers (self s)) report_streamer_body s
        = (Return tt, s', te))).
  { destruct (World.events_predictions (world s)) as [|kv events] eqn:Hev.
    - rewrite (bind_Return _ _ _ _ _ _ (eq_refl : ret tt s = (Return tt, s, []))) in Hrun.
      rewrite (bind_Return _ _ _ _ _ _ (emit_run _ s)) in Hrun.
      destruct (for_each (Miner.streamers (self s)) report_streamer_body s)
        as [[o2 s2] t2].
      unfold after in Hrun. simpl in Hrun. injection Hrun as -> -> _.
      eexists. split; reflexivity.
    - rewrite bind_run in Hrun.
      destruct ((emit (Print "") ;; for_each (kv :: events) report_event_body) s)
        as [[[[]|e|] s1] t1] eqn:Hloop; unfold outcome_of, state_of, trace_of in Hrun;
        simpl in Hrun; try discriminate.
      rewrite (bind_Return _ _ _ _ _ _ (emit_run _ s)) in Hloop.
      destruct (for_each (kv :: events) report_event_body s) as [[o3 s3] t3] eqn:Hloop3.
      unfold after in Hloop. simpl in Hloop. injection Hloop as -> -> _.
      pose proof (preserves_for_each _ (kv :: events) report_event_body Hkeep_e s eq_refl)
        as Hs1.
      rewrite Hloop3 in Hs1. unfold state_of in Hs1. simpl in Hs1. subst s1.
      rewrite (bind_Return _ _ _ _ _ _ (emit_run _ s)) in Hrun.
      destruct (for_each (Miner.streamers (self s)) report_streamer_body s)
        as [[o2 s2] t2].
      unfold after in Hrun. simpl in Hrun. injection Hrun as -> -> _.
      eexists. split; [|reflexivity].
      apply (for_each_reads_inv (kv :: events) report_event_body (event_ok s) s s t3
               Hkeep_e (report_event_body_returns s) Hloop3). }
  destruct Hevents as (te & Hevents & Hstreamers).
  rewrite Hevents. simpl.
  apply (for_each_reads_inv _ report_streamer_body (streamer_ok s) s s' te
           Hkeep_s (report_streamer_body_returns s) Hstreamers).
Qed.

(** *** X16
    [__print_report] returns if and only if it has all it reads: the
    session has a start time, every event with a confirmed bet has a
    streamer with settings (and bet settings if [make_predictions] is
    on), and every streamer with a history has a baseline.  In every
    other state it raises. *)
Theorem report_returns_iff_it_has_what_it_reads (s : state) :
  outcome_of (__print_report s) = Return tt <-> report_ready s = true.
Proof.
  split; [apply print_report_returns_ready|].
  intros H. rewrite (print_report_run s H). reflexivity.
Qed.

(** ** What a reload leaves alone *)

Lemma reload_frame_update X l f : preserves (fun s => reload_frame s = X) (update l f).
Proof.
  intros s H. destruct (object_at s l) as [o|] eqn:Hl.
  - rewrite (update_run s l o f Hl). exact H.
  - rewrite (update_dangling s l f Hl). exact H.
Qed.

Lemma reload_frame_alloc X o : preserves (fun s => reload_frame s = X) (alloc o).
Proof. intros s H. exact H. Qed.

Lemma objects_update n l f :
  preserves (fun s => (n <= length (World.heap (world s)))%nat) (update l f).
Proof.
  intros s H. destruct (object_at s l) as [o|] eqn:Hl.
  - rewrite (update_run s l o f Hl). unfold state_of, set_object. simpl.
    rewrite length_insert. exact H.
  - rewrite (update_dangling s l f Hl). exact H.
Qed.

Lemma objects_alloc n o :
  preserves (fun s => (n <= length (World.heap (world s)))%nat) (alloc o).
Proof.
  intros s H. unfold state_of, alloc. simpl. rewrite length_app. simpl. lia.
Qed.

(** *** X17
    Whatever its outcome, [__reload_streamers] writes nothing but the
    store of [Streamer] objects and [self.sources_usernames]: every
    other slot of the miner (among them [self.streamers], which is the
    caller's to assign, the baselines and the worker threads), the pool,
    the predictions and the flags are as before; and no [Streamer] that
    existed is lost. *)
Theorem reload_only_touches_the_store_and_the_sources (ext : Externals.t)
    (streamers : list streamer_arg) (blacklist : list string)
    (streamers_json : option string) (followers : bool) (s : state) :
  let s' := state_of (__reload_streamers ext streamers blacklist streamers_json
                        followers s) in
  reload_frame s' = reload_frame s
  /\ forall l, is_Some (object_at s l) -> is_Some (object_at s' l).
Proof.
  intros s'. split.
  - assert (H : preserves (fun s0 => reload_frame s0 = reload_frame s)
                  (__reload_streamers ext streamers blacklist streamers_json followers)).
    { repeat first
        [ apply reload_frame_update
        | apply reload_frame_alloc
        | lazymatch goal with
          | |- preserves _ (modify_self _) => intros ? Hm; exact Hm
          end
        | preserves_step
        | preserves_unfold ]. }
    apply (H s eq_refl).
  - assert (H : forall n,
      preserves (fun s0 => (n <= length (World.heap (world s0)))%nat)
        (__reload_streamers ext streamers blacklist streamers_json followers)).
    { intros n. repeat first
        [ apply objects_update
        | apply objects_alloc
        | lazymatch goal with
          | |- preserves _ (modify_self _) => intros ? Hm; exact Hm
          end
        | preserves_step
        | preserves_unfold ]. }
    intros l Hl. apply lookup_lt_is_Some_2. apply lookup_lt_is_Some_1 in Hl.
    pose proof (H (S l) s Hl) as Hlen. exact Hlen.
Qed.

(** ** A blacklisted name in the tracking file *)

(** *** X18
    The blacklist does not keep a name of the tracking file out: when
    the name left in [username] by the previous step is not blacklisted,
    a blacklisted name that the file lists and that is not yet in the
    dictionary gets a new [Streamer] and is added to the names, to the
    dictionary and to [usernames] (the entries after it are then
    skipped). *)
Theorem blacklisted_file_entry_is_loaded (ext : Externals.t) (blacklist : list string)
    (lc : locals) (usernames : list string) (stale name : string)
    (settings : StreamerSettings.t) (post : list (string * StreamerSettings.t))
    (s : state) :
  username lc = Some stale ->
  py_in stale blacklist = false ->
  py_in name blacklist = true ->
  streamers_dict lc !! name = None ->
  for_fold ((name, settings) :: post) (reload_json_body ext blacklist) (lc, usernames) s
  = (Return (mkLocals (streamers_name lc ++ [name])
                      (<[name := length (World.heap (world s))]> (streamers_dict lc))
                      (Some name),
             usernames ++ [name]),
     mkState (self s)
       (World.set_heap
          (World.heap (world s) ++ [Externals.Streamer_new ext name (Some settings)])
          (world s)),
     []).
Proof.
  intros Hstale Hfree Hblack Hnew. cbn [for_fold].
  assert (Hbody :
    reload_json_body ext blacklist (lc, usernames) (name, settings) s
    = (Return (mkLocals (streamers_name lc ++ [name])
                        (<[name := length (World.heap (world s))]> (streamers_dict lc))
                        (Some name),
               usernames ++ [name]),
       mkState (self s)
         (World.set_heap
            (World.heap (world s) ++ [Externals.Streamer_new ext name (Some settings)])
            (world s)),
       [])).
  { unfold reload_json_body. rewrite Hstale, Hfree. simpl negb. cbv iota.
    unfold bind, alloc. simpl. rewrite Hnew. reflexivity. }
  rewrite (bind_Return _ _ _ _ _ _ Hbody), after_nil.
  apply (json_loop_skips ext blacklist
           (mkLocals (streamers_name lc ++ [name])
              (<[name := length (World.heap (world s))]> (streamers_dict lc))
              (Some name))
           (usernames ++ [name]) name post _ eq_refl Hblack).
Qed.

Lemma blacklisted_file_entry_is_loaded_witness :
  for_fold (("?x", Sample.defaults) :: [("c", Sample.defaults)])
    (reload_json_body (Sample.ext []) ["?x"])
    (mkLocals ["a"] ∅ (Some "a"), []) Scenario.quiet
  = (Return (mkLocals (["a"] ++ ["?x"])
                      (<["?x" := length (World.heap (world Scenario.quiet))]> ∅)
                      (Some "?x"),
             [] ++ ["?x"]),
     mkState (self Scenario.quiet)
       (World.set_heap
          (World.heap (world Scenario.quiet)
             ++ [Externals.Streamer_new (Sample.ext []) "?x" (Some Sample.defaults)])
          (world Scenario.quiet)),
     []).
Proof.
  apply (blacklisted_file_entry_is_loaded (Sample.ext []) ["?x"]
           (mkLocals ["a"] ∅ (Some "a")) [] "a" "?x" Sample.defaults
           [("c", Sample.defaults)] Scenario.quiet).
  - reflexivity.
  - reflexivity.
  - reflexivity.
  - reflexivity.
Defined.

(** ** When [end] reaches its exit *)

Lemma end_prologue_pool s s1 t1 :
  end_prologue s = (Return tt, s1, t1) -> is_Some (Miner.ws_pool (self s)).
Proof.
  unfold end_prologue, log_info. intros H.
  apply bind_Return_inv in H as ([] & s0 & t0 & t2 & H0 & H & _).
  injection H0 as <- _.
  apply bind_Return_inv in H as (m & s2 & t3 & t4 & Hm & H & _).
  injection Hm as <- <- _.
  apply bind_Return_inv in H as ([] & sa & ta & t5 & _ & H & _).
  apply bind_Return_inv in H as ([] & s3 & t6 & t7 & _ & H & _).
  apply bind_Return_inv in H as ([] & s4 & t8 & t9 & _ & H & _).
  apply bind_Return_inv in H as ([] & s5 & t10 & t11 & H5 & _ & _).
  destruct (Miner.ws_pool (self s)); [eauto | discriminate].
Qed.

(** A chat that was left: its thread ends, and the other chats are as
    they were. *)
Lemma end_chat_body_returns s l s1 t :
  end_chat_body l s = (Return tt, s1, t) ->
  chat_ends s l = true
  /\ forall l', chat_ends s1 l' = true -> chat_ends s l' = true.
Proof.
  unfold end_chat_body, chat_ends at 1.
  destruct (object_at s l) as [o|] eqn:Hl.
  2:{ rewrite (bind_Raise _ _ _ _ _ _ (deref_dangling s l Hl)). discriminate. }
  rewrite (bind_Return _ _ _ _ _ _ (deref_run s l o Hl)), after_nil.
  destruct (Streamer.irc_chat o) as [[name st]|] eqn:Hchat.
  2:{ intros [= <- _]. auto. }
  rewrite (bind_Return _ _ _ _ _ _ (emit_run _ s)).
  unfold Thread.is_alive, thread_exits. simpl.
  destruct st as [|[|]].
  - intros [= <- _]. auto.
  - rewrite (bind_Return _ _ _ _ _ _
               (Thread_join_run (Thread.mk name (Thread.Alive true)) s)).
    rewrite (update_run s l o _ Hl), !after_triple. intros [= <- _].
    split; [reflexivity|]. intros l'. unfold chat_ends.
    destruct (decide (l = l')) as [<-|Hne].
    + rewrite Hl, Hchat. reflexivity.
    + rewrite (object_at_set_ne s l l' _ Hne). auto.
  - rewrite (bind_Block _ _ _ _ _
               (Thread_join_run (Thread.mk name (Thread.Alive false)) s)).
    discriminate.
Qed.

Lemma end_chats_returned (ls : list loc) s s1 t :
  for_each ls end_chat_body s = (Return tt, s1, t) ->
  forallb (chat_ends s) ls = true.
Proof.
  revert s t. induction ls as [|l ls IH]; intros s t Hrun; [reflexivity|].
  simpl in Hrun. apply bind_Return_inv in Hrun as ([] & s2 & t2 & t3 & Hb & Hrest & _).
  destruct (end_chat_body_returns s l s2 t2 Hb) as [Hl Hback].
  simpl. rewrite Hl. simpl.
  apply forallb_forall. intros l' Hin. apply Hback.
  pose proof (IH s2 t3 Hrest) as Hall. rewrite forallb_forall in Hall.
  apply Hall, Hin.
Qed.

(** A guard that was checked: it was free or about to be released, and
    the other guards are as they were. *)
Lemma end_mutex_body_returned s l s1 t :
  end_mutex_body l s = (Return tt, s1, t) ->
  guard_released s l = true
  /\ forall l', guard_released s1 l' = true -> guard_released s l' = true.
Proof.
  intros Hrun. destruct (guard_released s l) eqn:Hg.
  - split; [reflexivity|].
    destruct (end_mutex_body_released s l Hg) as (s2 & t2 & Heq & _ & _ & Hother).
    rewrite Heq in Hrun. injection Hrun as <- _.
    intros l' Hl'. destruct (decide (l = l')) as [<-|Hne]; [exact Hg|].
    unfold guard_released in *. rewrite <- (Hother l' Hne). exact Hl'.
  - exfalso. unfold guard_released in Hg. unfold end_mutex_body in Hrun.
    destruct (object_at s l) as [o|] eqn:Hl.
    + rewrite (bind_Return _ _ _ _ _ _ (deref_run s l o Hl)), after_nil in Hrun.
      pose proof (mutex_acquire_run s l o Hl) as Hacq.
      destruct (Streamer.mutex o) as [| |[|]]; try discriminate; simpl in Hrun;
        rewrite (bind_Block _ _ _ _ _ Hacq) in Hrun; discriminate.
    + rewrite (bind_Raise _ _ _ _ _ _ (deref_dangling s l Hl)) in Hrun. discriminate.
Qed.

Lemma end_drain_returned (ls : list loc) s s1 t :
  for_each ls end_mutex_body s = (Return tt, s1, t) ->
  forallb (guard_released s) ls = true.
Proof.
  revert s t. induction ls as [|l ls IH]; intros s t Hrun; [reflexivity|].
  simpl in Hrun. apply bind_Return_inv in Hrun as ([] & s2 & t2 & t3 & Hb & Hrest & _).
  destruct (end_mutex_body_returned s l s2 t2 Hb) as [Hl Hback].
  simpl. rewrite Hl. simpl.
  apply forallb_forall. intros l' Hin. apply Hback.
  pose proof (IH s2 t3 Hrest) as Hall. rewrite forallb_forall in Hall.
  apply Hall, Hin.
Qed.

Lemma end_prologue_returned s s1 t1 :
  end_prologue s = (Return tt, s1, t1) -> shutdown_ready s = true.
Proof.
  intros Hpro. pose proof (end_prologue_pool s s1 t1 Hpro) as [p Hpool].
  apply end_prologue_inv in Hpro as (sa & ta & td & Hchat & Hself & Hjoin & Hdrain).
  set (sb := mkState (Miner.set_running false (self sa))
                     (World.set_twitch_running false (world sa))) in *.
  unfold shutdown_ready. rewrite Hpool, !andb_true_iff.
  split; [split; [split; [exact (end_chats_returned _ s sa ta Hchat) | reflexivity]|]|].
  - rewrite end_join_workers_outcome in Hjoin.
    change (workers_exit (self sb)) with (workers_exit (self sa)) in Hjoin.
    rewrite Hself in Hjoin. destruct (workers_exit (self s)); [reflexivity|discriminate].
  - pose proof (end_join_workers_world sb) as [Hworld Hstreamers].
    unfold end_drain_mutexes in Hdrain.
    apply bind_Return_inv in Hdrain as (m & s2 & t3 & t4 & Hget & Hloop & _).
    injection Hget as <- <- _.
    apply end_drain_returned in Hloop. rewrite Hstreamers in Hloop.
    change (Miner.streamers (self sb)) with (Miner.streamers (self sa)) in Hloop.
    rewrite Hself in Hloop.
    unfold guards_released. rewrite <- Hloop. apply forallb_pointwise. intros l.
    symmetry. apply guard_released_mutex. unfold object_at. rewrite Hworld.
    pose proof (end_chats_guards l (Streamer.mutex <$> object_at s l)
                  (Miner.streamers (self s)) s eq_refl) as Hm.
    rewrite Hchat in Hm. exact Hm.
Qed.

(** *** X19
    [end] leaves the process with [sys.exit(0)] if and only if nothing
    holds the shutdown up (every chat thread and both workers end, the
    pool exists, every guard is free or about to be released) and the
    report has all it reads. *)
Theorem end_exits_iff_nothing_is_in_its_way (s : state) :
  outcome_of (end_ s) = Raise (SystemExit 0)
  <-> shutdown_ready s = true /\ report_ready s = true.
Proof.
  split.
  - destruct (end_ s) as [[o s'] t] eqn:Hend. unfold outcome_of. simpl. intros ->.
    apply end_exit_inv in Hend as (s1 & t1 & t2 & Hpro & Hrep & _).
    split; [exact (end_prologue_returned s s1 t1 Hpro)|].
    pose proof (end_prologue_view s) as Hview. rewrite Hpro in Hview.
    unfold state_of in Hview. simpl in Hview.
    rewrite <- (report_ready_view s s1 Hview).
    apply print_report_returns_ready. rewrite Hrep. reflexivity.
  - intros [Hshutdown Hready].
    destruct (end_prologue_returns s Hshutdown) as (s1 & t1 & Hpro).
    pose proof (end_prologue_view s) as Hview. rewrite Hpro in Hview.
    unfold state_of in Hview. simpl in Hview.
    assert (Hready1 : report_ready s1 = true)
      by (rewrite (report_ready_view s s1 Hview); exact Hready).
    destruct (end_after_prologue s s1 t1 Hpro Hready1) as [Hend _].
    rewrite Hend. reflexivity.
Qed.

(** ** The names of the [streamers] argument *)



(** ** The order of the returned streamers *)

Lemma try_except_Return_inv {A} (c h : M A) s a s' t :
  try_except_StreamerDoesNotExist c h s = (Return a, s', t) ->
  c s = (Return a, s', t)
  \/ exists s1 t1 t2,
       c s = (Raise StreamerDoesNotExistException, s1, t1)
       /\ h s1 = (Return a, s', t2).
Proof.
  unfold try_except_StreamerDoesNotExist.
  destruct (c s) as [[[a0|e|] s1] t1]; try discriminate.
  - intros H. left. exact H.
  - destruct e; try discriminate.
    destruct (h s1) as [[o s2] t2] eqn:Hh. intros [= -> -> _].
    right. exists s1, t1, t2. auto.
Qed.

Lemma resolve_try_returns ext dict acc name s arr s' t :
  reload_resolve_try ext dict acc name s = (Return arr, s', t) ->
  exists l, dict !! name = Some l /\ arr = acc ++ [l].
Proof.
  unfold reload_resolve_try. intros H.
  apply bind_Return_inv in H as (l & s1 & t1 & t2 & Hl & H & _).
  destruct (dict !! name) as [l0|]; [|discriminate]. injection Hl as <- _ _.
  apply bind_Return_inv in H as (o & s2 & t3 & t4 & _ & H & _).
  apply bind_Return_inv in H as ([] & s3 & t5 & t6 & _ & H & _).
  apply bind_Return_inv in H as ([] & s4 & t7 & t8 & _ & H & _).
  apply bind_Return_inv in H as (w & s5 & t9 & t10 & _ & H & _).
  apply bind_Return_inv in H as ([] & s6 & t11 & t12 & _ & H & _).
  apply bind_Return_inv in H as (m & s7 & t13 & t14 & _ & H & _).
  apply bind_Return_inv in H as ([] & s8 & t15 & t16 & _ & H & _).
  injection H as <- _ _. exists l0. auto.
Qed.

Lemma resolve_loop_order ext dict (names : list string) :
  forall acc s arr s' t,
    for_fold names (reload_resolve_body ext dict) acc s = (Return arr, s', t) ->
    exists rest, arr = acc ++ rest /\ rest `sublist_of` omap (fun n => dict !! n) names.
Proof.
  induction names as [|name names IH]; intros acc s arr s' t Hrun.
  - injection Hrun as <- _ _. exists []. rewrite app_nil_r. split; [reflexivity|].
    constructor.
  - cbn [for_fold] in Hrun.
    apply bind_Return_inv in Hrun as (acc1 & s1 & t1 & t2 & Hbody & Hrest & _).
    destruct (IH acc1 s1 arr s' t2 Hrest) as (rest & -> & Hsub).
    unfold reload_resolve_body in Hbody.
    apply try_except_Return_inv in Hbody as [Htry|(s2 & t3 & t4 & _ & Hh)].
    + apply resolve_try_returns in Htry as (l & Hl & ->).
      exists (l :: rest). rewrite <- app_assoc. split; [reflexivity|].
      simpl. rewrite Hl. simpl. constructor. exact Hsub.
    + unfold log_info in Hh. rewrite (bind_Return _ _ _ _ _ _ (emit_run _ s2)) in Hh.
      injection Hh as <- _ _. exists rest. split; [reflexivity|].
      simpl. destruct (dict !! name); simpl; [constructor|]; exact Hsub.
Qed.

(** *** X21
    The streamers that the resolve loop returns are the dictionary
    entries of the gathered names, in the order of the names, less the
    ones whose channel does not exist. *)
Theorem resolved_streamers_keep_the_order_of_the_names (ext : Externals.t)
    (dict : gmap string loc) (names : list string) (s s' : state)
    (arr : list loc) (t : list event) :
  for_fold names (reload_resolve_body ext dict) [] s = (Return arr, s', t) ->
  arr `sublist_of` omap (fun n => dict !! n) names.
Proof.
  intros Hrun.
  destruct (resolve_loop_order ext dict names [] s arr s' t Hrun) as (rest & -> & Hsub).
  exact Hsub.
Qed.

Lemma resolved_streamers_keep_the_order_of_the_names_witness :
  outcome_of (for_fold ["foo"; "?x"; "bar"]
                (reload_resolve_body (Sample.ext []) Scenario.three_names) []
                Scenario.three_new)
  = Return [0; 2]
  /\ [0; 2] `sublist_of` omap (fun n => Scenario.three_names !! n) ["foo"; "?x"; "bar"].
Proof.
  split; [vm_compute; reflexivity|].
  apply (resolved_streamers_keep_the_order_of_the_names (Sample.ext [])
           Scenario.three_names ["foo"; "?x"; "bar"] Scenario.three_new
           (state_of (for_fold ["foo"; "?x"; "bar"]
                        (reload_resolve_body (Sample.ext []) Scenario.three_names) []
                        Scenario.three_new))
           [0; 2]
           (trace_of (for_fold ["foo"; "?x"; "bar"]
                        (reload_resolve_body (Sample.ext []) Scenario.three_names) []
                        Scenario.three_new))).
  vm_compute. reflexivity.
Defined.
